(** * FAQ extraction scripts: a shallow embedding and its properties

    The development embeds the row-classification loop of
    [scripts/parse_excel_faq.py] ([parse_faq_excel]) and of
    [scripts/parse_excel_faq_cbre.py] ([parse_cbre_faq]), the JSON file
    through which the other scripts receive the extracted mapping, and the
    two scripts that read it: [scripts/generate_sql_inserts.py] and the
    loop of [scripts/generate_quick_questions.py].

    Conventions of the embedding.
    - A Python [str] is a Rocq [string]; each [ascii] is read as the code
      point of the same number (0..255, the Latin-1 block of Unicode).  The
      character classes used by [str.strip], [str.isdigit], [str.lower] and
      [int] are written out for these code points.
    - A spreadsheet cell, as pandas hands it to the loop, is absent ([NaN]),
      a text ([Str]) or an integer ([Int]); other scalars (floats, dates,
      booleans) are left out.
    - A raised exception ends the run: fallible operations live in the
      [result] monad.
    - A Python [dict] keeps insertion order: it is an association list
      without repeated keys, updated in place.
    - [print] appends a line to the [stdout] component of the loop state.
    - [int] rejects a literal of more than 4300 digits, the default of
      [sys.int_max_str_digits].  [str] of an integer has the same limit:
      the integers of more than 4300 digits, on which it raises, are left
      out of the integer cells. *)

From Stdlib Require Import ZArith String Ascii List Bool Lia.
From Stdlib Require Import Sorting.Sorted.
From Stdlib Require Import Numbers.DecimalString.
From Stdlib Require DecimalFacts DecimalPos DecimalZ.
Import ListNotations.

Local Open Scope string_scope.
Local Open Scope list_scope.
Local Open Scope Z_scope.

(** ** Python text primitives *)

Module PyStr.

Definition code (c : ascii) : N := N_of_ascii c.

(** Characters removed by [str.strip()]:
    U+0009..U+000D, U+001C..U+0020, U+0085, U+00A0. *)
Definition isspace (c : ascii) : bool :=
  let n := code c in
  (((9 <=? n) && (n <=? 13)) || ((28 <=? n) && (n <=? 32))
   || (n =? 133) || (n =? 160))%N.

(** Characters skipped by [int()] around the literal:
    U+0009..U+000D, U+0020, U+0085, U+00A0 (not U+001C..U+001F). *)
Definition int_space (c : ascii) : bool :=
  let n := code c in
  (((9 <=? n) && (n <=? 13)) || (n =? 32) || (n =? 133) || (n =? 160))%N.

(** Decimal digits: the characters [int()] converts. *)
Definition decimal_value (c : ascii) : option Z :=
  let n := code c in
  if ((48 <=? n) && (n <=? 57))%N then Some (Z.of_N n - 48) else None.

Definition isdecimal (c : ascii) : bool :=
  match decimal_value c with Some _ => true | None => false end.

(** Characters accepted by [str.isdigit()]: the decimal digits and the
    superscripts U+00B2, U+00B3, U+00B9. *)
Definition isdigit_char (c : ascii) : bool :=
  let n := code c in
  (isdecimal c || (n =? 178) || (n =? 179) || (n =? 185))%N.

(** [str.lower()] on one character: A..Z and U+00C0..U+00DE except
    U+00D7 move up by 32. *)
Definition lower_char (c : ascii) : ascii :=
  let n := code c in
  if (((65 <=? n) && (n <=? 90))
      || ((192 <=? n) && (n <=? 222) && negb (n =? 215)))%N
  then ascii_of_N (n + 32) else c.

Fixpoint lower (s : string) : string :=
  match s with
  | EmptyString => EmptyString
  | String c s' => String (lower_char c) (lower s')
  end.

Fixpoint lstrip_of (p : ascii -> bool) (s : string) : string :=
  match s with
  | EmptyString => EmptyString
  | String c s' => if p c then lstrip_of p s' else s
  end.

Fixpoint rstrip_of (p : ascii -> bool) (s : string) : string :=
  match s with
  | EmptyString => EmptyString
  | String c s' =>
      match rstrip_of p s' with
      | EmptyString => if p c then EmptyString else String c EmptyString
      | r => String c r
      end
  end.

(** [s] without its leading and trailing characters of class [p]. *)
Definition strip_of (p : ascii -> bool) (s : string) : string :=
  rstrip_of p (lstrip_of p s).

(** [s.strip()] *)
Definition strip (s : string) : string := strip_of isspace s.

Fixpoint all_chars (p : ascii -> bool) (s : string) : bool :=
  match s with
  | EmptyString => true
  | String c s' => p c && all_chars p s'
  end.

(** [s.isdigit()]: at least one character, all of them digits. *)
Definition isdigit (s : string) : bool :=
  match s with
  | EmptyString => false
  | _ => all_chars isdigit_char s
  end.

(** [sub in s] *)
Fixpoint contains (sub s : string) : bool :=
  prefix sub s ||
  match s with
  | EmptyString => false
  | String _ s' => contains sub s'
  end.

(** [s[:n]] *)
Definition slice_to (n : nat) (s : string) : string := substring 0 n s.

(** [str(z)] for an integer. *)
Definition of_int (z : Z) : string := NilZero.string_of_int (Z.to_int z).

(** The digits of an [int()] literal after the sign: decimal digits, with
    single underscores allowed between two digits. *)
Fixpoint int_body (acc : Z) (after_digit : bool) (s : string) : option Z :=
  match s with
  | EmptyString => if after_digit then Some acc else None
  | String c s' =>
      match decimal_value c with
      | Some d => int_body (10 * acc + d) true s'
      | None =>
          if Ascii.eqb c "_" && after_digit then int_body acc false s'
          else None
      end
  end.

(** The default of [sys.int_max_str_digits]. *)
Definition int_max_str_digits : N := 4300.

(** The number of decimal digits of a literal; underscores do not count. *)
Fixpoint count_digits (s : string) : N :=
  match s with
  | EmptyString => 0%N
  | String c s' =>
      if isdecimal c then N.succ (count_digits s') else count_digits s'
  end.

(** The value of the digits of a literal: a literal of more than
    [int_max_str_digits] digits is rejected, leading zeros included. *)
Definition int_digits (s : string) : option Z :=
  if (int_max_str_digits <? count_digits s)%N then None
  else int_body 0 false s.

(** [int(s)] for a text [s]; [None] stands for [ValueError]. *)
Definition to_int (s : string) : option Z :=
  match strip_of int_space s with
  | EmptyString => None
  | String c s' =>
      if Ascii.eqb c "+" then int_digits s'
      else if Ascii.eqb c "-" then option_map Z.opp (int_digits s')
      else int_digits (String c s')
  end.

(** [c * n] for a character [c]. *)
Fixpoint repeat_char (c : ascii) (n : nat) : string :=
  match n with
  | O => EmptyString
  | S n' => String c (repeat_char c n')
  end.

(** Text made of decimal digits only, and at least one. *)
Definition decimal_digits (s : string) : bool :=
  match s with
  | EmptyString => false
  | _ => all_chars isdecimal s
  end.

End PyStr.

(** ** Exceptions and results *)

Inductive exn : Type :=
| KeyError
| AttributeError
| ValueError.

Inductive result (A : Type) : Type :=
| Ok (a : A)
| Raise (e : exn).

Arguments Ok {A} a.
Arguments Raise {A} e.

Definition bind {A B : Type} (r : result A) (k : A -> result B) : result B :=
  match r with
  | Ok a => k a
  | Raise e => Raise e
  end.

Notation "x <- r ;; k" := (bind r (fun x => k))
  (at level 61, r at next level, right associativity).

(** ** Cells, rows, records and the result mapping *)

Inductive cell : Type :=
| NaN
| Str (s : string)
| Int (z : Z).

(** A row of the frame ([pandas.Series] indexed by column position). *)
Definition Series : Type := list cell.

(** The grid read by [pd.read_excel(..., header=None)]. *)
Definition DataFrame : Type := list Series.

(** [pd.notna(c)] *)
Definition notna (c : cell) : bool :=
  match c with NaN => false | _ => true end.

(** [str(c)] *)
Definition py_str (c : cell) : string :=
  match c with
  | NaN => "nan"
  | Str s => s
  | Int z => PyStr.of_int z
  end.

(** [row[i]]: a missing column label raises [KeyError]. *)
Definition getitem (row : Series) (i : nat) : result cell :=
  match nth_error row i with
  | Some c => Ok c
  | None => Raise KeyError
  end.

(** [int(c)] *)
Definition py_int (c : cell) : result Z :=
  match c with
  | NaN => Raise ValueError
  | Int z => Ok z
  | Str s =>
      match PyStr.to_int s with
      | Some z => Ok z
      | None => Raise ValueError
      end
  end.

(** One extracted question: [{"number": .., "question": .., "answer": ..}]. *)
Record Record_ : Type := mkRecord {
  number : Z;
  question : string;
  answer : string
}.

(** An insertion-ordered dictionary with text keys. *)
Definition dict (V : Type) : Type := list (string * V).

Fixpoint dict_get {V : Type} (d : dict V) (k : string) : option V :=
  match d with
  | [] => None
  | (k', v) :: d' => if String.eqb k' k then Some v else dict_get d' k
  end.

(** [d[k] = v]: an existing key keeps its position. *)
Fixpoint dict_set {V : Type} (d : dict V) (k : string) (v : V) : dict V :=
  match d with
  | [] => [(k, v)]
  | (k', v') :: d' =>
      if String.eqb k' k then (k', v) :: d' else (k', v') :: dict_set d' k v
  end.

Definition keys {V : Type} (d : dict V) : list string := map fst d.

(** [d[k].append(x)]: a missing key raises [KeyError]. *)
Definition dict_append {V : Type} (d : dict (list V)) (k : string) (x : V)
  : result (dict (list V)) :=
  match dict_get d k with
  | Some l => Ok (dict_set d k (l ++ [x]))
  | None => Raise KeyError
  end.

(** ** JSON text, as [json.dump] writes it and [json.load] reads it *)

Module Json.

Import PyStr.
Local Open Scope string_scope.

#[local] Set Warnings "-register-all".

(** The Python values that [json] writes and reads: [None], booleans,
    integers, texts, lists, and dictionaries with text keys.  Floats are
    left out. *)
Inductive value : Type :=
| Null
| Boolean (b : bool)
| Num (z : Z)
| Text (s : string)
| List (l : list value)
| Dict (d : dict value).

(** [chr(n)] *)
Definition chr (n : N) : ascii := ascii_of_N n.

(** [sep.join(xs)] *)
Fixpoint join (sep : string) (xs : list string) : string :=
  match xs with
  | [] => ""
  | [x] => x
  | x :: rest => x ++ sep ++ join sep rest
  end.

(** [' ' * n] *)
Fixpoint spaces (n : nat) : string :=
  match n with O => "" | S n' => String " " (spaces n') end.

(** The line break before an item at nesting [level], for [indent=2]. *)
Definition newline_indent (level : nat) : string :=
  String (chr 10) (spaces (2 * level)).

(** One digit of the [04x] format. *)
Definition hex_digit (n : N) : ascii :=
  if (n <? 10)%N then chr (48 + n) else chr (87 + n).

(** The replacement of one character in a text, for
    [ensure_ascii=False]: the quote, the backslash and the control
    characters are escaped, every other character is written as it is. *)
Definition escape (c : ascii) : string :=
  match code c with
  | 34%N => String "\" (String (chr 34) "")
  | 92%N => "\\"
  | 8%N => "\b"
  | 12%N => "\f"
  | 10%N => "\n"
  | 13%N => "\r"
  | 9%N => "\t"
  | n =>
      if (n <? 32)%N then
        "\u00" ++ String (hex_digit (n / 16)) (String (hex_digit (n mod 16)) "")
      else String c ""
  end.

Fixpoint escape_all (s : string) : string :=
  match s with
  | EmptyString => ""
  | String c s' => escape c ++ escape_all s'
  end.

(** A text between quotes. *)
Definition encode_basestring (s : string) : string :=
  String (chr 34) (escape_all s ++ String (chr 34) "").

(** The text of a value at nesting [level], for [indent=2]: items on
    lines of their own, separated by a comma, keys followed by a colon
    and a space. *)
Fixpoint encode (level : nat) (v : value) : string :=
  match v with
  | Null => "null"
  | Boolean true => "true"
  | Boolean false => "false"
  | Num z => of_int z
  | Text s => encode_basestring s
  | List [] => "[]"
  | List l =>
      "[" ++ newline_indent (S level)
          ++ join ("," ++ newline_indent (S level)) (map (encode (S level)) l)
          ++ newline_indent level ++ "]"
  | Dict [] => "{}"
  | Dict d =>
      "{" ++ newline_indent (S level)
          ++ join ("," ++ newline_indent (S level))
               (map (fun kv => (encode_basestring (fst kv) ++ ": "
                                 ++ encode (S level) (snd kv))%string) d)
          ++ newline_indent level ++ "}"
  end.

(** [json.dumps(v, indent=2, ensure_ascii=False)], the text that
    [json.dump] writes. *)
Definition dumps (v : value) : string := encode 0 v.

(** One [key: value] line of a dictionary. *)
Definition item (lvl : nat) (kv : string * value) : string :=
  encode_basestring (fst kv) ++ ": " ++ encode lvl (snd kv).

(** Nesting depth of a value. *)
Fixpoint height (v : value) : nat :=
  match v with
  | List l => S (fold_right (fun x m => Nat.max (height x) m) 0%nat l)
  | Dict d =>
      S (fold_right (fun kv m => Nat.max (height (snd kv)) m) 0%nat d)
  | _ => 1%nat
  end.

(** Every dictionary inside the value has distinct keys, as a Python
    [dict] does. *)
Fixpoint distinct_keys (v : value) : Prop :=
  match v with
  | List l => fold_right (fun x P => distinct_keys x /\ P) True l
  | Dict d =>
      NoDup (map fst d) /\
      fold_right (fun kv P => distinct_keys (snd kv) /\ P) True d
  | _ => True
  end.

(** *** [json.loads] *)

(** The blanks between tokens: space, tab, line feed, carriage return. *)
Definition is_ws (c : ascii) : bool :=
  match code c with
  | 32%N | 9%N | 10%N | 13%N => true
  | _ => false
  end.

Fixpoint skip_ws (s : string) : string :=
  match s with
  | EmptyString => ""
  | String c s' => if is_ws c then skip_ws s' else s
  end.

Definition hex_value (c : ascii) : option N :=
  let n := code c in
  if ((48 <=? n) && (n <=? 57))%N then Some (n - 48)%N
  else if ((97 <=? n) && (n <=? 102))%N then Some (n - 87)%N
  else if ((65 <=? n) && (n <=? 70))%N then Some (n - 55)%N
  else None.

(** The four hexadecimal digits of a [\u] escape. *)
Definition hex4 (a b c d : ascii) : option N :=
  match hex_value a, hex_value b, hex_value c, hex_value d with
  | Some x, Some y, Some z, Some w => Some (((x * 16 + y) * 16 + z) * 16 + w)%N
  | _, _, _, _ => None
  end.

Definition push (c : ascii) (r : option (string * string))
  : option (string * string) :=
  match r with
  | Some (t, rest) => Some (String c t, rest)
  | None => None
  end.

(** The text after an opening quote, up to the closing quote, and what
    follows it.  A control character, a wrong escape or a missing quote
    is an error; so is, here, an escape of a character above U+00FF. *)
Fixpoint scanstring (s : string) : option (string * string) :=
  match s with
  | EmptyString => None
  | String c s1 =>
      match code c with
      | 34%N => Some ("", s1)
      | 92%N =>
          match s1 with
          | EmptyString => None
          | String e s2 =>
              match code e with
              | 34%N => push (chr 34) (scanstring s2)
              | 92%N => push (chr 92) (scanstring s2)
              | 47%N => push (chr 47) (scanstring s2)
              | 98%N => push (chr 8) (scanstring s2)
              | 102%N => push (chr 12) (scanstring s2)
              | 110%N => push (chr 10) (scanstring s2)
              | 114%N => push (chr 13) (scanstring s2)
              | 116%N => push (chr 9) (scanstring s2)
              | 117%N =>
                  match s2 with
                  | String h1 (String h2 (String h3 (String h4 s3))) =>
                      match hex4 h1 h2 h3 h4 with
                      | Some n =>
                          if (n <? 256)%N then push (chr n) (scanstring s3)
                          else None
                      | None => None
                      end
                  | _ => None
                  end
              | _ => None
              end
          end
      | n => if (n <? 32)%N then None else push c (scanstring s1)
      end
  end.

Definition is_digit (c : ascii) : bool :=
  let n := code c in ((48 <=? n) && (n <=? 57))%N.

(** The longest run of digits at the head of [s], and the rest. *)
Fixpoint span_digits (s : string) : string * string :=
  match s with
  | EmptyString => ("", "")
  | String c s' =>
      if is_digit c then
        let (ds, rest) := span_digits s' in (String c ds, rest)
      else ("", s)
  end.

(** A fraction or an exponent follows: the number is not an integer (or
    the text is wrong). *)
Definition float_follows (rest : string) : bool :=
  match rest with
  | String c _ =>
      match code c with
      | 46%N | 101%N | 69%N => true
      | _ => false
      end
  | EmptyString => false
  end.

(** A zero followed by more digits is not a number. *)
Definition leading_zero (ds : string) : bool :=
  match ds with
  | String c (String _ _) => (code c =? 48)%N
  | _ => false
  end.

(** An integer: an optional minus sign and digits. *)
Definition scan_number (s : string) : option (value * string) :=
  let (neg, body) :=
    match s with
    | String c s' => if (code c =? 45)%N then (true, s') else (false, s)
    | EmptyString => (false, s)
    end in
  let (ds, rest) := span_digits body in
  if leading_zero ds || float_follows rest then None
  else
    match NilZero.uint_of_string ds with
    | Some d =>
        Some (Num (Z.of_int (if neg then Decimal.Neg d else Decimal.Pos d)),
              rest)
    | None => None
    end.

Fixpoint drop_prefix (word s : string) : option string :=
  match word with
  | EmptyString => Some s
  | String c w =>
      match s with
      | String c' s' => if Ascii.eqb c c' then drop_prefix w s' else None
      | EmptyString => None
      end
  end.

Definition literal (word : string) (v : value) (s : string)
  : option (value * string) :=
  match drop_prefix word s with
  | Some r => Some (v, r)
  | None => None
  end.

(** A decoder reads a value at the head of the text and gives the rest
    back; [None] is [JSONDecodeError]. *)
Definition parser : Type := string -> option (value * string).

(** The items of a list after the first token, up to the closing
    bracket; [n] bounds the number of items. *)
Fixpoint array_items (scan_once : parser) (n : nat) (s : string)
  : option (list value * string) :=
  match n with
  | O => None
  | S n' =>
      match scan_once s with
      | None => None
      | Some (v, r) =>
          match skip_ws r with
          | String c r' =>
              match code c with
              | 93%N => Some ([v], r')
              | 44%N =>
                  match array_items scan_once n' (skip_ws r') with
                  | Some (vs, r'') => Some (v :: vs, r'')
                  | None => None
                  end
              | _ => None
              end
          | EmptyString => None
          end
      end
  end.

Definition scan_array (scan_once : parser) (s : string)
  : option (value * string) :=
  match skip_ws s with
  | EmptyString => None
  | String c r as s' =>
      if (code c =? 93)%N then Some (List [], r)
      else
        match array_items scan_once (String.length s') s' with
        | Some (vs, r') => Some (List vs, r')
        | None => None
        end
  end.

(** The [key: value] pairs of a dictionary, up to the closing brace. *)
Fixpoint object_items (scan_once : parser) (n : nat) (s : string)
  : option (list (string * value) * string) :=
  match n with
  | O => None
  | S n' =>
      match s with
      | String q s1 =>
          if (code q =? 34)%N then
            match scanstring s1 with
            | None => None
            | Some (key, r) =>
                match skip_ws r with
                | String c r1 =>
                    if (code c =? 58)%N then
                      match scan_once (skip_ws r1) with
                      | None => None
                      | Some (v, r2) =>
                          match skip_ws r2 with
                          | String c2 r3 =>
                              match code c2 with
                              | 125%N => Some ([(key, v)], r3)
                              | 44%N =>
                                  match object_items scan_once n'
                                                     (skip_ws r3) with
                                  | Some (kvs, r4) => Some ((key, v) :: kvs, r4)
                                  | None => None
                                  end
                              | _ => None
                              end
                          | EmptyString => None
                          end
                      end
                    else None
                | EmptyString => None
                end
            end
          else None
      | EmptyString => None
      end
  end.

(** [dict(pairs)]: a repeated key keeps its first place and its last value. *)
Definition dict_of_pairs (pairs : list (string * value)) : dict value :=
  fold_left (fun d kv => dict_set d (fst kv) (snd kv)) pairs [].

Definition scan_object (scan_once : parser) (s : string)
  : option (value * string) :=
  match skip_ws s with
  | EmptyString => None
  | String c r as s' =>
      if (code c =? 125)%N then Some (Dict [], r)
      else
        match object_items scan_once (String.length s') s' with
        | Some (kvs, r') => Some (Dict (dict_of_pairs kvs), r')
        | None => None
        end
  end.

(** One value, by its first character; [depth] bounds the nesting. *)
Fixpoint scan_once (depth : nat) (s : string) : option (value * string) :=
  match depth with
  | O => None
  | S depth' =>
      match s with
      | EmptyString => None
      | String c s1 =>
          match code c with
          | 34%N =>
              match scanstring s1 with
              | Some (t, r) => Some (Text t, r)
              | None => None
              end
          | 123%N => scan_object (scan_once depth') s1
          | 91%N => scan_array (scan_once depth') s1
          | 110%N => literal "ull" Null s1
          | 116%N => literal "rue" (Boolean true) s1
          | 102%N => literal "alse" (Boolean false) s1
          | _ => scan_number s
          end
      end
  end.

(** [json.loads(s)], what [json.load] returns for the text [s]: one
    value between optional blanks, and nothing else.  [None] is
    [JSONDecodeError], or a text with a number that is not an integer
    (a fraction, an exponent, [NaN], [Infinity]), which is left out. *)
Definition loads (s : string) : option value :=
  match scan_once (S (String.length s)) (skip_ws s) with
  | Some (v, r) =>
      match skip_ws r with
      | EmptyString => Some v
      | _ => None
      end
  | None => None
  end.

(** What may follow a value in an encoded text: nothing, a comma or a
    line feed. *)
Definition delimited (rest : string) : bool :=
  match rest with
  | EmptyString => true
  | String c _ => ((code c =? 44) || (code c =? 10))%N
  end.

End Json.

(** ** The extraction loop *)

(** The local variables of the loop, and what it has printed. *)
Record locals : Type := mkLocals {
  faq_data : dict (list Record_);
  current_section : option string;
  stdout : list string
}.

(** Which branch of the [if]/[elif] a row takes. *)
Inductive row_kind : Type :=
| HeaderRow
| DataRow
| OtherRow.

(** The two scripts run the same loop and differ in five places. *)
Record variant : Type := mkVariant {
  header_test : cell -> bool;            (* the [if] condition, on [row[2]] *)
  section_label : cell -> result string; (* [section_name], from [row[1]] *)
  map_section_name : string -> string;   (* "Map section names" *)
  section_line : string -> string;       (* the line printed for a section *)
  record_line : Z -> string -> string    (* the line printed for a record *)
}.

(** [parse_excel_faq.py] *)
Module Excel.

(** Line 15: [pd.notna(row[2]) and row[2] == "Answer"]. *)
Definition header_test (c2 : cell) : bool :=
  notna c2 &&
  match c2 with
  | Str s => String.eqb s "Answer"
  | _ => false
  end.

(** Line 18: [row[1].strip()]; only a text has the method. *)
Definition section_label (c1 : cell) : result string :=
  match c1 with
  | Str s => Ok (PyStr.strip s)
  | _ => Raise AttributeError
  end.

(** Lines 20-29. *)
Definition map_section_name (section_name : string) : string :=
  if String.eqb (PyStr.lower section_name) "coverage" then
    "Benefit Coverage"
  else if String.eqb (PyStr.lower section_name) "letter of guarantee" then
    "Letter of Guarantee (LOG)"
  else if String.eqb (PyStr.lower section_name) "system" then
    "Portal Matters"
  else if existsb (String.eqb (PyStr.lower section_name))
                  ["claims"; "status"] then
    "Claims Status"
  else
    section_name.

(** Line 32. *)
Definition section_line (current_section : string) : string :=
  "Found section: " ++ current_section.

(** Line 46. *)
Definition record_line (number : Z) (question : string) : string :=
  "  Q" ++ PyStr.of_int number ++ ": " ++ PyStr.slice_to 60 question ++ "...".

Definition dialect : variant :=
  mkVariant header_test section_label map_section_name
            section_line record_line.

End Excel.

(** [parse_excel_faq_cbre.py] *)
Module Cbre.

(** Line 15: [pd.notna(row[2]) and str(row[2]).strip() == 'Answer']. *)
Definition header_test (c2 : cell) : bool :=
  notna c2 && String.eqb (PyStr.strip (py_str c2)) "Answer".

(** Line 18: [str(row[1]).strip()]. *)
Definition section_label (c1 : cell) : result string :=
  Ok (PyStr.strip (py_str c1)).

(** Lines 21-30. *)
Definition map_section_name (section_name : string) : string :=
  if PyStr.contains "Coverage" section_name then
    "Benefit Coverage"
  else if PyStr.contains "Letter of Guarantee" section_name then
    "Letter of Guarantee (LOG)"
  else if PyStr.contains "System" section_name then
    "Portal Matters"
  else if PyStr.contains "Status" section_name then
    "Claims Status"
  else
    section_name.

(** Line 33. *)
Definition section_line (current_section : string) : string :=
  "Section: " ++ current_section.

(** Line 47. *)
Definition record_line (number : Z) (question : string) : string :=
  "  Q" ++ PyStr.of_int number ++ ": " ++ PyStr.slice_to 70 question.

Definition dialect : variant :=
  mkVariant header_test section_label map_section_name
            section_line record_line.

End Cbre.

(** Truth value of a text: [if s]. *)
Definition truthy (s : string) : bool := negb (String.eqb s "").

(** The data-row test of the [elif], on [row[0]]:
    [pd.notna(row[0]) and str(row[0]).strip().isdigit()]. *)
Definition data_test (c0 : cell) : bool :=
  notna c0 && PyStr.isdigit (PyStr.strip (py_str c0)).

(** [str(c).strip() if pd.notna(c) else ""] *)
Definition text_or_empty (c : cell) : string :=
  if notna c then PyStr.strip (py_str c) else "".

Section Loop.

Variable V : variant.

(** The [if]/[elif] conditions, in the order the loop evaluates them. *)
Definition classify (row : Series) : result row_kind :=
  c2 <- getitem row 2 ;;
  if header_test V c2 then Ok HeaderRow
  else
    c0 <- getitem row 0 ;;
    if data_test c0 then Ok DataRow else Ok OtherRow.

(** Body of the [if]: a section header. *)
Definition header_row (st : locals) (row : Series) : result locals :=
  c1 <- getitem row 1 ;;
  if notna c1 then
    section_name <- section_label V c1 ;;
    let cs := map_section_name V section_name in
    Ok {| faq_data := dict_set (faq_data st) cs [];
          current_section := Some cs;
          stdout := stdout st ++ [section_line V cs] |}
  else Ok st.

(** Body of the [elif]: a question row. *)
Definition data_row (st : locals) (row : Series) : result locals :=
  c0 <- getitem row 0 ;;
  number <- py_int c0 ;;
  c1 <- getitem row 1 ;;
  let question := text_or_empty c1 in
  c2 <- getitem row 2 ;;
  let answer := text_or_empty c2 in
  match current_section st with
  | Some cs =>
      if truthy cs && truthy question then
        fd <- dict_append (faq_data st) cs
                {| number := number; question := question;
                   answer := answer |} ;;
        Ok {| faq_data := fd;
              current_section := current_section st;
              stdout := stdout st ++ [record_line V number question] |}
      else Ok st
  | None => Ok st
  end.

(** One iteration of [for idx, row in df.iterrows()]. *)
Definition loop_body (st : locals) (row : Series) : result locals :=
  k <- classify row ;;
  match k with
  | HeaderRow => header_row st row
  | DataRow => data_row st row
  | OtherRow => Ok st
  end.

Fixpoint iterrows (df : DataFrame) (st : locals) : result locals :=
  match df with
  | [] => Ok st
  | row :: rest => st' <- loop_body st row ;; iterrows rest st'
  end.

(** The locals before the loop; [out] is what was printed before. *)
Definition initial (out : list string) : locals :=
  {| faq_data := []; current_section := None; stdout := out |}.

(** The loop from its initial locals: the mapping and the output. *)
Definition extract (df : DataFrame) (out : list string)
  : result (dict (list Record_) * list string) :=
  st <- iterrows df (initial out) ;;
  Ok (faq_data st, stdout st).

(** The section a row opens: the row passes the header test and has a
    label in column 1. *)
Definition opens (row : Series) : option string :=
  match classify row, getitem row 1 with
  | Ok HeaderRow, Ok c1 =>
      if notna c1 then
        match section_label V c1 with
        | Ok section_name => Some (map_section_name V section_name)
        | Raise _ => None
        end
      else None
  | _, _ => None
  end.

(** The record a row yields: the row passes the data test and has a
    question in column 1. *)
Definition record_of (row : Series) : option Record_ :=
  match classify row, getitem row 0, getitem row 1, getitem row 2 with
  | Ok DataRow, Ok c0, Ok c1, Ok c2 =>
      match py_int c0 with
      | Ok n =>
          if truthy (text_or_empty c1) then
            Some {| number := n; question := text_or_empty c1;
                    answer := text_or_empty c2 |}
          else None
      | Raise _ => None
      end
  | _, _, _, _ => None
  end.

(** The locals after a header row has opened section [s]. *)
Definition entered (st : locals) (s : string) : locals :=
  {| faq_data := dict_set (faq_data st) s [];
     current_section := Some s;
     stdout := stdout st ++ [section_line V s] |}.

(** The locals after record [r] went to the list [l] of section [cs]. *)
Definition appended (st : locals) (cs : string) (l : list Record_)
           (r : Record_) : locals :=
  {| faq_data := dict_set (faq_data st) cs (l ++ [r]);
     current_section := Some cs;
     stdout := stdout st ++ [record_line V (number r) (question r)] |}.

(** What one iteration that does not raise has done. *)
Inductive step_shape (st : locals) (row : Series) (st' : locals) : Prop :=
| step_open (s : string) :
    opens row = Some s ->
    st' = entered st s ->
    step_shape st row st'
| step_append (r : Record_) (cs : string) (l : list Record_) :
    opens row = None ->
    record_of row = Some r ->
    current_section st = Some cs ->
    truthy cs = true ->
    dict_get (faq_data st) cs = Some l ->
    st' = appended st cs l r ->
    step_shape st row st'
| step_skip :
    opens row = None ->
    st' = st ->
    step_shape st row st'.

(** The states the loop passes through. *)
Definition reachable (st : locals) : Prop :=
  exists (df : DataFrame) (out : list string),
    iterrows df (initial out) = Ok st.

(** The current section always has an entry in the mapping, so
    [faq_data[current_section]] never fails. *)
Definition section_entered (st : locals) : Prop :=
  forall cs, current_section st = Some cs ->
             exists l, dict_get (faq_data st) cs = Some l.

(** What a row asks the loop to do; it depends on the row alone. *)
Inductive action : Type :=
| Open (s : string)
| Append (r : Record_)
| Skip
| Fail (e : exn).

Definition action_of (row : Series) : action :=
  match classify row with
  | Raise e => Fail e
  | Ok HeaderRow =>
      match getitem row 1 with
      | Raise e => Fail e
      | Ok c1 =>
          if notna c1 then
            match section_label V c1 with
            | Ok section_name => Open (map_section_name V section_name)
            | Raise e => Fail e
            end
          else Skip
      end
  | Ok DataRow =>
      match getitem row 0, getitem row 1, getitem row 2 with
      | Ok c0, Ok c1, Ok c2 =>
          match py_int c0 with
          | Ok n =>
              if truthy (text_or_empty c1) then
                Append {| number := n; question := text_or_empty c1;
                          answer := text_or_empty c2 |}
              else Skip
          | Raise e => Fail e
          end
      | Raise e, _, _ => Fail e
      | _, Raise e, _ => Fail e
      | _, _, Raise e => Fail e
      end
  | Ok OtherRow => Skip
  end.

Definition apply_action (a : action) (st : locals) : result locals :=
  match a with
  | Open s => Ok (entered st s)
  | Append r =>
      match current_section st with
      | Some cs =>
          if truthy cs then
            match dict_get (faq_data st) cs with
            | Some l => Ok (appended st cs l r)
            | None => Raise KeyError
            end
          else Ok st
      | None => Ok st
      end
  | Skip => Ok st
  | Fail e => Raise e
  end.

End Loop.

(** [parse_faq_excel(excel_path)], on the frame read from [excel_path]. *)
Definition parse_faq_excel (df : DataFrame) (out : list string)
  : result (dict (list Record_) * list string) :=
  extract Excel.dialect df out.

(** The extraction loop of [parse_cbre_faq()], on the frame read from the
    CBRE sheet.  The lines after the loop save the mapping ([saved_file]
    below) and print a summary; the mapping returned is that of the
    loop. *)
Definition parse_cbre_faq (df : DataFrame) (out : list string)
  : result (dict (list Record_) * list string) :=
  extract Cbre.dialect df out.

(** ** Text files *)

Module TextFile.
Import PyStr.
Local Open Scope string_scope.

Definition LF : ascii := ascii_of_N 10.
Definition CR : ascii := ascii_of_N 13.

(** [text.encode('utf-8')], one byte per [ascii] of the result: a
    character below U+0080 is one byte, the others of the model two. *)
Fixpoint utf8_encode (text : string) : string :=
  match text with
  | EmptyString => EmptyString
  | String c text' =>
      let n := code c in
      if (n <? 128)%N then String c (utf8_encode text')
      else String (ascii_of_N (192 + n / 64))
                  (String (ascii_of_N (128 + n mod 64)) (utf8_encode text'))
  end.

(** [data.decode('utf-8')]; [None] is [UnicodeDecodeError] or, here, a
    character above U+00FF. *)
Fixpoint utf8_decode (data : string) : option string :=
  match data with
  | EmptyString => Some EmptyString
  | String b data' =>
      let n := code b in
      if (n <? 128)%N then
        option_map (String b) (utf8_decode data')
      else if ((194 <=? n) && (n <=? 195))%N then
        match data' with
        | String b2 data'' =>
            let m := code b2 in
            if ((128 <=? m) && (m <? 192))%N then
              option_map (String (ascii_of_N ((n - 192) * 64 + (m - 128))))
                         (utf8_decode data'')
            else None
        | EmptyString => None
        end
      else None
  end.

(** Writing in text mode: each line feed becomes [os.linesep], which is
    a carriage return and a line feed when [crlf] holds. *)
Fixpoint write_newlines (crlf : bool) (text : string) : string :=
  match text with
  | EmptyString => EmptyString
  | String c text' =>
      if (code c =? 10)%N && crlf then
        String CR (String LF (write_newlines crlf text'))
      else String c (write_newlines crlf text')
  end.

(** Reading in text mode: a carriage return, with the line feed after it
    if there is one, becomes a line feed. *)
Fixpoint read_newlines (text : string) : string :=
  match text with
  | EmptyString => EmptyString
  | String c text' =>
      if (code c =? 13)%N then
        match text' with
        | String c2 text'' =>
            if (code c2 =? 10)%N then String LF (read_newlines text'')
            else String LF (read_newlines text')
        | EmptyString => String LF EmptyString
        end
      else String c (read_newlines text')
  end.

(** [open(path, 'w', encoding='utf-8')] and [f.write(text)]: the bytes
    of the file. *)
Definition write_text (crlf : bool) (text : string) : string :=
  utf8_encode (write_newlines crlf text).

(** [open(path, 'r', encoding='utf-8')] and [f.read()]. *)
Definition read_text (data : string) : option string :=
  option_map read_newlines (utf8_decode data).

(** The text holds no carriage return. *)
Definition no_cr (text : string) : bool :=
  all_chars (fun c => negb (code c =? 13)%N) text.

End TextFile.

(** ** The persisted mapping *)

(** The Python value of a record and of the mapping, as [json.dump]
    receives them. *)
Definition py_of_record (r : Record_) : Json.value :=
  Json.Dict [("number", Json.Num (number r));
             ("question", Json.Text (question r));
             ("answer", Json.Text (answer r))].

Definition py_of_faq (faq : dict (list Record_)) : Json.value :=
  Json.Dict (map (fun kv => (fst kv, Json.List (map py_of_record (snd kv))))
                 faq).

(** [json.dump(faq_data, f, indent=2, ensure_ascii=False)]: the text
    written to the file. *)
Definition json_dump (faq : dict (list Record_)) : string :=
  Json.dumps (py_of_faq faq).

(** [json.load(f)]: the value read back from the text of the file. *)
Definition json_load (text : string) : option Json.value :=
  Json.loads text.

(** The file that [main] of [parse_excel_faq.py] (and [parse_cbre_faq])
    saves for a mapping, on a platform whose line separator is a carriage
    return and a line feed when [crlf] holds. *)
Definition saved_file (crlf : bool) (faq : dict (list Record_)) : string :=
  TextFile.write_text crlf (json_dump faq).

(** What [generate_sql_inserts] (and [generate_quick_questions_jsx])
    loads from the bytes of that file. *)
Definition loaded_file (data : string) : option Json.value :=
  match TextFile.read_text data with
  | Some text => json_load text
  | None => None
  end.

(** ** Notions used to state the properties *)

(** Column 0 holds a number: a natural number, or a text made of the
    decimal digits 0..9, possibly between blanks that [int()] skips; in
    both cases of at most 4300 digits, the most that [int()] and [str()]
    convert. *)
Definition digit_only (c0 : cell) : Prop :=
  match c0 with
  | NaN => False
  | Str s =>
      PyStr.decimal_digits (PyStr.strip_of PyStr.int_space s) = true /\
      (PyStr.count_digits (PyStr.strip_of PyStr.int_space s)
       <= PyStr.int_max_str_digits)%N
  | Int z =>
      0 <= z /\
      (PyStr.count_digits (PyStr.of_int z) <= PyStr.int_max_str_digits)%N
  end.

(** A text of [n] nines. *)
Definition nines (n : nat) : string := PyStr.repeat_char "9" n.

(** An absent cell, or a text made of blanks. *)
Definition blank (c : cell) : Prop :=
  match c with
  | NaN => True
  | Str s => PyStr.all_chars PyStr.isspace s = true
  | Int _ => False
  end.

(** A row that the loop of [parse_cbre_faq] can read: three columns at
    least, and a column 0 that, when it passes the data test, holds a
    number. *)
Definition readable_row (row : Series) : Prop :=
  (3 <= length row)%nat /\
  (forall c0, nth_error row 0 = Some c0 -> data_test c0 = true ->
              digit_only c0).

(** A row that the loop of [parse_faq_excel] can read: moreover, its
    column 1 is absent or a text. *)
Definition text_labelled (row : Series) : Prop :=
  forall c1, nth_error row 1 = Some c1 -> c1 = NaN \/ exists s, c1 = Str s.

(** The text "²" (U+00B2, superscript two): [isdigit()] accepts it and
    [int()] does not. *)
Definition superscript_two : string :=
  String (ascii_of_nat 178) EmptyString.

(** The digit 7 after the control character U+001C (file separator):
    [strip()] removes the control character, [int()] does not skip it. *)
Definition separator_7 : string :=
  String (ascii_of_nat 28) "7".

(** The keyword [kw] occurs in the text [s]. *)
Definition occurs_in (kw s : string) : Prop :=
  exists a b, s = (a ++ kw ++ b)%string.

(** Row [h] is the last row before row [i] that opens a section, and the
    section it opens is [s]. *)
Definition most_recent_header (V : variant) (df : DataFrame) (i h : nat)
           (s : string) : Prop :=
  (h < i)%nat /\
  (exists row, nth_error df h = Some row /\ opens V row = Some s) /\
  (forall j row, (h < j < i)%nat -> nth_error df j = Some row ->
                 opens V row = None).

(** Record [r] is the record of row [i], and row [i] stands in section
    [s]. *)
Definition from_row (V : variant) (df : DataFrame) (s : string) (i : nat)
           (r : Record_) : Prop :=
  (exists row, nth_error df i = Some row /\ record_of V row = Some r) /\
  (exists h, most_recent_header V df i h s).

(** What the loop knows after the rows [pre]: where the current section
    was opened, and where each record of the mapping comes from. *)
Definition attributed (V : variant) (pre : DataFrame) (st : locals)
  : Prop :=
  (forall cs, current_section st = Some cs ->
     exists h, most_recent_header V pre (length pre) h cs) /\
  (forall s l, dict_get (faq_data st) s = Some l ->
     exists idxs,
       StronglySorted Nat.lt idxs /\
       Forall2 (from_row V pre s) idxs l).

(** The value a call returns, without what it printed. *)
Definition returned {A : Type} (r : result (A * list string)) : result A :=
  match r with
  | Ok (a, _) => Ok a
  | Raise e => Raise e
  end.

(** Two runs agree up to a relation on their final locals. *)
Definition lift_rel (R : locals -> locals -> Prop) (r1 r2 : result locals)
  : Prop :=
  match r1, r2 with
  | Ok a, Ok b => R a b
  | Raise e1, Raise e2 => e1 = e2
  | _, _ => False
  end.

(** Locals that agree on everything but the printed output. *)
Definition same_data (st1 st2 : locals) : Prop :=
  faq_data st1 = faq_data st2 /\ current_section st1 = current_section st2.

(** Locals that agree on the current section and on the list of [s]. *)
Definition same_list (s : string) (st1 st2 : locals) : Prop :=
  current_section st1 = current_section st2 /\
  dict_get (faq_data st1) s = dict_get (faq_data st2) s /\
  section_entered st1 /\ section_entered st2.

(** Row [row] makes the loop raise [e] when the loop reaches it: it has
    fewer than three columns; or it is a header row with a label from which
    the section name cannot be taken; or its column 0 passes the data test
    and [int] rejects it. *)
Definition row_fault (V : variant) (row : Series) (e : exn) : Prop :=
  match row with
  | c0 :: c1 :: c2 :: _ =>
      if header_test V c2 then
        notna c1 = true /\ section_label V c1 = Raise e
      else
        data_test c0 = true /\ py_int c0 = Raise e
  | _ => e = KeyError
  end.

(** What the loop knows after the rows [pre] about the records it must
    hold: the current section is that of the most recent header, and the
    record of a row is in the list of its section as long as no later row
    has opened that section again. *)
Definition kept (V : variant) (pre : DataFrame) (st : locals) : Prop :=
  section_entered st /\
  (forall h s, most_recent_header V pre (length pre) h s ->
               current_section st = Some s) /\
  (forall i row r h s,
     nth_error pre i = Some row -> record_of V row = Some r ->
     most_recent_header V pre i h s -> s <> ""%string ->
     (forall j row', (i < j)%nat -> nth_error pre j = Some row' ->
                     opens V row' <> Some s) ->
     exists l, dict_get (faq_data st) s = Some l /\ In r l).

(** The section names that the header rows of the grid open, row after
    row. *)
Definition opened_names (V : variant) (df : DataFrame) : list string :=
  flat_map (fun row => match opens V row with
                       | Some s => [s]
                       | None => []
                       end) df.

(** The names of a list in the order of their first occurrence. *)
Fixpoint first_occurrences (names : list string) : list string :=
  match names with
  | [] => []
  | s :: rest =>
      s :: filter (fun s' => negb (String.eqb s s')) (first_occurrences rest)
  end.

(** ** Text primitives of the generator scripts *)

Module PyStrOps.
Import PyStr.
Local Open Scope string_scope.

(** [s.replace(old, new)] for an [old] of one character. *)
Fixpoint replace_char (old : ascii) (new s : string) : string :=
  match s with
  | EmptyString => EmptyString
  | String c s' =>
      if Ascii.eqb c old then new ++ replace_char old new s'
      else String c (replace_char old new s')
  end.

(** [s.startswith(p)] *)
Definition startswith (p s : string) : bool := prefix p s.

(** The line feed, ['\n']. *)
Definition LF : string := String (ascii_of_N 10) "".

(** ['\n'.join(xs)] *)
Definition join_lines (xs : list string) : string := Json.join LF xs.

(** [s.count(c)] for a character [c]. *)
Fixpoint count_char (c : ascii) (s : string) : nat :=
  match s with
  | EmptyString => O
  | String c' s' =>
      if Ascii.eqb c' c then S (count_char c s') else count_char c s'
  end.

(** [str(len(xs))] *)
Definition str_len {A : Type} (xs : list A) : string :=
  of_int (Z.of_nat (length xs)).

End PyStrOps.

(** ** [json.dumps] with its default options *)

Module JsonDefault.
Import PyStr Json.
Local Open Scope string_scope.

(** The replacement of one character in a text, for [ensure_ascii=True]:
    as without it up to U+007E, a [\u] escape from U+007F on. *)
Definition escape_ascii (c : ascii) : string :=
  if (126 <? code c)%N then
    "\u00" ++ String (hex_digit (code c / 16))
                     (String (hex_digit (code c mod 16)) "")
  else escape c.

Fixpoint escape_ascii_all (s : string) : string :=
  match s with
  | EmptyString => ""
  | String c s' => escape_ascii c ++ escape_ascii_all s'
  end.

Definition encode_basestring_ascii (s : string) : string :=
  String (chr 34) (escape_ascii_all s ++ String (chr 34) "").

(** The text of a value on one line: items separated by a comma and a
    space, keys followed by a colon and a space. *)
Fixpoint encode (v : value) : string :=
  match v with
  | Null => "null"
  | Boolean true => "true"
  | Boolean false => "false"
  | Num z => of_int z
  | Text s => encode_basestring_ascii s
  | List l => "[" ++ join ", " (map encode l) ++ "]"
  | Dict d =>
      "{" ++ join ", "
               (map (fun kv => (encode_basestring_ascii (fst kv) ++ ": "
                                 ++ encode (snd kv))%string) d)
          ++ "}"
  end.

(** [json.dumps(v)] *)
Definition dumps (v : value) : string := encode v.

End JsonDefault.

(** ** The mapping as the generator scripts read it *)

(** [all_some xs]: the values of [xs] when none is missing. *)
Fixpoint all_some {A : Type} (xs : list (option A)) : option (list A) :=
  match xs with
  | [] => Some []
  | Some x :: rest => option_map (cons x) (all_some rest)
  | None :: _ => None
  end.

(** One question as the scripts read it: [q['number']], [q['question']]
    and [q['answer']] of a dictionary, an integer and two texts. *)
Definition record_view (q : Json.value) : option Record_ :=
  match q with
  | Json.Dict d =>
      match dict_get d "number", dict_get d "question", dict_get d "answer"
      with
      | Some (Json.Num n), Some (Json.Text qu), Some (Json.Text an) =>
          Some {| number := n; question := qu; answer := an |}
      | _, _, _ => None
      end
  | _ => None
  end.

(** The loaded value as [faq_data.items()] presents it: section names
    with their lists of questions.  [None] is a value of another shape
    than the one the extraction scripts save, which is left out. *)
Definition faq_view (v : Json.value) : option (dict (list Record_)) :=
  match v with
  | Json.Dict d =>
      all_some
        (map (fun kv =>
                match snd kv with
                | Json.List l =>
                    option_map (pair (fst kv)) (all_some (map record_view l))
                | _ => None
                end) d)
  | _ => None
  end.

(** ** [scripts/generate_sql_inserts.py] *)

Module SqlInserts.
Import PyStr PyStrOps.
Local Open Scope string_scope.

(** Lines 3-9. *)
Definition escape_sql_string (text : string) : string :=
  if negb (truthy text) then ""
  else replace_char "'" "''" text.

(** Lines 19-24: section names to category and subcategory. *)
Definition category_mapping : dict (string * string) :=
  [("Benefit Coverage", ("benefits", "coverage"));
   ("Letter of Guarantee (LOG)", ("log", "requests"));
   ("Portal Matters", ("portal", "access"));
   ("Claims Status", ("claims", "status"))].

(** Line 42: [category_mapping.get(section_name, {..general, faq..})]. *)
Definition get_mapping (section_name : string) : string * string :=
  match dict_get category_mapping section_name with
  | Some mapping => mapping
  | None => ("general", "faq")
  end.

(** Lines 54-58; [answer] is the escaped answer. *)
Definition metadata (section_name : string) (q_number : Z) (answer : string)
  : Json.value :=
  Json.Dict
    [("section", Json.Text section_name);
     ("question_number", Json.Num q_number);
     ("has_detailed_answer",
      Json.Boolean (100 <? String.length answer)%nat)].

(** Lines 61-71: the statement of one question. *)
Definition insert_statement
           (question answer category subcategory metadata_json : string)
  : string :=
  "INSERT INTO knowledge_base (title, content, category, subcategory, metadata, source, confidence_score, is_active)"
  ++ LF ++ "VALUES ("
  ++ LF ++ "  '" ++ question ++ "',"
  ++ LF ++ "  '" ++ answer ++ "',"
  ++ LF ++ "  '" ++ category ++ "',"
  ++ LF ++ "  '" ++ subcategory ++ "',"
  ++ LF ++ "  '" ++ metadata_json ++ "'::jsonb,"
  ++ LF ++ "  'Helpdesk FAQ Excel',"
  ++ LF ++ "  1.0,"
  ++ LF ++ "  true"
  ++ LF ++ ");".

(** Line 50: the comment written for a question without answer. *)
Definition skip_comment (q_number : Z) : string :=
  "-- Skipping Q" ++ of_int q_number ++ ": No answer provided".

(** Lines 44-73: one iteration of [for q in questions]. *)
Definition for_question (section_name : string) (mapping : string * string)
           (sql_statements : list string) (q : Record_) : list string :=
  let question' := escape_sql_string (question q) in
  let answer' := escape_sql_string (answer q) in
  if negb (truthy answer') || String.eqb (strip answer') "" then
    (sql_statements ++ [skip_comment (number q)])%list
  else
    let metadata_json :=
      replace_char "'" "''"
        (JsonDefault.dumps (metadata section_name (number q) answer')) in
    ((sql_statements
        ++ [insert_statement question' answer' (fst mapping) (snd mapping)
                             metadata_json])
       ++ [""])%list.

(** Line 39: the comment that opens a section. *)
Definition section_comment (section_name : string) (questions : list Record_)
  : string :=
  "-- " ++ section_name ++ " (" ++ str_len questions ++ " questions)".

(** Lines 38-73: one iteration of
    [for section_name, questions in faq_data.items()]. *)
Definition for_section (sql_statements : list string)
           (item : string * list Record_) : list string :=
  let (section_name, questions) := item in
  fold_left (for_question section_name (get_mapping section_name))
            questions
            ((sql_statements ++ [section_comment section_name questions])
               ++ [""])%list.

(** Line 31: [sum(len(q) for q in faq_data.values())]. *)
Definition total_questions (faq_data : dict (list Record_)) : nat :=
  fold_left (fun total item => (total + length (snd item))%nat) faq_data 0%nat.

(** Lines 29-35: the header comments. *)
Definition header (faq_data : dict (list Record_)) : list string :=
  ["-- FAQ Knowledge Base Insert Statements";
   "-- Generated from Helpdesk FAQ for Chatbot.xlsx";
   "-- Total Questions: " ++ of_int (Z.of_nat (total_questions faq_data));
   "";
   "-- Clear existing FAQ data (optional - remove if you want to keep existing data)";
   "-- DELETE FROM knowledge_base WHERE source = 'Helpdesk FAQ Excel';";
   ""].

(** Lines 26-73: the list [sql_statements] after the loops. *)
Definition sql_statements (faq_data : dict (list Record_)) : list string :=
  fold_left for_section faq_data (header faq_data).

(** Line 76. *)
Definition full_sql (faq_data : dict (list Record_)) : string :=
  join_lines (sql_statements faq_data).

(** Line 84: [len([s for s in sql_statements if s.startswith('INSERT')])]. *)
Definition total_statements (faq_data : dict (list Record_)) : nat :=
  length (filter (startswith "INSERT") (sql_statements faq_data)).

(** Line 87: [[s for s in sql_statements if 'DELETE FROM' not in s]]. *)
Definition safe_statements (faq_data : dict (list Record_)) : list string :=
  filter (fun s => negb (contains "DELETE FROM" s)) (sql_statements faq_data).

Definition safe_sql (faq_data : dict (list Record_)) : string :=
  join_lines (safe_statements faq_data).

(** Line 97:
    [len([q for q in questions if q['answer'] and q['answer'].strip()])]. *)
Definition valid_count (questions : list Record_) : nat :=
  length (filter (fun q => truthy (answer q) && truthy (strip (answer q)))
                 questions).

(** The statement that the loop writes for the question [q] of the
    section [section_name], when it does not skip it. *)
Definition statement_of (section_name : string) (q : Record_) : string :=
  insert_statement
    (escape_sql_string (question q))
    (escape_sql_string (answer q))
    (fst (get_mapping section_name))
    (snd (get_mapping section_name))
    (replace_char "'" "''"
       (JsonDefault.dumps
          (metadata section_name (number q)
                    (escape_sql_string (answer q))))).

(** Line 98: the summary line of a section. *)
Definition summary_line (item : string * list Record_) : string :=
  "  " ++ fst item ++ ": " ++ of_int (Z.of_nat (valid_count (snd item)))
       ++ " questions with answers".

(** Line 84. *)
Definition total_line (faq_data : dict (list Record_)) : string :=
  LF ++ "Total statements: " ++ of_int (Z.of_nat (total_statements faq_data)).

(** Lines 83-98: what the script prints, one text for each [print]. *)
Definition printed (faq_data : dict (list Record_)) : list string :=
  (["SQL script generated: C:/Users/huien/aibot/insert_faq_knowledge.sql";
    total_line faq_data;
    "Safe SQL script (no deletes): C:/Users/huien/aibot/insert_faq_knowledge_safe.sql";
    String (ascii_of_N 10) "Summary:"]
     ++ map summary_line faq_data)%list.

(** What a run leaves: the bytes of the two scripts and the output. *)
Record output : Type := mkOutput {
  sql_file : string;
  safe_sql_file : string;
  stdout_text : list string
}.

Definition output_of (crlf : bool) (faq_data : dict (list Record_))
  : output :=
  {| sql_file := TextFile.write_text crlf (full_sql faq_data);
     safe_sql_file := TextFile.write_text crlf (safe_sql faq_data);
     stdout_text := printed faq_data |}.

(** [generate_sql_inserts()], on the bytes of [faq_sections.json].
    [None] is a file that [json.load] rejects, or a value of another
    shape than the extraction scripts save. *)
Definition generate_sql_inserts (crlf : bool) (data : string)
  : option output :=
  match loaded_file data with
  | Some v =>
      match faq_view v with
      | Some faq_data => Some (output_of crlf faq_data)
      | None => None
      end
  | None => None
  end.

(** *** Reading a statement *)

(** The string constants of a SQL text without comments, in order: a
    constant stands between single quotes, and a quote inside it is
    written twice.  [inside] holds the constant being read, if any;
    [None] as a result is a constant left open. *)
Fixpoint string_constants (inside : option string) (s : string)
  : option (list string) :=
  match s with
  | EmptyString =>
      match inside with
      | None => Some []
      | Some _ => None
      end
  | String c s1 =>
      match inside with
      | None =>
          if Ascii.eqb c "'" then string_constants (Some "") s1
          else string_constants None s1
      | Some acc =>
          if Ascii.eqb c "'" then
            match s1 with
            | String c2 s2 =>
                if Ascii.eqb c2 "'" then
                  string_constants (Some (acc ++ "'")) s2
                else
                  option_map (cons acc) (string_constants None s1)
            | EmptyString => Some [acc]
            end
          else string_constants (Some (acc ++ String c "")) s1
      end
  end.

End SqlInserts.

(** ** [scripts/generate_quick_questions.py] *)

Module QuickQuestions.
Import PyStr PyStrOps.
Local Open Scope string_scope.

(** The double quote. *)
Definition DQ : string := String (ascii_of_N 34) "".

(** Lines 3-13. *)
Definition escape_js_string (text : string) : string :=
  if negb (truthy text) then ""
  else
    let text := replace_char "\" "\\" text in
    let text := replace_char "'" "\'" text in
    replace_char (ascii_of_N 10) "\n" text.

(** Lines 23-36: the icons. *)
Definition icon_benefit_coverage : string :=
  "<svg xmlns=" ++ DQ ++ "http://www.w3.org/2000/svg" ++ DQ ++ " className="
  ++ DQ ++ "ic-w-5 ic-h-5" ++ DQ ++ " fill=" ++ DQ ++ "none" ++ DQ
  ++ " viewBox=" ++ DQ ++ "0 0 24 24" ++ DQ ++ " stroke=" ++ DQ
  ++ "currentColor" ++ DQ ++ ">" ++ LF ++ "        <path strokeLinecap="
  ++ DQ ++ "round" ++ DQ ++ " strokeLinejoin=" ++ DQ ++ "round" ++ DQ
  ++ " strokeWidth={2} d=" ++ DQ
  ++ "M9 12l2 2 4-4m5.618-4.016A11.955 11.955 0 0112 2.944a11.955 "
  ++ "11.955 0 01-8.618 3.04A12.02 12.02 0 003 9c0 5.591 3.824 10.29 "
  ++ "9 11.622 5.176-1.332 9-6.03 9-11.622 0-1.042-.133-2.052-.382-3.016z"
  ++ DQ ++ " />" ++ LF ++ "      </svg>".

Definition icon_letter_of_guarantee : string :=
  "<svg xmlns=" ++ DQ ++ "http://www.w3.org/2000/svg" ++ DQ ++ " className="
  ++ DQ ++ "ic-w-5 ic-h-5" ++ DQ ++ " fill=" ++ DQ ++ "none" ++ DQ
  ++ " viewBox=" ++ DQ ++ "0 0 24 24" ++ DQ ++ " stroke=" ++ DQ
  ++ "currentColor" ++ DQ ++ ">" ++ LF ++ "        <path strokeLinecap="
  ++ DQ ++ "round" ++ DQ ++ " strokeLinejoin=" ++ DQ ++ "round" ++ DQ
  ++ " strokeWidth={2} d=" ++ DQ
  ++ "M9 12h6m-6 4h6m2 5H7a2 2 0 01-2-2V5a2 2 0 012-2h5.586a1 1 0 "
  ++ "01.707.293l5.414 5.414a1 1 0 01.293.707V19a2 2 0 01-2 2z" ++ DQ
  ++ " />" ++ LF ++ "      </svg>".

Definition icon_portal_matters : string :=
  "<svg xmlns=" ++ DQ ++ "http://www.w3.org/2000/svg" ++ DQ ++ " className="
  ++ DQ ++ "ic-w-5 ic-h-5" ++ DQ ++ " fill=" ++ DQ ++ "none" ++ DQ
  ++ " viewBox=" ++ DQ ++ "0 0 24 24" ++ DQ ++ " stroke=" ++ DQ
  ++ "currentColor" ++ DQ ++ ">" ++ LF ++ "        <path strokeLinecap="
  ++ DQ ++ "round" ++ DQ ++ " strokeLinejoin=" ++ DQ ++ "round" ++ DQ
  ++ " strokeWidth={2} d=" ++ DQ
  ++ "M9.75 17L9 20l-1 1h8l-1-1-.75-3M3 13h18M5 17h14a2 2 0 002-2V5a2 "
  ++ "2 0 00-2-2H5a2 2 0 00-2 2v10a2 2 0 002 2z" ++ DQ ++ " />" ++ LF
  ++ "      </svg>".

Definition icon_claims_status : string :=
  "<svg xmlns=" ++ DQ ++ "http://www.w3.org/2000/svg" ++ DQ ++ " className="
  ++ DQ ++ "ic-w-5 ic-h-5" ++ DQ ++ " fill=" ++ DQ ++ "none" ++ DQ
  ++ " viewBox=" ++ DQ ++ "0 0 24 24" ++ DQ ++ " stroke=" ++ DQ
  ++ "currentColor" ++ DQ ++ ">" ++ LF ++ "        <path strokeLinecap="
  ++ DQ ++ "round" ++ DQ ++ " strokeLinejoin=" ++ DQ ++ "round" ++ DQ
  ++ " strokeWidth={2} d=" ++ DQ
  ++ "M9 5H7a2 2 0 00-2 2v12a2 2 0 002 2h10a2 2 0 002-2V7a2 2 0 00-2-2h-2M9 "
  ++ "5a2 2 0 002 2h2a2 2 0 002-2M9 5a2 2 0 012-2h2a2 2 0 012 2m-6 "
  ++ "9l2 2 4-4" ++ DQ ++ " />" ++ LF ++ "      </svg>".

Definition icons : dict string :=
  [("Benefit Coverage", icon_benefit_coverage);
   ("Letter of Guarantee (LOG)", icon_letter_of_guarantee);
   ("Portal Matters", icon_portal_matters);
   ("Claims Status", icon_claims_status)].

(** Lines 39-44. *)
Definition category_ids : dict string :=
  [("Benefit Coverage", "benefit-coverage");
   ("Letter of Guarantee (LOG)", "letter-of-guarantee");
   ("Portal Matters", "portal-matters");
   ("Claims Status", "claims-status")].

(** Line 54:
    [category_ids.get(section_name, section_name.lower().replace(' ', '-'))]. *)
Definition category_id (section_name : string) : string :=
  match dict_get category_ids section_name with
  | Some id => id
  | None => replace_char " " "-" (lower section_name)
  end.

(** Line 55: [icons.get(section_name, icons["Benefit Coverage"])]. *)
Definition icon_svg (section_name : string) : string :=
  match dict_get icons section_name with
  | Some icon => icon
  | None => icon_benefit_coverage
  end.

(** Lines 61-68: the opening of a category. *)
Definition category_opening (section_name : string) : string :=
  "  {"
  ++ LF ++ "    id: '" ++ category_id section_name ++ "',"
  ++ LF ++ "    title: '" ++ section_name ++ "',"
  ++ LF ++ "    icon: ("
  ++ LF ++ "      " ++ icon_svg section_name
  ++ LF ++ "    ),"
  ++ LF ++ "    questions: ["
  ++ LF.

(** Line 79: the entry of a question. *)
Definition question_entry (q : Record_) : string :=
  "      { q: '" ++ escape_js_string (question q)
  ++ "', a: '" ++ escape_js_string (answer q) ++ "' }".

(** Lines 71-79: [for q_idx, q in enumerate(questions)]. *)
Fixpoint for_questions (q_idx : nat) (questions : list Record_)
         (jsx_content : string) : string :=
  match questions with
  | [] => jsx_content
  | q :: rest =>
      let jsx_content :=
        if (0 <? q_idx)%nat then jsx_content ++ "," ++ LF
        else jsx_content in
      for_questions (S q_idx) rest (jsx_content ++ question_entry q)
  end.

(** Lines 53-81:
    [for idx, (section_name, questions) in enumerate(faq_data.items())]. *)
Fixpoint for_sections (idx : nat) (items : dict (list Record_))
         (jsx_content : string) : string :=
  match items with
  | [] => jsx_content
  | (section_name, questions) :: rest =>
      let jsx_content :=
        if (0 <? idx)%nat then jsx_content ++ "," ++ LF
        else jsx_content in
      let jsx_content := jsx_content ++ category_opening section_name in
      let jsx_content := for_questions 0 questions jsx_content in
      for_sections (S idx) rest
                   (jsx_content ++ LF ++ "    ]" ++ LF ++ "  }")
  end.

(** Lines 47-81: [jsx_content] after the loop, that is the import line
    and the array [QUICK_QUESTIONS] up to its last category.  The script
    then appends the closing bracket and the text of the component, which
    is the same for every mapping. *)
Definition quick_questions (faq_data : dict (list Record_)) : string :=
  for_sections 0 faq_data
    ("import { useState } from 'react';" ++ LF ++ LF
     ++ "const QUICK_QUESTIONS = [" ++ LF).

(** Lines 19-81: [jsx_content] after the loop, on the bytes of
    [faq_sections.json].  [None] is a file that [json.load] rejects, or a
    value of another shape than the extraction scripts save. *)
Definition quick_questions_of_file (data : string) : option string :=
  match loaded_file data with
  | Some v => option_map quick_questions (faq_view v)
  | None => None
  end.

(** *** Reading the array *)

(** The character that the escape sequence of [e] stands for.  The
    numeric escapes (a digit, [x], [u]) are left out. *)
Definition escaped_char (e : ascii) : option ascii :=
  match code e with
  | 98%N => Some (ascii_of_N 8)
  | 102%N => Some (ascii_of_N 12)
  | 110%N => Some (ascii_of_N 10)
  | 114%N => Some (ascii_of_N 13)
  | 116%N => Some (ascii_of_N 9)
  | 118%N => Some (ascii_of_N 11)
  | 120%N | 117%N => None
  | n => if ((48 <=? n) && (n <=? 57))%N then None else Some e
  end.

(** The single-quoted literals of a JavaScript text, in order, for a text
    whose other quotations hold no single quote.  Inside a literal a
    backslash starts an escape sequence, a backslash before a line break
    continues the line, and a bare line feed or carriage return is an
    error.  [inside] holds the literal being read, if any. *)
Fixpoint single_quoted (inside : option string) (s : string)
  : option (list string) :=
  match s with
  | EmptyString =>
      match inside with
      | None => Some []
      | Some _ => None
      end
  | String c s1 =>
      match inside with
      | None =>
          if Ascii.eqb c "'" then single_quoted (Some "") s1
          else single_quoted None s1
      | Some acc =>
          match code c with
          | 39%N => option_map (cons acc) (single_quoted None s1)
          | 10%N | 13%N => None
          | 92%N =>
              match s1 with
              | EmptyString => None
              | String e s2 =>
                  match code e with
                  | 10%N => single_quoted (Some acc) s2
                  | 13%N =>
                      match s2 with
                      | String l s3 =>
                          if (code l =? 10)%N then single_quoted (Some acc) s3
                          else single_quoted (Some acc) s2
                      | EmptyString => None
                      end
                  | _ =>
                      match escaped_char e with
                      | Some ch =>
                          single_quoted (Some (acc ++ String ch "")) s2
                      | None => None
                      end
                  end
              end
          | _ => single_quoted (Some (acc ++ String c "")) s1
          end
      end
  end.

(** A text that stands for itself between single quotes: it holds no
    single quote, no backslash, no line feed and no carriage return. *)
Definition plain_text (s : string) : bool :=
  all_chars (fun c =>
               match code c with
               | 39%N | 92%N | 10%N | 13%N => false
               | _ => true
               end) s.

(** Neither the question nor the answer holds a carriage return. *)
Definition no_cr_texts (q : Record_) : Prop :=
  TextFile.no_cr (question q) = true /\ TextFile.no_cr (answer q) = true.

(** The literals of a category: its identifier, its title, then the
    question and the answer of each of its questions. *)
Definition category_literals (item : string * list Record_) : list string :=
  category_id (fst item) :: fst item
    :: flat_map (fun q => [question q; answer q]) (snd item).

End QuickQuestions.

(** ** Facts about the text primitives *)

Module PyStrFacts.
Import PyStr.

Lemma decimal_value_range (c : ascii) (d : Z) :
  decimal_value c = Some d -> 0 <= d <= 9.
Proof.
  unfold decimal_value.
  destruct (48 <=? code c)%N eqn:Hlo; simpl; try discriminate.
  destruct (code c <=? 57)%N eqn:Hhi; simpl; try discriminate.
  intros [= <-].
  apply N.leb_le in Hlo. apply N.leb_le in Hhi. lia.
Qed.

Lemma isdecimal_isdigit_char (c : ascii) :
  isdecimal c = true -> isdigit_char c = true.
Proof. unfold isdigit_char. intros ->. reflexivity. Qed.

Lemma isdecimal_not_space (c : ascii) :
  isdecimal c = true -> isspace c = false.
Proof.
  unfold isdecimal, decimal_value, isspace.
  destruct (48 <=? code c)%N eqn:Hlo; simpl; try discriminate.
  destruct (code c <=? 57)%N eqn:Hhi; simpl; try discriminate.
  intros _.
  apply N.leb_le in Hlo. apply N.leb_le in Hhi.
  repeat rewrite orb_false_iff. repeat split.
  - apply andb_false_iff. right. apply N.leb_gt. lia.
  - apply andb_false_iff. right. apply N.leb_gt. lia.
  - apply N.eqb_neq. lia.
  - apply N.eqb_neq. lia.
Qed.

Lemma all_chars_impl (p q : ascii -> bool) (s : string) :
  (forall c, p c = true -> q c = true) ->
  all_chars p s = true -> all_chars q s = true.
Proof.
  intros Hpq. induction s as [|c s IH]; simpl; auto.
  rewrite !andb_true_iff. intros [Hc Hs]. auto.
Qed.

Lemma decimal_digits_isdigit (s : string) :
  decimal_digits s = true -> isdigit s = true.
Proof.
  destruct s as [|c s]; simpl; try discriminate.
  rewrite !andb_true_iff. intros [Hc Hs]. split.
  - now apply isdecimal_isdigit_char.
  - revert Hs. apply all_chars_impl, isdecimal_isdigit_char.
Qed.

Lemma int_space_isspace (c : ascii) : int_space c = true -> isspace c = true.
Proof.
  unfold int_space, isspace. intros H.
  repeat (apply orb_true_iff in H; destruct H as [H | H]).
  - now rewrite H.
  - apply N.eqb_eq in H. rewrite H. reflexivity.
  - rewrite H. now rewrite !orb_true_r.
  - rewrite H. now rewrite !orb_true_r.
Qed.

Section Strip.

Variable p : ascii -> bool.

(** Stripping: a text of blanks strips to nothing, and only such a text. *)
Lemma lstrip_blank (s : string) :
  all_chars p s = true -> lstrip_of p s = "".
Proof.
  induction s as [|c s IH]; simpl; auto.
  rewrite andb_true_iff. intros [-> Hs]. auto.
Qed.

Lemma rstrip_blank (s : string) :
  all_chars p s = true -> rstrip_of p s = "".
Proof.
  induction s as [|c s IH]; simpl; auto.
  rewrite andb_true_iff. intros [-> Hs]. now rewrite IH.
Qed.

Lemma rstrip_empty_blank (s : string) :
  rstrip_of p s = "" -> all_chars p s = true.
Proof.
  induction s as [|c s IH]; simpl; auto.
  destruct (rstrip_of p s) eqn:Hr.
  - destruct (p c); try discriminate. intros _. simpl. auto.
  - discriminate.
Qed.

Lemma lstrip_blank_suffix (s : string) :
  all_chars p (lstrip_of p s) = true -> all_chars p s = true.
Proof.
  induction s as [|c s IH]; simpl; auto.
  destruct (p c) eqn:Hc; simpl.
  - auto.
  - rewrite Hc. discriminate.
Qed.

Lemma strip_of_empty_iff (s : string) :
  strip_of p s = "" <-> all_chars p s = true.
Proof.
  unfold strip_of. split.
  - intros H. apply lstrip_blank_suffix, rstrip_empty_blank, H.
  - intros H. rewrite (lstrip_blank s H). reflexivity.
Qed.

(** A text is its stripped form between two runs of blanks. *)
Lemma lstrip_decompose (s : string) :
  exists w, s = (w ++ lstrip_of p s)%string /\ all_chars p w = true.
Proof.
  induction s as [|c s (w & Hw & Hp)]; simpl.
  - exists "". auto.
  - destruct (p c) eqn:Hc.
    + exists (String c w). simpl. rewrite Hc, Hp, <- Hw. auto.
    + exists "". auto.
Qed.

Lemma rstrip_decompose (s : string) :
  exists w, s = (rstrip_of p s ++ w)%string /\ all_chars p w = true.
Proof.
  induction s as [|c s (w & Hw & Hp)]; simpl.
  - exists "". auto.
  - destruct (rstrip_of p s) as [|c' r] eqn:Hr.
    + pose proof (rstrip_empty_blank s Hr) as Hall.
      destruct (p c) eqn:Hc.
      * exists (String c s). simpl. now rewrite Hc, Hall.
      * exists s. auto.
    + exists w. simpl in *. split; congruence.
Qed.

Lemma strip_of_decompose (s : string) :
  exists w1 w2,
    s = (w1 ++ strip_of p s ++ w2)%string /\
    all_chars p w1 = true /\ all_chars p w2 = true.
Proof.
  destruct (lstrip_decompose s) as (w1 & H1 & P1).
  destruct (rstrip_decompose (lstrip_of p s)) as (w2 & H2 & P2).
  exists w1, w2. unfold strip_of. rewrite <- H2. auto.
Qed.

(** Stripping a non-empty text free of blanks and put between blanks
    gives the text back. *)
Lemma lstrip_app_blank (w x : string) :
  all_chars p w = true -> lstrip_of p (w ++ x) = lstrip_of p x.
Proof.
  induction w as [|c w IH]; simpl; auto.
  rewrite andb_true_iff. intros [-> Hw]. auto.
Qed.

Lemma rstrip_app_blank (d w : string) :
  d <> "" -> all_chars (fun c => negb (p c)) d = true ->
  all_chars p w = true -> rstrip_of p (d ++ w) = d.
Proof.
  induction d as [|c d IH]; [congruence|].
  intros _ Hd Hw. simpl in Hd. apply andb_true_iff in Hd.
  destruct Hd as [Hc Hd]. apply negb_true_iff in Hc.
  cbn [append rstrip_of]. destruct d as [|c' d].
  - simpl. rewrite (rstrip_blank w Hw), Hc. reflexivity.
  - rewrite IH; auto. discriminate.
Qed.

Lemma strip_of_sandwich (w1 d w2 : string) :
  d <> "" -> all_chars (fun c => negb (p c)) d = true ->
  all_chars p w1 = true -> all_chars p w2 = true ->
  strip_of p (w1 ++ d ++ w2) = d.
Proof.
  intros Hne Hd H1 H2. unfold strip_of.
  rewrite (lstrip_app_blank w1 _ H1).
  assert (Hl : lstrip_of p (d ++ w2) = (d ++ w2)%string).
  { destruct d as [|c d]; [congruence|]. simpl in *.
    apply andb_true_iff in Hd. destruct Hd as [Hc _].
    apply negb_true_iff in Hc. now rewrite Hc. }
  rewrite Hl. now apply rstrip_app_blank.
Qed.

Lemma strip_of_no_blank (s : string) :
  s <> "" -> all_chars (fun c => negb (p c)) s = true -> strip_of p s = s.
Proof.
  intros Hne Hs.
  pose proof (strip_of_sandwich "" s "" Hne Hs eq_refl eq_refl) as H.
  simpl in H. replace (s ++ "")%string with s in H; auto.
  clear. induction s; simpl; congruence.
Qed.

End Strip.

Lemma strip_empty_iff (s : string) :
  strip s = "" <-> all_chars isspace s = true.
Proof. apply strip_of_empty_iff. Qed.

Lemma decimal_digits_no_space (d : string) :
  decimal_digits d = true ->
  d <> "" /\ all_chars (fun c => negb (isspace c)) d = true.
Proof.
  destruct d as [|c d]; [discriminate|]. unfold decimal_digits.
  intros H. split; [discriminate|].
  revert H. apply all_chars_impl. intros a Ha.
  now rewrite (isdecimal_not_space a Ha).
Qed.

Lemma decimal_digits_strip (s : string) :
  decimal_digits s = true -> strip s = s.
Proof.
  intros H. destruct (decimal_digits_no_space s H).
  now apply strip_of_no_blank.
Qed.

(** On a text that [int()] reads as decimal digits, [strip()] removes what
    [int()] skips. *)
Lemma strip_int_agree (s : string) :
  decimal_digits (strip_of int_space s) = true ->
  strip s = strip_of int_space s.
Proof.
  intros Hd. destruct (decimal_digits_no_space _ Hd) as [Hne Hns].
  destruct (strip_of_decompose int_space s) as (w1 & w2 & Hs & H1 & H2).
  rewrite Hs at 1. unfold strip. apply strip_of_sandwich; auto.
  - revert H1. apply all_chars_impl, int_space_isspace.
  - revert H2. apply all_chars_impl, int_space_isspace.
Qed.

(** [int()] converts every text of decimal digits. *)
Lemma int_body_decimal (s : string) :
  forall (acc : Z) (b : bool),
    all_chars isdecimal s = true ->
    (s <> "" \/ b = true) -> 0 <= acc ->
    exists z, int_body acc b s = Some z /\ 0 <= z.
Proof.
  induction s as [|c s IH]; cbn [int_body all_chars];
    intros acc b Hall Hne Hacc.
  - destruct Hne as [Hne | ->]; [congruence|]. eauto.
  - apply andb_true_iff in Hall. destruct Hall as [Hc Hs].
    unfold isdecimal in Hc.
    destruct (decimal_value c) as [d|] eqn:Hd; try discriminate.
    apply decimal_value_range in Hd.
    apply IH; [exact Hs | now right | lia].
Qed.

Lemma decimal_value_plus : decimal_value "+" = None.
Proof. reflexivity. Qed.

Lemma decimal_value_minus : decimal_value "-" = None.
Proof. reflexivity. Qed.

Lemma to_int_decimal (s : string) :
  decimal_digits (strip_of int_space s) = true ->
  (count_digits (strip_of int_space s) <= int_max_str_digits)%N ->
  exists z, to_int s = Some z /\ 0 <= z.
Proof.
  unfold to_int, decimal_digits.
  destruct (strip_of int_space s) as [|c t] eqn:Hs; try discriminate.
  intros Hall Hlen.
  assert (Hc : isdecimal c = true).
  { simpl in Hall. now apply andb_true_iff in Hall. }
  destruct (Ascii.eqb c "+") eqn:Hp.
  { apply Ascii.eqb_eq in Hp. subst c. discriminate. }
  destruct (Ascii.eqb c "-") eqn:Hm.
  { apply Ascii.eqb_eq in Hm. subst c. discriminate. }
  unfold int_digits.
  apply N.ltb_ge in Hlen. rewrite Hlen.
  apply int_body_decimal; auto. left. discriminate. lia.
Qed.

(** [str(z)] of a natural number is a text of decimal digits. *)
Lemma string_of_uint_decimal (d : Decimal.uint) :
  all_chars isdecimal (NilEmpty.string_of_uint d) = true.
Proof. induction d; simpl; auto. Qed.

Lemma nilzero_uint_decimal (d : Decimal.uint) :
  decimal_digits (NilZero.string_of_uint d) = true.
Proof.
  destruct d; try reflexivity;
    unfold NilZero.string_of_uint; simpl;
    apply string_of_uint_decimal.
Qed.

Lemma of_int_decimal (z : Z) :
  0 <= z -> decimal_digits (of_int z) = true.
Proof.
  intros Hz. unfold of_int.
  destruct z as [|p|p]; try lia; [reflexivity|].
  cbn [Z.to_int NilZero.string_of_int]. apply nilzero_uint_decimal.
Qed.


(** [sub in s] holds exactly when [s] is cut as [a ++ sub ++ b]. *)
Lemma prefix_app (sub s : string) :
  prefix sub s = true <-> exists b, s = (sub ++ b)%string.
Proof.
  revert s. induction sub as [|c sub IH]; intros s; simpl.
  - split; eauto. destruct s; auto.
  - destruct s as [|c' s].
    + split; [discriminate | intros [b Hb]; discriminate].
    + simpl. destruct (ascii_dec c c') as [->|Hne].
      * rewrite IH. split; intros [b Hb]; exists b; congruence.
      * split; [discriminate | intros [b Hb]; congruence].
Qed.

Lemma contains_spec (sub s : string) :
  contains sub s = true <-> exists a b, s = (a ++ sub ++ b)%string.
Proof.
  induction s as [|c s IH].
  - split.
    + intros H. cbn [contains] in H. rewrite orb_false_r in H.
      apply prefix_app in H. destruct H as [b Hb]. exists "", b. exact Hb.
    + intros [a [b Hab]]. destruct a; simpl in Hab; try discriminate.
      cbn [contains]. rewrite orb_false_r. apply prefix_app. eauto.
  - split.
    + intros H. cbn [contains] in H. apply orb_true_iff in H.
      destruct H as [H | H].
      * apply prefix_app in H. destruct H as [b Hb]. exists "", b. exact Hb.
      * apply IH in H. destruct H as [a [b Hab]].
        exists (String c a), b. simpl. now rewrite Hab.
    + intros [a [b Hab]]. cbn [contains]. apply orb_true_iff.
      destruct a as [|c' a]; simpl in Hab.
      * left. apply prefix_app. eauto.
      * right. apply IH. injection Hab as _ Hs. eauto.
Qed.

End PyStrFacts.

(** ** Facts about dictionaries *)

Section DictFacts.

Context {V : Type}.
Implicit Types (d : dict V) (k : string) (v : V).

Lemma dict_get_set_same d k v : dict_get (dict_set d k v) k = Some v.
Proof.
  induction d as [|[k' v'] d IH]; simpl.
  - now rewrite String.eqb_refl.
  - destruct (String.eqb k' k) eqn:E; simpl; rewrite E; auto.
Qed.

Lemma dict_get_set_other d k k' v :
  k <> k' -> dict_get (dict_set d k v) k' = dict_get d k'.
Proof.
  intros Hne. induction d as [|[k0 v0] d IH]; simpl.
  - apply String.eqb_neq in Hne. now rewrite Hne.
  - destruct (String.eqb k0 k) eqn:E; simpl.
    + apply String.eqb_eq in E. subst k0.
      apply String.eqb_neq in Hne. now rewrite Hne.
    + now rewrite IH.
Qed.

Lemma keys_set_present d k v v0 :
  dict_get d k = Some v0 -> keys (dict_set d k v) = keys d.
Proof.
  induction d as [|[k' v'] d IH]; simpl; try discriminate.
  destruct (String.eqb k' k) eqn:E; simpl; auto.
  intros H. f_equal. auto.
Qed.

Lemma keys_set_absent d k v :
  dict_get d k = None -> keys (dict_set d k v) = keys d ++ [k].
Proof.
  induction d as [|[k' v'] d IH]; simpl; auto.
  destruct (String.eqb k' k) eqn:E; simpl; try discriminate.
  intros H. f_equal. auto.
Qed.

Lemma dict_get_in_keys d k v : dict_get d k = Some v -> In k (keys d).
Proof.
  induction d as [|[k' v'] d IH]; simpl; try discriminate.
  destruct (String.eqb k' k) eqn:E.
  - apply String.eqb_eq in E. auto.
  - auto.
Qed.

Lemma dict_get_not_in_keys d k : dict_get d k = None -> ~ In k (keys d).
Proof.
  induction d as [|[k' v'] d IH]; simpl; auto.
  destruct (String.eqb k' k) eqn:E; try discriminate.
  apply String.eqb_neq in E. intros H [Hk | Hk]; [congruence|].
  now apply IH.
Qed.

(** Assignment keeps the keys distinct. *)
Lemma keys_set_NoDup d k v : NoDup (keys d) -> NoDup (keys (dict_set d k v)).
Proof.
  intros Hd. destruct (dict_get d k) as [v0|] eqn:E.
  - now rewrite (keys_set_present d k v v0 E).
  - rewrite (keys_set_absent d k v E).
    apply NoDup_app_remove_l with (l := []). simpl.
    pose proof (dict_get_not_in_keys d k E) as Hn.
    clear E. induction Hd as [|a l Ha Hl IH]; simpl.
    + constructor; [intros []|constructor].
    + constructor.
      * rewrite in_app_iff. simpl. intros [H | [H | []]]; auto.
        subst. apply Hn. now left.
      * apply IH. intros H. apply Hn. now right.
Qed.

End DictFacts.

(** ** Rows and runs of the loop *)

Lemma row_columns (row : Series) :
  (3 <= length row)%nat ->
  exists c0 c1 c2 rest, row = c0 :: c1 :: c2 :: rest.
Proof.
  destruct row as [|c0 [|c1 [|c2 rest]]]; simpl; try lia. eauto.
Qed.

Section LoopFacts.

Variable V : variant.

Lemma loop_body_shape (st : locals) (row : Series) (st' : locals) :
  loop_body V st row = Ok st' -> step_shape V st row st'.
Proof.
  unfold loop_body, classify, header_row, data_row, dict_append, getitem, bind.
  intros H.
  destruct (nth_error row 2) as [c2|] eqn:E2; try discriminate.
  destruct (header_test V c2) eqn:Eh.
  - destruct (nth_error row 1) as [c1|] eqn:E1; try discriminate.
    destruct (notna c1) eqn:En.
    + destruct (section_label V c1) as [name|] eqn:El; try discriminate.
      injection H as <-.
      apply step_open with (s := map_section_name V name); auto.
      unfold opens, classify, getitem, bind.
      now rewrite E2, Eh, E1, En, El.
    + injection H as <-. apply step_skip; auto.
      unfold opens, classify, getitem, bind.
      now rewrite E2, Eh, E1, En.
  - assert (Ho : opens V row = None).
    { unfold opens, classify, getitem, bind. rewrite E2, Eh.
      destruct (nth_error row 0); auto. destruct (data_test c); auto. }
    destruct (nth_error row 0) as [c0|] eqn:E0; try discriminate.
    destruct (data_test c0) eqn:Ed.
    + destruct (py_int c0) as [n|] eqn:Ei; try discriminate.
      destruct (nth_error row 1) as [c1|] eqn:E1; try discriminate.
      destruct (current_section st) as [cs|] eqn:Ec.
      * destruct (truthy cs) eqn:Et; simpl in H.
        -- destruct (truthy (text_or_empty c1)) eqn:Eq; simpl in H.
           ++ destruct (dict_get (faq_data st) cs) as [l|] eqn:Eg;
                try discriminate.
              injection H as <-.
              eapply step_append with (cs := cs) (l := l)
                (r := {| number := n; question := text_or_empty c1;
                         answer := text_or_empty c2 |}); auto.
              unfold record_of, classify, getitem, bind.
              rewrite E2, Eh, E0, Ed, E1, Ei, Eq. reflexivity.
           ++ injection H as <-. now apply step_skip.
        -- injection H as <-. now apply step_skip.
      * injection H as <-. now apply step_skip.
    + injection H as <-. now apply step_skip.
Qed.

Lemma iterrows_app (a b : DataFrame) (st : locals) :
  iterrows V (a ++ b) st = (st' <- iterrows V a st ;; iterrows V b st').
Proof.
  revert st. induction a as [|row a IH]; intros st; simpl; auto.
  destruct (loop_body V st row); simpl; auto.
Qed.

Lemma reachable_step (st st' : locals) (row : Series) :
  reachable V st -> loop_body V st row = Ok st' -> reachable V st'.
Proof.
  intros [df [out H]] Hs. exists (df ++ [row]), out.
  rewrite iterrows_app, H. simpl. now rewrite Hs.
Qed.

Lemma section_entered_step (st st' : locals) (row : Series) :
  section_entered st -> loop_body V st row = Ok st' -> section_entered st'.
Proof.
  intros Hinv Hs. apply loop_body_shape in Hs.
  destruct Hs as [s Ho -> | r cs l Ho Hr Hc Ht Hg -> | Ho ->]; auto.
  - intros cs' [= <-]. simpl. rewrite dict_get_set_same. eauto.
  - intros cs' [= <-]. simpl. rewrite dict_get_set_same. eauto.
Qed.

(** Forward readings of the three branches. *)
Lemma loop_body_opens (st : locals) (row : Series) (s : string) :
  opens V row = Some s -> loop_body V st row = Ok (entered V st s).
Proof.
  unfold opens, loop_body, header_row. intros H.
  destruct (classify V row) as [[| |]|]; try discriminate.
  destruct (getitem row 1) as [c1|]; try discriminate. simpl.
  destruct (notna c1); try discriminate.
  destruct (section_label V c1) as [name|]; try discriminate.
  injection H as <-. reflexivity.
Qed.

Lemma loop_body_header_no_label (st : locals) (row : Series) (c2 : cell) :
  nth_error row 2 = Some c2 -> header_test V c2 = true ->
  nth_error row 1 = Some NaN ->
  classify V row = Ok HeaderRow /\ loop_body V st row = Ok st.
Proof.
  intros E2 Eh E1.
  assert (Hk : classify V row = Ok HeaderRow).
  { unfold classify, getitem. now rewrite E2; simpl; rewrite Eh. }
  split; auto.
  unfold loop_body, header_row, getitem. rewrite Hk, E1. reflexivity.
Qed.

Lemma loop_body_other (st : locals) (row : Series) :
  classify V row = Ok OtherRow -> loop_body V st row = Ok st.
Proof. unfold loop_body. now intros ->. Qed.

Lemma loop_body_record (st : locals) (row : Series) (r : Record_)
      (cs : string) (l : list Record_) :
  record_of V row = Some r ->
  current_section st = Some cs -> truthy cs = true ->
  dict_get (faq_data st) cs = Some l ->
  loop_body V st row = Ok (appended V st cs l r).
Proof.
  unfold record_of, loop_body, data_row, dict_append.
  intros Hr Hc Ht Hg.
  destruct (classify V row) as [[| |]|]; try discriminate.
  destruct (getitem row 0) as [c0|]; try discriminate.
  destruct (getitem row 1) as [c1|]; try discriminate.
  destruct (getitem row 2) as [c2|]; try discriminate. simpl.
  destruct (py_int c0) as [n|]; try discriminate. simpl.
  destruct (truthy (text_or_empty c1)) eqn:Eq; try discriminate.
  injection Hr as <-. rewrite Hc, Ht, Hg. reflexivity.
Qed.

Lemma section_entered_iterrows (df : DataFrame) :
  forall st st', section_entered st -> iterrows V df st = Ok st' ->
                 section_entered st'.
Proof.
  induction df as [|row df IH]; simpl; intros st st' Hinv H.
  - now injection H as <-.
  - destruct (loop_body V st row) as [st1|] eqn:E; try discriminate.
    simpl in H.
    apply (IH st1 st'); [eapply section_entered_step; eauto | exact H].
Qed.

Lemma reachable_section_entered (st : locals) :
  reachable V st -> section_entered st.
Proof.
  intros [df [out H]]. eapply section_entered_iterrows; eauto.
  intros cs. discriminate.
Qed.

(** Each iteration applies the action of its row. *)
Lemma loop_body_action (st : locals) (row : Series) :
  loop_body V st row = apply_action V (action_of V row) st.
Proof.
  unfold loop_body, action_of, classify, header_row, data_row, dict_append.
  destruct row as [|c0 [|c1 [|c2 rest]]]; try reflexivity.
  unfold getitem; simpl.
  destruct (header_test V c2); simpl.
  - destruct (notna c1); simpl; auto.
    destruct (section_label V c1); simpl; auto.
  - destruct (data_test c0); simpl; auto.
    destruct (py_int c0) as [n|]; simpl; auto.
    destruct (current_section st) as [cs|] eqn:Ec; simpl.
    + destruct (truthy cs) eqn:Et; simpl.
      * destruct (truthy (text_or_empty c1)); simpl; rewrite ?Ec, ?Et; auto.
        destruct (dict_get (faq_data st) cs); simpl; auto.
      * destruct (truthy (text_or_empty c1)); simpl; rewrite ?Ec, ?Et; auto.
    + destruct (truthy (text_or_empty c1)); simpl; rewrite ?Ec; auto.
Qed.

Lemma iterrows_rel (R : locals -> locals -> Prop) :
  (forall st1 st2 row, R st1 st2 ->
     lift_rel R (loop_body V st1 row) (loop_body V st2 row)) ->
  forall df st1 st2, R st1 st2 ->
    lift_rel R (iterrows V df st1) (iterrows V df st2).
Proof.
  intros Hstep. induction df as [|row df IH]; intros st1 st2 HR.
  - exact HR.
  - pose proof (Hstep st1 st2 row HR) as Hs. cbn [iterrows].
    destruct (loop_body V st1 row) as [a|e1], (loop_body V st2 row) as [b|e2];
      simpl in Hs; try contradiction.
    + apply IH, Hs.
    + exact Hs.
Qed.

(** The printed output never feeds back into the data. *)
Lemma loop_body_same_data (st1 st2 : locals) (row : Series) :
  same_data st1 st2 ->
  lift_rel same_data (loop_body V st1 row) (loop_body V st2 row).
Proof.
  intros [Hf Hc]. rewrite !loop_body_action.
  destruct (action_of V row) as [s|r| |e]; simpl; auto.
  - split; simpl; congruence.
  - rewrite <- Hc, <- Hf.
    destruct (current_section st1) as [cs|] eqn:Ec; simpl;
      [|split; congruence].
    destruct (truthy cs); simpl; [|split; congruence].
    destruct (dict_get (faq_data st1) cs); simpl; auto.
    split; simpl; congruence.
  - now split.
Qed.

(** What happened before the last header of a section does not reach
    that section's list. *)
Lemma loop_body_same_list (s : string) (st1 st2 : locals) (row : Series) :
  same_list s st1 st2 ->
  lift_rel (same_list s) (loop_body V st1 row) (loop_body V st2 row).
Proof.
  intros (Hc & Hg & H1 & H2).
  assert (P1 : forall st', loop_body V st1 row = Ok st' -> section_entered st')
    by (intros st'; now apply section_entered_step).
  assert (P2 : forall st', loop_body V st2 row = Ok st' -> section_entered st')
    by (intros st'; now apply section_entered_step).
  rewrite !loop_body_action in *.
  destruct (action_of V row) as [t|r| |e]; simpl in *; auto.
  - split; [reflexivity|]. split; [|split; [now apply P1 | now apply P2]].
    simpl. destruct (string_dec t s) as [->|Hne].
    + now rewrite !dict_get_set_same.
    + now rewrite !dict_get_set_other.
  - rewrite <- Hc in *.
    destruct (current_section st1) as [cs|] eqn:Ec; simpl;
      [|repeat split; auto; congruence].
    destruct (truthy cs); simpl; [|repeat split; auto; congruence].
    destruct (H1 cs Ec) as [l1 Hl1].
    destruct (H2 cs (eq_sym Hc)) as [l2 Hl2].
    rewrite Hl1, Hl2 in *. simpl.
    split; [reflexivity|]. split; [|split; [now apply P1 | now apply P2]].
    simpl. destruct (string_dec cs s) as [->|Hne].
    + rewrite !dict_get_set_same. congruence.
    + now rewrite !dict_get_set_other.
  - repeat split; auto.
Qed.

End LoopFacts.

(** ** Attribution of records to sections *)

Lemma sorted_snoc (l : list nat) (n : nat) :
  StronglySorted Nat.lt l -> Forall (fun i => (i < n)%nat) l ->
  StronglySorted Nat.lt (l ++ [n]).
Proof.
  induction 1 as [|a l Hs IH Ha]; intros Hn; simpl.
  - constructor; constructor.
  - inversion Hn as [|? ? Han Hln]; subst.
    constructor; auto.
    apply Forall_app. split; auto.
Qed.

Section Attribution.

Variable V : variant.

Lemma header_extend (df ext : DataFrame) (i h : nat) (s : string) :
  (i <= length df)%nat ->
  most_recent_header V df i h s -> most_recent_header V (df ++ ext) i h s.
Proof.
  intros Hi (Hh & (row & Hrow & Ho) & Hbetween).
  split; [exact Hh|]. split.
  - exists row. split; auto. rewrite nth_error_app1; auto. lia.
  - intros j row' Hj Hnth. rewrite nth_error_app1 in Hnth by lia. eauto.
Qed.

Lemma header_skip (pre : DataFrame) (row : Series) (h : nat) (s : string) :
  opens V row = None ->
  most_recent_header V pre (length pre) h s ->
  most_recent_header V (pre ++ [row]) (S (length pre)) h s.
Proof.
  intros Hrow (Hh & (r & Hr & Ho) & Hbetween).
  split; [lia|]. split.
  - exists r. split; auto. rewrite nth_error_app1; auto.
  - intros j row' Hj Hnth.
    destruct (Nat.eq_dec j (length pre)) as [->|Hne].
    + rewrite nth_error_app2, Nat.sub_diag in Hnth by lia.
      simpl in Hnth. congruence.
    + rewrite nth_error_app1 in Hnth by lia. apply (Hbetween j); auto. lia.
Qed.

Lemma header_here (pre : DataFrame) (row : Series) (s : string) :
  opens V row = Some s ->
  most_recent_header V (pre ++ [row]) (S (length pre)) (length pre) s.
Proof.
  intros Ho. split; [lia|]. split.
  - exists row. split; auto.
    rewrite nth_error_app2, Nat.sub_diag by lia. reflexivity.
  - intros j row' Hj. lia.
Qed.

Lemma from_row_bound (df : DataFrame) (s : string) (i : nat) (r : Record_) :
  from_row V df s i r -> (i < length df)%nat.
Proof.
  intros [(row & Hrow & _) _]. apply nth_error_Some. congruence.
Qed.

Lemma from_row_extend (df ext : DataFrame) (s : string) (i : nat)
      (r : Record_) :
  from_row V df s i r -> from_row V (df ++ ext) s i r.
Proof.
  intros H. pose proof (from_row_bound _ _ _ _ H) as Hi.
  destruct H as [(row & Hrow & Hr) (h & Hh)]. split.
  - exists row. split; auto. rewrite nth_error_app1; auto.
  - exists h. apply header_extend; auto. lia.
Qed.

Lemma Forall2_from_row_extend (pre ext : DataFrame) (s : string)
      (idxs : list nat) (l : list Record_) :
  Forall2 (from_row V pre s) idxs l ->
  Forall2 (from_row V (pre ++ ext) s) idxs l.
Proof.
  induction 1; constructor; auto using from_row_extend.
Qed.

Lemma Forall2_from_row_bound (pre : DataFrame) (s : string)
      (idxs : list nat) (l : list Record_) :
  Forall2 (from_row V pre s) idxs l ->
  Forall (fun i => (i < length pre)%nat) idxs.
Proof.
  induction 1; constructor; eauto using from_row_bound.
Qed.

Lemma attributed_step (pre : DataFrame) (st st' : locals) (row : Series) :
  attributed V pre st -> loop_body V st row = Ok st' ->
  attributed V (pre ++ [row]) st'.
Proof.
  intros [Hcur Hrec] Hstep.
  assert (Hlen : length (pre ++ [row]) = S (length pre))
    by (rewrite length_app; simpl; lia).
  assert (Hkeep : forall s l, dict_get (faq_data st) s = Some l ->
            exists idxs, StronglySorted Nat.lt idxs /\
                         Forall2 (from_row V (pre ++ [row]) s) idxs l).
  { intros s l Hg. destruct (Hrec s l Hg) as (idxs & Hs & Hf).
    exists idxs. split; auto. now apply Forall2_from_row_extend. }
  apply loop_body_shape in Hstep.
  destruct Hstep as [s Ho -> | r cs l Ho Hr Hc Ht Hg -> | Ho ->].
  - split.
    + intros cs [= <-]. exists (length pre). rewrite Hlen.
      now apply header_here.
    + intros s' l'. simpl. destruct (string_dec s s') as [<-|Hne].
      * rewrite dict_get_set_same. intros [= <-].
        exists []. split; constructor.
      * rewrite dict_get_set_other by auto. apply Hkeep.
  - destruct (Hcur cs Hc) as [h Hh]. split.
    + intros cs' [= <-]. exists h. rewrite Hlen. now apply header_skip.
    + intros s' l'. simpl. destruct (string_dec cs s') as [<-|Hne].
      * rewrite dict_get_set_same. intros [= <-].
        destruct (Hrec cs l Hg) as (idxs & Hs & Hf).
        exists (idxs ++ [length pre]). split.
        -- apply sorted_snoc; auto.
           eapply Forall2_from_row_bound; eauto.
        -- apply Forall2_app.
           ++ now apply Forall2_from_row_extend.
           ++ constructor; [|constructor]. split.
              ** exists row. split; auto.
                 rewrite nth_error_app2, Nat.sub_diag by lia. reflexivity.
              ** exists h. apply header_extend; auto.
      * rewrite dict_get_set_other by auto. apply Hkeep.
  - split.
    + intros cs Hc. destruct (Hcur cs Hc) as [h Hh].
      exists h. rewrite Hlen. now apply header_skip.
    + apply Hkeep.
Qed.

Lemma attributed_iterrows (rest : DataFrame) :
  forall pre st st',
    attributed V pre st -> iterrows V rest st = Ok st' ->
    attributed V (pre ++ rest) st'.
Proof.
  induction rest as [|row rest IH]; intros pre st st' Hinv Hrun.
  - simpl in Hrun. injection Hrun as <-. now rewrite app_nil_r.
  - simpl in Hrun.
    destruct (loop_body V st row) as [st1|] eqn:E; try discriminate.
    simpl in Hrun.
    replace (pre ++ row :: rest) with ((pre ++ [row]) ++ rest)
      by (rewrite <- app_assoc; reflexivity).
    apply (IH (pre ++ [row]) st1 st'); auto.
    eapply attributed_step; eauto.
Qed.

Lemma attributed_extract (df : DataFrame) (out out' : list string)
      (faq : dict (list Record_)) :
  extract V df out = Ok (faq, out') ->
  forall s l, dict_get faq s = Some l ->
    exists idxs, StronglySorted Nat.lt idxs /\
                 Forall2 (from_row V df s) idxs l.
Proof.
  unfold extract. intros H.
  destruct (iterrows V df (initial out)) as [st|] eqn:E; try discriminate.
  simpl in H. injection H as <- <-.
  apply (attributed_iterrows df [] (initial out) st); auto.
  split; simpl; intros; discriminate.
Qed.

End Attribution.

(** ** The two header tests and the data test *)

Lemma cbre_header_test_spec (c2 : cell) :
  Cbre.header_test c2 = true <->
  c2 <> NaN /\ PyStr.strip (py_str c2) = "Answer".
Proof.
  unfold Cbre.header_test. destruct c2 as [|s|z]; cbn [notna andb].
  - split; [discriminate | intros [H _]; congruence].
  - rewrite String.eqb_eq. split; [split; [discriminate|auto] | tauto].
  - rewrite String.eqb_eq. split; [split; [discriminate|auto] | tauto].
Qed.

Lemma excel_header_test_spec (c2 : cell) :
  Excel.header_test c2 = true <-> c2 = Str "Answer".
Proof.
  unfold Excel.header_test. destruct c2 as [|s|z]; cbn [notna andb].
  - split; discriminate.
  - rewrite String.eqb_eq. split; congruence.
  - split; discriminate.
Qed.

Lemma blank_text_or_empty (c : cell) : blank c -> text_or_empty c = "".
Proof.
  destruct c as [|s|z]; simpl; try tauto.
  intros H. now apply PyStrFacts.strip_empty_iff.
Qed.

Lemma blank_not_cbre_header (c2 : cell) :
  blank c2 -> Cbre.header_test c2 = false.
Proof.
  intros Hb. destruct (Cbre.header_test c2) eqn:E; auto.
  apply cbre_header_test_spec in E. destruct E as [Hn Hs].
  destruct c2 as [|s|z]; simpl in *; [congruence | | contradiction].
  apply PyStrFacts.strip_empty_iff in Hb. congruence.
Qed.

Lemma blank_not_excel_header (c2 : cell) :
  blank c2 -> Excel.header_test c2 = false.
Proof.
  intros Hb. destruct (Excel.header_test c2) eqn:E; auto.
  apply excel_header_test_spec in E. subst c2. discriminate Hb.
Qed.

(** A number in column 0 passes the data test, and [int()] converts it. *)
Lemma digit_only_data_test (c0 : cell) :
  digit_only c0 ->
  data_test c0 = true /\ exists n, py_int c0 = Ok n /\ 0 <= n.
Proof.
  destruct c0 as [|s|z]; cbn [digit_only py_int]; try tauto.
  - intros [Hd Hlen]. split.
    + unfold data_test. cbn [notna andb py_str].
      rewrite (PyStrFacts.strip_int_agree s Hd).
      now apply PyStrFacts.decimal_digits_isdigit.
    + destruct (PyStrFacts.to_int_decimal s Hd Hlen) as (n & Hn & Hpos).
      exists n. now rewrite Hn.
  - intros [Hz _]. split; [|eauto].
    unfold data_test. cbn [notna andb py_str].
    pose proof (PyStrFacts.of_int_decimal z Hz) as Hd.
    rewrite (PyStrFacts.decimal_digits_strip _ Hd).
    now apply PyStrFacts.decimal_digits_isdigit.
Qed.

Section RowFacts.

Variable V : variant.

Lemma classify_header (row : Series) (c2 : cell) :
  nth_error row 2 = Some c2 ->
  (classify V row = Ok HeaderRow <-> header_test V c2 = true).
Proof.
  intros E2. unfold classify, getitem. rewrite E2. cbn [bind].
  destruct (header_test V c2); [tauto|].
  destruct (nth_error row 0) as [c0|]; cbn [bind];
    [destruct (data_test c0)|]; split; discriminate.
Qed.

Lemma classify_not_header (c0 c1 c2 : cell) (rest : list cell) :
  header_test V c2 = false ->
  classify V (c0 :: c1 :: c2 :: rest)
    = Ok (if data_test c0 then DataRow else OtherRow).
Proof.
  intros Hh. unfold classify, getitem. cbn [nth_error bind]. rewrite Hh.
  now destruct (data_test c0).
Qed.

(** The three kinds of rows that the loop drops. *)
Lemma loop_body_discard (st : locals) (c0 c1 c2 : cell) (rest : list cell) :
  header_test V c2 = false ->
  data_test c0 = false \/
  (digit_only c0 /\ blank c1) \/
  (digit_only c0 /\ current_section st = None) ->
  loop_body V st (c0 :: c1 :: c2 :: rest) = Ok st.
Proof.
  intros Hh Hcase. unfold loop_body.
  rewrite (classify_not_header c0 c1 c2 rest Hh). cbn [bind].
  destruct Hcase as [Hd | [[Hd Hb] | [Hd Hc]]].
  - now rewrite Hd.
  - destruct (digit_only_data_test c0 Hd) as (Ht & n & Hn & _).
    rewrite Ht. unfold data_row, getitem. cbn [nth_error bind].
    rewrite Hn. cbn [bind]. rewrite (blank_text_or_empty c1 Hb).
    destruct (current_section st) as [cs|]; auto.
    now rewrite andb_false_r.
  - destruct (digit_only_data_test c0 Hd) as (Ht & n & Hn & _).
    rewrite Ht. unfold data_row, getitem. cbn [nth_error bind].
    rewrite Hn. cbn [bind]. now rewrite Hc.
Qed.

(** A row that leaves the locals alone can be deleted from the grid. *)
Lemma extract_drop_row (pre post : DataFrame) (row : Series)
      (out : list string) (st : locals) :
  iterrows V pre (initial out) = Ok st ->
  loop_body V st row = Ok st ->
  extract V (pre ++ row :: post) out = extract V (pre ++ post) out.
Proof.
  intros Hpre Hrow. unfold extract.
  rewrite !iterrows_app, Hpre. cbn [bind iterrows]. now rewrite Hrow.
Qed.

(** A question row with a question, read in a section with a name. *)
Lemma loop_body_question (st : locals) (c0 c1 c2 : cell) (rest : list cell)
      (cs : string) :
  header_test V c2 = false ->
  reachable V st -> current_section st = Some cs -> cs <> "" ->
  digit_only c0 -> c1 <> NaN -> PyStr.strip (py_str c1) <> "" ->
  exists n l,
    py_int c0 = Ok n /\
    dict_get (faq_data st) cs = Some l /\
    loop_body V st (c0 :: c1 :: c2 :: rest)
      = Ok (appended V st cs l
              {| number := n;
                 question := PyStr.strip (py_str c1);
                 answer := text_or_empty c2 |}).
Proof.
  intros Hh Hreach Hc Hcs Hd Hc1 Hq.
  destruct (digit_only_data_test c0 Hd) as (Ht & n & Hn & _).
  destruct (reachable_section_entered V st Hreach cs Hc) as [l Hl].
  exists n, l. split; [exact Hn|]. split; [exact Hl|].
  assert (Hq1 : text_or_empty c1 = PyStr.strip (py_str c1)).
  { unfold text_or_empty. destruct c1; [congruence| |]; reflexivity. }
  apply loop_body_record; auto.
  - unfold record_of. rewrite (classify_not_header c0 c1 c2 rest Hh), Ht.
    unfold getitem. cbn [nth_error]. rewrite Hn, Hq1.
    unfold truthy. apply String.eqb_neq in Hq. now rewrite Hq.
  - unfold truthy. apply String.eqb_neq in Hcs. now rewrite Hcs.
Qed.

End RowFacts.

(** [sub in s] decides [occurs_in]. *)
Lemma contains_occurs (kw s : string) :
  PyStr.contains kw s = true <-> occurs_in kw s.
Proof. apply PyStrFacts.contains_spec. Qed.

(** ** Section names (C1) *)

(** C1, as stated, fails in each script.  [parse_faq_excel] compares the
    whole lower-cased label with its keywords, so the label
    "Portal / System" is kept verbatim and does not become
    "Portal Matters"; [parse_cbre_faq] looks for the keywords "Coverage",
    "Letter of Guarantee", "System" and "Status" only, so the label "Claims"
    is kept verbatim and does not become "Claims Status". *)
Lemma C1_counterexample :
  parse_faq_excel [[NaN; Str "Portal / System"; Str "Answer"]] []
    = Ok ([("Portal / System", [])], ["Found section: Portal / System"]) /\
  Excel.map_section_name "Portal / System" <> "Portal Matters" /\
  parse_cbre_faq [[NaN; Str "Claims"; Str "Answer"]] []
    = Ok ([("Claims", [])], ["Section: Claims"]) /\
  Cbre.map_section_name "Claims" <> "Claims Status".
Proof.
  repeat split; try reflexivity; vm_compute; discriminate.
Qed.

(** C1, amended.  A header row with a label in column 1 opens the section
    whose name is resolved from the trimmed label, in a fixed order of
    tests and with the label itself as the fallback.  [parse_faq_excel]
    compares the lower-cased label for equality with "coverage",
    "letter of guarantee", "system", then "claims" or "status";
    [parse_cbre_faq] tests whether the label contains "Coverage", then
    "Letter of Guarantee", then "System", then "Status".  So "Claims"
    gives "Claims Status" in [parse_faq_excel], "Portal / System" gives
    "Portal Matters" in [parse_cbre_faq], and "Miscellaneous" is kept
    verbatim by both. *)
Theorem C1_section_name_resolution
        (st : locals) (c0 c1 c2 : cell) (rest : list cell) :
  let row := c0 :: c1 :: c2 :: rest in
  let name := PyStr.strip (py_str c1) in
  let low := PyStr.lower name in
  (Excel.header_test c2 = true -> (exists label, c1 = Str label) ->
   exists s,
     loop_body Excel.dialect st row = Ok (entered Excel.dialect st s) /\
     (low = "coverage" -> s = "Benefit Coverage") /\
     (low = "letter of guarantee" -> s = "Letter of Guarantee (LOG)") /\
     (low = "system" -> s = "Portal Matters") /\
     (low = "claims" \/ low = "status" -> s = "Claims Status") /\
     (low <> "coverage" -> low <> "letter of guarantee" ->
      low <> "system" -> low <> "claims" -> low <> "status" -> s = name)) /\
  (Cbre.header_test c2 = true -> c1 <> NaN ->
   exists s,
     loop_body Cbre.dialect st row = Ok (entered Cbre.dialect st s) /\
     (occurs_in "Coverage" name -> s = "Benefit Coverage") /\
     (~ occurs_in "Coverage" name ->
      occurs_in "Letter of Guarantee" name ->
      s = "Letter of Guarantee (LOG)") /\
     (~ occurs_in "Coverage" name ->
      ~ occurs_in "Letter of Guarantee" name ->
      occurs_in "System" name -> s = "Portal Matters") /\
     (~ occurs_in "Coverage" name ->
      ~ occurs_in "Letter of Guarantee" name ->
      ~ occurs_in "System" name ->
      occurs_in "Status" name -> s = "Claims Status") /\
     (~ occurs_in "Coverage" name ->
      ~ occurs_in "Letter of Guarantee" name ->
      ~ occurs_in "System" name ->
      ~ occurs_in "Status" name -> s = name)) /\
  Excel.map_section_name "Claims" = "Claims Status" /\
  Cbre.map_section_name "Portal / System" = "Portal Matters" /\
  Excel.map_section_name "Miscellaneous" = "Miscellaneous" /\
  Cbre.map_section_name "Miscellaneous" = "Miscellaneous".
Proof.
  intros row name low. split; [|split; [|repeat split; reflexivity]].
  - intros Hh [label ->]. exists (Excel.map_section_name name). split.
    + unfold loop_body, classify, row, getitem. cbn [nth_error bind].
      cbn [header_test Excel.dialect]. rewrite Hh. reflexivity.
    + unfold Excel.map_section_name. fold low. cbn [existsb].
      destruct (String.eqb_spec low "coverage") as [E1|E1];
        [cbv iota; intuition idtac; congruence|].
      destruct (String.eqb_spec low "letter of guarantee") as [E2|E2];
        [cbv iota; intuition idtac; congruence|].
      destruct (String.eqb_spec low "system") as [E3|E3];
        [cbv iota; intuition idtac; congruence|].
      destruct (String.eqb_spec low "claims") as [E4|E4];
        [cbv iota; intuition idtac; congruence|].
      destruct (String.eqb_spec low "status") as [E5|E5];
        [cbv iota; intuition idtac; congruence|].
      cbn [orb]. cbv iota. intuition idtac; congruence.
  - intros Hh Hc1. exists (Cbre.map_section_name name). split.
    + unfold loop_body, classify, row, getitem. cbn [nth_error bind].
      cbn [header_test Cbre.dialect]. rewrite Hh.
      unfold header_row, getitem. cbn [nth_error bind].
      destruct c1; [congruence| |]; reflexivity.
    + unfold Cbre.map_section_name.
      pose proof (contains_occurs "Coverage" name) as R1.
      pose proof (contains_occurs "Letter of Guarantee" name) as R2.
      pose proof (contains_occurs "System" name) as R3.
      pose proof (contains_occurs "Status" name) as R4.
      destruct (PyStr.contains "Coverage" name);
        destruct (PyStr.contains "Letter of Guarantee" name);
        destruct (PyStr.contains "System" name);
        destruct (PyStr.contains "Status" name);
        cbv iota; intuition (try congruence).
Qed.

Lemma C1_section_name_resolution_witness :
  (exists s,
     loop_body Excel.dialect (initial [])
               [NaN; Str " Claims "; Str "Answer"]
       = Ok (entered Excel.dialect (initial []) s) /\
     s = "Claims Status") /\
  (exists s,
     loop_body Cbre.dialect (initial [])
               [NaN; Str "Portal / System"; Str " Answer"]
       = Ok (entered Cbre.dialect (initial []) s) /\
     s = "Portal Matters").
Proof.
  destruct (C1_section_name_resolution
              (initial []) NaN (Str " Claims ") (Str "Answer") [])
    as [HE _].
  destruct (C1_section_name_resolution
              (initial []) NaN (Str "Portal / System") (Str " Answer") [])
    as [_ [HC _]].
  split.
  - destruct (HE eq_refl (ex_intro _ " Claims " eq_refl))
      as (s & Hs & _ & _ & _ & Hc & _).
    exists s. split; [exact Hs | apply Hc; left; reflexivity].
  - assert (Hn : Str "Portal / System" <> NaN) by discriminate.
    destruct (HC eq_refl Hn) as (s & Hs & _ & _ & Hp & _).
    exists s. split; [exact Hs|]. apply Hp.
    + intros Hocc.
      apply (proj2 (contains_occurs "Coverage" "Portal / System")) in Hocc.
      discriminate Hocc.
    + intros Hocc.
      apply (proj2 (contains_occurs "Letter of Guarantee" "Portal / System"))
        in Hocc.
      discriminate Hocc.
    + exists "Portal / ", "". reflexivity.
Defined.

(** ** The header-row test (C2) *)

(** C2, as stated, fails in [parse_faq_excel]: its test is
    [row[2] == "Answer"], without trimming, so a row whose column 2 is
    " Answer " is not a header row there, and the section it would open
    is never entered. *)
Lemma C2_counterexample :
  (Str " Answer " <> NaN /\
   PyStr.strip (py_str (Str " Answer ")) = "Answer") /\
  classify Excel.dialect [NaN; Str "Coverage"; Str " Answer "]
    = Ok OtherRow /\
  parse_faq_excel [[NaN; Str "Coverage"; Str " Answer "];
                   [Int 1; Str "What is covered?"; Str "Everything."]] []
    = Ok ([], []).
Proof.
  repeat split; try reflexivity. discriminate.
Qed.

(** C2, amended.  In [parse_cbre_faq] a row is a header row exactly when
    column 2 is present and its trimmed text is "Answer", so blanks
    around "Answer" do not matter; in [parse_faq_excel] a row is a header
    row exactly when column 2 is the text "Answer" itself. *)
Theorem C2_header_row_test (row : Series) (c2 : cell) :
  nth_error row 2 = Some c2 ->
  (classify Cbre.dialect row = Ok HeaderRow <->
   c2 <> NaN /\ PyStr.strip (py_str c2) = "Answer") /\
  (classify Excel.dialect row = Ok HeaderRow <-> c2 = Str "Answer").
Proof.
  intros E2.
  assert (Hlen : exists c0 c1 rest, row = c0 :: c1 :: c2 :: rest).
  { destruct row as [|c0 [|c1 [|c2' rest]]]; try discriminate.
    injection E2 as ->. eauto. }
  destruct Hlen as (c0 & c1 & rest & ->).
  unfold classify, getitem. cbn [nth_error bind header_test].
  cbn [Cbre.dialect Excel.dialect header_test].
  split.
  - unfold Cbre.header_test.
    destruct c2 as [|s|z]; cbn [notna andb].
    + destruct (data_test c0); split; try discriminate; intros [H _];
        congruence.
    + destruct (String.eqb_spec (PyStr.strip (py_str (Str s))) "Answer").
      * split; auto. intros _. split; [discriminate | assumption].
      * destruct (data_test c0); split; try discriminate; intros [_ H];
          congruence.
    + destruct (String.eqb_spec (PyStr.strip (py_str (Int z))) "Answer").
      * split; auto. intros _. split; [discriminate | assumption].
      * destruct (data_test c0); split; try discriminate; intros [_ H];
          congruence.
  - unfold Excel.header_test.
    destruct c2 as [|s|z]; cbn [notna andb].
    + destruct (data_test c0); split; discriminate.
    + destruct (String.eqb_spec s "Answer") as [->|Hne].
      * split; auto.
      * destruct (data_test c0); split; try discriminate; congruence.
    + destruct (data_test c0); split; discriminate.
Qed.

Lemma C2_header_row_test_witness :
  classify Cbre.dialect [NaN; Str "Coverage"; Str " Answer "] = Ok HeaderRow /\
  classify Excel.dialect [NaN; Str "Coverage"; Str "Answer"] = Ok HeaderRow.
Proof.
  split.
  - apply (proj1 (C2_header_row_test
                    [NaN; Str "Coverage"; Str " Answer "] (Str " Answer ")
                    eq_refl)).
    split; [discriminate | reflexivity].
  - apply (proj2 (C2_header_row_test
                    [NaN; Str "Coverage"; Str "Answer"] (Str "Answer")
                    eq_refl)).
    reflexivity.
Defined.

(** ** Rows that are dropped (C4) *)

(** A row that fails the header test is dropped without a trace -- the
    locals, the printed output included, are left as they were, so the
    result is that of the grid without the row, and nothing is raised --
    when it fails the data test too, or when it holds a number in column 0
    and no question in column 1, or when it holds a number in column 0 and
    no section has been opened.  This holds in [parse_faq_excel] and in
    [parse_cbre_faq]. *)
Lemma silent_discard
      (st : locals) (c0 c1 c2 : cell) (rest : list cell) :
  let row := c0 :: c1 :: c2 :: rest in
  data_test c0 = false \/
  (digit_only c0 /\ blank c1) \/
  (digit_only c0 /\ current_section st = None) ->
  (Excel.header_test c2 = false ->
   loop_body Excel.dialect st row = Ok st /\
   forall pre post out,
     iterrows Excel.dialect pre (initial out) = Ok st ->
     parse_faq_excel (pre ++ row :: post) out
       = parse_faq_excel (pre ++ post) out) /\
  (Cbre.header_test c2 = false ->
   loop_body Cbre.dialect st row = Ok st /\
   forall pre post out,
     iterrows Cbre.dialect pre (initial out) = Ok st ->
     parse_cbre_faq (pre ++ row :: post) out
       = parse_cbre_faq (pre ++ post) out).
Proof.
  intros row Hcase. split; intros Hh.
  - assert (Hrow : loop_body Excel.dialect st row = Ok st)
      by (apply loop_body_discard; auto).
    split; auto. intros pre post out Hpre.
    now apply (extract_drop_row Excel.dialect pre post row out st).
  - assert (Hrow : loop_body Cbre.dialect st row = Ok st)
      by (apply loop_body_discard; auto).
    split; auto. intros pre post out Hpre.
    now apply (extract_drop_row Cbre.dialect pre post row out st).
Qed.

(** C4 fails on the code: a row that passes the data test of the loop is
    not always dropped in silence.  The row whose column 0 is the
    superscript two, whose question is absent, and that comes before any
    header, makes both scripts raise [ValueError]: [isdigit()] accepts the
    text and [int()], called before the question and the section are
    looked at, rejects it.  So does a row whose column 0 holds 4301 digits,
    one more than [int()] converts, while the same row with 4300 digits is
    dropped as the claim says. *)
Theorem C4_digit_led_row_raises :
  data_test (Str superscript_two) = true /\
  blank NaN /\
  Excel.header_test (Str "A note.") = false /\
  Cbre.header_test (Str "A note.") = false /\
  parse_faq_excel [[Str superscript_two; NaN; Str "A note."]] []
    = Raise ValueError /\
  parse_cbre_faq [[Str superscript_two; NaN; Str "A note."]] []
    = Raise ValueError /\
  data_test (Str (nines 4301)) = true /\
  parse_faq_excel [[Str (nines 4301); NaN; Str "A note."]] []
    = Raise ValueError /\
  parse_cbre_faq [[Str (nines 4301); NaN; Str "A note."]] []
    = Raise ValueError /\
  parse_faq_excel [[Str (nines 4300); NaN; Str "A note."]] [] = Ok ([], []) /\
  parse_cbre_faq [[Str (nines 4300); NaN; Str "A note."]] [] = Ok ([], []).
Proof.
  repeat split; vm_compute; reflexivity.
Qed.

(** ** Empty answers (C6) *)

(** A row with a number in column 0, a question in column 1 and an absent
    or blank column 2, read while a section with a non-empty name is open,
    appends to that section's list a record whose answer is the empty
    text.  This holds in [parse_faq_excel] and in [parse_cbre_faq]. *)
Lemma empty_answer_kept
      (st : locals) (c0 c1 c2 : cell) (rest : list cell) (cs : string) :
  let row := c0 :: c1 :: c2 :: rest in
  current_section st = Some cs -> cs <> "" ->
  digit_only c0 ->
  c1 <> NaN -> PyStr.strip (py_str c1) <> "" ->
  blank c2 ->
  (reachable Excel.dialect st ->
   exists n l,
     py_int c0 = Ok n /\
     dict_get (faq_data st) cs = Some l /\
     loop_body Excel.dialect st row
       = Ok (appended Excel.dialect st cs l
               {| number := n; question := PyStr.strip (py_str c1);
                  answer := "" |})) /\
  (reachable Cbre.dialect st ->
   exists n l,
     py_int c0 = Ok n /\
     dict_get (faq_data st) cs = Some l /\
     loop_body Cbre.dialect st row
       = Ok (appended Cbre.dialect st cs l
               {| number := n; question := PyStr.strip (py_str c1);
                  answer := "" |})).
Proof.
  intros row Hc Hcs Hd Hc1 Hq Hb.
  rewrite <- (blank_text_or_empty c2 Hb).
  split; intros Hreach.
  - apply loop_body_question; auto.
    now apply blank_not_excel_header.
  - apply loop_body_question; auto.
    now apply blank_not_cbre_header.
Qed.

(** C6 fails on the code.  A header row whose label is made of blanks
    opens the section with the empty name: the loop enters it in the
    mapping and prints it.  The guard [if current_section and question]
    then takes the empty name for no section, and the question row below,
    with the number 1, a question and an absent answer, is dropped instead
    of being recorded with the empty answer: both scripts return the
    section with an empty list.  Under a section with a name, a question
    row whose column 0 holds 4301 digits is not recorded either: [int()]
    raises [ValueError]. *)
Theorem C6_row_under_empty_name_is_dropped :
  loop_body Excel.dialect (initial []) [NaN; Str " "; Str "Answer"]
    = Ok (entered Excel.dialect (initial []) "") /\
  loop_body Cbre.dialect (initial []) [NaN; Str " "; Str "Answer"]
    = Ok (entered Cbre.dialect (initial []) "") /\
  parse_faq_excel [[NaN; Str " "; Str "Answer"];
                   [Int 1; Str "Is this kept?"; NaN]] []
    = Ok ([("", [])], ["Found section: "]) /\
  parse_cbre_faq [[NaN; Str " "; Str "Answer"];
                  [Int 1; Str "Is this kept?"; NaN]] []
    = Ok ([("", [])], ["Section: "]) /\
  parse_faq_excel [[NaN; Str "Coverage"; Str "Answer"];
                   [Str (nines 4301); Str "Is this kept?"; NaN]] []
    = Raise ValueError /\
  parse_cbre_faq [[NaN; Str "Coverage"; Str "Answer"];
                  [Str (nines 4301); Str "Is this kept?"; NaN]] []
    = Raise ValueError.
Proof.
  repeat split; vm_compute; reflexivity.
Qed.

(** ** Header rows without a label (C10) *)

(** C10, as stated, fails in [parse_faq_excel], whose header test does not
    trim: a row whose column 2 is " Answer " and whose column 1 is absent
    goes to the data-row branch when column 0 passes the data test, and
    there [int()] can raise. *)
Lemma C10_counterexample :
  PyStr.strip (py_str (Str " Answer ")) = "Answer" /\
  classify Excel.dialect [Str "1"; NaN; Str " Answer "] = Ok DataRow /\
  loop_body Excel.dialect (initial [])
            [Str superscript_two; NaN; Str " Answer "]
    = Raise ValueError.
Proof.
  repeat split; reflexivity.
Qed.

(** C10, amended.  A row that passes the header test of its script -- the
    trimmed text of column 2 is "Answer" in [parse_cbre_faq], column 2 is
    the text "Answer" in [parse_faq_excel] -- and has no label in column 1
    takes the header branch and leaves the locals unchanged, whatever
    column 0 holds. *)
Theorem C10_header_without_label (st : locals) (row : Series) (c2 : cell) :
  nth_error row 1 = Some NaN ->
  nth_error row 2 = Some c2 ->
  (c2 <> NaN /\ PyStr.strip (py_str c2) = "Answer" ->
   classify Cbre.dialect row = Ok HeaderRow /\
   loop_body Cbre.dialect st row = Ok st) /\
  (c2 = Str "Answer" ->
   classify Excel.dialect row = Ok HeaderRow /\
   loop_body Excel.dialect st row = Ok st).
Proof.
  intros E1 E2. split; intros Hc2.
  - apply (loop_body_header_no_label Cbre.dialect st row c2); auto.
    now apply cbre_header_test_spec.
  - apply (loop_body_header_no_label Excel.dialect st row c2); auto.
    now apply excel_header_test_spec.
Qed.

Lemma C10_header_without_label_witness :
  let st := entered Cbre.dialect (initial []) "Benefit Coverage" in
  (classify Cbre.dialect [Str "12"; NaN; Str " Answer "] = Ok HeaderRow /\
   loop_body Cbre.dialect st [Str "12"; NaN; Str " Answer "] = Ok st) /\
  (classify Excel.dialect [Int 12; NaN; Str "Answer"] = Ok HeaderRow /\
   loop_body Excel.dialect st [Int 12; NaN; Str "Answer"] = Ok st).
Proof.
  intros st. split.
  - apply (proj1 (C10_header_without_label
                    st [Str "12"; NaN; Str " Answer "] (Str " Answer ")
                    eq_refl eq_refl)).
    split; [discriminate | reflexivity].
  - apply (proj2 (C10_header_without_label
                    st [Int 12; NaN; Str "Answer"] (Str "Answer")
                    eq_refl eq_refl)).
    reflexivity.
Defined.

(** ** Attribution and order (C3) *)

(** C3.  Every record of the output list of a section [s] is the record of
    a row [i] of the grid such that the last row before [i] that opens a
    section opens [s] (so a header row does precede row [i]); and the
    records of the list come from rows of increasing index, so they stand
    in the order of their rows.  This holds in [parse_faq_excel] and in
    [parse_cbre_faq]. *)
Theorem C3_attribution_and_order
        (df : DataFrame) (out out' : list string)
        (faq : dict (list Record_)) (s : string) (l : list Record_) :
  dict_get faq s = Some l ->
  (parse_faq_excel df out = Ok (faq, out') ->
   exists idxs,
     StronglySorted Nat.lt idxs /\
     Forall2 (from_row Excel.dialect df s) idxs l) /\
  (parse_cbre_faq df out = Ok (faq, out') ->
   exists idxs,
     StronglySorted Nat.lt idxs /\
     Forall2 (from_row Cbre.dialect df s) idxs l).
Proof.
  intros Hg. split; intros Hrun.
  - eapply attributed_extract; eauto.
  - eapply attributed_extract; eauto.
Qed.

Lemma C3_attribution_and_order_witness :
  let df := [[Int 1; Str "Orphan?"; Str "Dropped."];
             [NaN; Str "Coverage"; Str "Answer"];
             [Int 1; Str "What is covered?"; Str "Everything listed."];
             [NaN; NaN; NaN];
             [Int 2; Str "And what is not?"; NaN]] in
  exists idxs,
    StronglySorted Nat.lt idxs /\
    Forall2 (from_row Excel.dialect df "Benefit Coverage") idxs
      [{| number := 1; question := "What is covered?";
          answer := "Everything listed." |};
       {| number := 2; question := "And what is not?"; answer := "" |}].
Proof.
  intros df.
  apply (proj1 (C3_attribution_and_order
                  df []
                  ["Found section: Benefit Coverage";
                   "  Q1: What is covered?...";
                   "  Q2: And what is not?..."]
                  [("Benefit Coverage",
                    [{| number := 1; question := "What is covered?";
                        answer := "Everything listed." |};
                     {| number := 2; question := "And what is not?";
                        answer := "" |}])]
                  "Benefit Coverage" _ eq_refl)).
  reflexivity.
Defined.

(** ** Header reset (C5) *)

Section Reset.

Variable V : variant.

Lemma opens_not_record (row : Series) (s : string) :
  opens V row = Some s -> record_of V row = None.
Proof.
  unfold opens, record_of.
  destruct (classify V row) as [[| |]|]; try discriminate. reflexivity.
Qed.

(** Opening a section empties its list and keeps the other lists. *)
Lemma entered_resets (st : locals) (s : string) :
  current_section (entered V st s) = Some s /\
  dict_get (faq_data (entered V st s)) s = Some [] /\
  (forall k, k <> s ->
     dict_get (faq_data (entered V st s)) k = dict_get (faq_data st) k) /\
  (forall l, dict_get (faq_data st) s = Some l ->
     keys (faq_data (entered V st s)) = keys (faq_data st)).
Proof.
  simpl. split; [reflexivity|]. split; [apply dict_get_set_same|]. split.
  - intros k Hk. apply dict_get_set_other. congruence.
  - intros l Hl. eapply keys_set_present; eauto.
Qed.

(** The list of [s] after a header of [s] depends on the later rows only. *)
Lemma reset_forgets (pre post : DataFrame) (h : Series) (s : string)
      (out out' : list string) (faq : dict (list Record_)) :
  opens V h = Some s ->
  extract V (pre ++ h :: post) out = Ok (faq, out') ->
  exists faq2 out2,
    extract V (h :: post) out = Ok (faq2, out2) /\
    dict_get faq s = dict_get faq2 s.
Proof.
  intros Ho. unfold extract. rewrite iterrows_app.
  destruct (iterrows V pre (initial out)) as [st1|] eqn:Epre;
    try discriminate.
  cbn [bind iterrows]. rewrite !(loop_body_opens V _ h s Ho). cbn [bind].
  assert (HR : same_list s (entered V st1 s) (entered V (initial out) s)).
  { split; [reflexivity|]. split.
    - unfold entered. cbn [faq_data]. now rewrite !dict_get_set_same.
    - split; intros cs [= <-]; unfold entered; cbn [faq_data];
        rewrite dict_get_set_same; eauto. }
  pose proof (iterrows_rel V (same_list s) (loop_body_same_list V s)
                post _ _ HR) as Hrel.
  destruct (iterrows V post (entered V st1 s)) as [sta|];
    try discriminate.
  destruct (iterrows V post (entered V (initial out) s)) as [stb|];
    simpl in Hrel; try contradiction.
  cbn [bind]. intros [= <- <-].
  exists (faq_data stb), (stdout stb). split; auto. apply Hrel.
Qed.

(** The records of that list come from rows below the header. *)
Lemma reset_rows_below (pre post : DataFrame) (h : Series) (s : string)
      (out out' : list string) (faq : dict (list Record_))
      (l : list Record_) :
  opens V h = Some s ->
  extract V (pre ++ h :: post) out = Ok (faq, out') ->
  dict_get faq s = Some l ->
  exists idxs,
    Forall (fun i => (length pre < i)%nat) idxs /\
    Forall2 (fun i r => exists row,
                 nth_error (pre ++ h :: post) i = Some row /\
                 record_of V row = Some r) idxs l.
Proof.
  intros Ho Hrun Hl.
  destruct (reset_forgets pre post h s out out' faq Ho Hrun)
    as (faq2 & out2 & Hrun2 & Heq).
  rewrite Heq in Hl.
  destruct (attributed_extract V (h :: post) out out2 faq2 Hrun2 s l Hl)
    as (idxs & _ & Hfrom).
  exists (map (Nat.add (length pre)) idxs).
  clear Hl Heq Hrun Hrun2. induction Hfrom as [|i r idxs l Hi Hrest IH].
  - split; constructor.
  - destruct IH as [IH1 IH2].
    destruct Hi as [(row & Hrow & Hr) _].
    assert (Hpos : i <> 0%nat).
    { intros ->. simpl in Hrow. injection Hrow as <-.
      rewrite (opens_not_record h s Ho) in Hr. discriminate. }
    split; simpl; constructor; auto.
    + lia.
    + exists row. split; auto.
      rewrite nth_error_app2 by lia.
      replace (length pre + i - length pre)%nat with i by lia. exact Hrow.
Qed.

End Reset.

(** C5.  A header row that opens section [s] leaves [s] with the empty
    list, whatever the list of [s] was, and keeps the place of [s] among
    the keys and the lists of the other sections.  So the final list of
    [s] does not depend on the rows above that header -- it is the list
    that extraction yields on the grid that starts at the header -- and
    all its records come from rows below the header.  This holds in
    [parse_faq_excel] and in [parse_cbre_faq]. *)
Theorem C5_header_reset
        (pre post : DataFrame) (h : Series) (s : string) :
  (opens Excel.dialect h = Some s ->
   (forall st,
      loop_body Excel.dialect st h = Ok (entered Excel.dialect st s) /\
      dict_get (faq_data (entered Excel.dialect st s)) s = Some [] /\
      (forall k, k <> s ->
         dict_get (faq_data (entered Excel.dialect st s)) k
           = dict_get (faq_data st) k) /\
      (forall l, dict_get (faq_data st) s = Some l ->
         keys (faq_data (entered Excel.dialect st s))
           = keys (faq_data st))) /\
   (forall out out' faq,
      parse_faq_excel (pre ++ h :: post) out = Ok (faq, out') ->
      (exists faq2 out2,
         parse_faq_excel (h :: post) out = Ok (faq2, out2) /\
         dict_get faq s = dict_get faq2 s) /\
      (forall l, dict_get faq s = Some l ->
         exists idxs,
           Forall (fun i => (length pre < i)%nat) idxs /\
           Forall2 (fun i r => exists row,
                        nth_error (pre ++ h :: post) i = Some row /\
                        record_of Excel.dialect row = Some r) idxs l))) /\
  (opens Cbre.dialect h = Some s ->
   (forall st,
      loop_body Cbre.dialect st h = Ok (entered Cbre.dialect st s) /\
      dict_get (faq_data (entered Cbre.dialect st s)) s = Some [] /\
      (forall k, k <> s ->
         dict_get (faq_data (entered Cbre.dialect st s)) k
           = dict_get (faq_data st) k) /\
      (forall l, dict_get (faq_data st) s = Some l ->
         keys (faq_data (entered Cbre.dialect st s))
           = keys (faq_data st))) /\
   (forall out out' faq,
      parse_cbre_faq (pre ++ h :: post) out = Ok (faq, out') ->
      (exists faq2 out2,
         parse_cbre_faq (h :: post) out = Ok (faq2, out2) /\
         dict_get faq s = dict_get faq2 s) /\
      (forall l, dict_get faq s = Some l ->
         exists idxs,
           Forall (fun i => (length pre < i)%nat) idxs /\
           Forall2 (fun i r => exists row,
                        nth_error (pre ++ h :: post) i = Some row /\
                        record_of Cbre.dialect row = Some r) idxs l))).
Proof.
  split; intros Ho; split.
  - intros st. split; [now apply loop_body_opens|].
    apply (entered_resets Excel.dialect st s).
  - intros out out' faq Hrun. split.
    + eapply reset_forgets; eauto.
    + intros l Hl. eapply reset_rows_below; eauto.
  - intros st. split; [now apply loop_body_opens|].
    apply (entered_resets Cbre.dialect st s).
  - intros out out' faq Hrun. split.
    + eapply reset_forgets; eauto.
    + intros l Hl. eapply reset_rows_below; eauto.
Qed.

Lemma C5_header_reset_witness :
  let pre := [[NaN; Str "Coverage"; Str "Answer"];
              [Int 1; Str "Before the reset?"; Str "Lost."]] in
  let h := [NaN; Str " coverage "; Str "Answer"] in
  let post := [[Int 2; Str "After the reset?"; Str "Kept."]] in
  let kept := [{| number := 2; question := "After the reset?";
                  answer := "Kept." |}] in
  parse_faq_excel (pre ++ h :: post) []
    = Ok ([("Benefit Coverage", kept)],
          ["Found section: Benefit Coverage";
           "  Q1: Before the reset?...";
           "Found section: Benefit Coverage";
           "  Q2: After the reset?..."]) /\
  exists faq2 out2,
    parse_faq_excel (h :: post) [] = Ok (faq2, out2) /\
    dict_get [("Benefit Coverage", kept)] "Benefit Coverage"
      = dict_get faq2 "Benefit Coverage".
Proof.
  intros pre h post kept.
  assert (Hrun : parse_faq_excel (pre ++ h :: post) []
                 = Ok ([("Benefit Coverage", kept)],
                       ["Found section: Benefit Coverage";
                        "  Q1: Before the reset?...";
                        "Found section: Benefit Coverage";
                        "  Q2: After the reset?..."]))
    by reflexivity.
  split; [exact Hrun|].
  destruct (C5_header_reset pre post h "Benefit Coverage") as [HE _].
  destruct (HE eq_refl) as [_ Hgrid].
  destruct (Hgrid [] _ _ Hrun) as [Hsame _].
  exact Hsame.
Defined.

(** ** The printed output plays no part *)

Section Determinism.

Variable V : variant.

Lemma extract_ignores_output (df : DataFrame) (out1 out2 : list string) :
  returned (extract V df out1) = returned (extract V df out2).
Proof.
  pose proof (iterrows_rel V same_data (loop_body_same_data V) df
                (initial out1) (initial out2)) as Hrel.
  assert (H0 : same_data (initial out1) (initial out2)) by (split; reflexivity).
  specialize (Hrel H0). unfold extract.
  destruct (iterrows V df (initial out1)) as [a|e1],
           (iterrows V df (initial out2)) as [b|e2];
    simpl in *; try contradiction.
  - destruct Hrel as [-> _]. reflexivity.
  - now subst.
Qed.

Lemma extract_again (df : DataFrame) (out out' : list string)
      (faq : dict (list Record_)) :
  extract V df out = Ok (faq, out') ->
  exists out'', extract V df out' = Ok (faq, out'').
Proof.
  intros H. pose proof (extract_ignores_output df out out') as Hr.
  rewrite H in Hr. simpl in Hr.
  destruct (extract V df out') as [[faq2 out2]|e]; simpl in Hr;
    try discriminate.
  injection Hr as ->. eauto.
Qed.

End Determinism.

(** ** When extraction returns *)

Section Totality.

Variable V : variant.

Lemma iterrows_total (df : DataFrame) :
  forall st,
    section_entered st ->
    Forall (fun row => forall e, action_of V row <> Fail e) df ->
    exists st', iterrows V df st = Ok st'.
Proof.
  induction df as [|row df IH]; intros st Hinv Hall; [simpl; eauto|].
  inversion Hall as [|? ? Hrow Hrest]; subst.
  assert (Hstep : exists st1, loop_body V st row = Ok st1).
  { rewrite loop_body_action.
    destruct (action_of V row) as [s|r| |e] eqn:Ea; simpl; eauto.
    - destruct (current_section st) as [cs|] eqn:Ec; eauto.
      destruct (truthy cs); eauto.
      destruct (Hinv cs Ec) as [l ->]. eauto.
    - now destruct (Hrow e). }
  destruct Hstep as [st1 Hst1]. cbn [iterrows]. rewrite Hst1. cbn [bind].
  apply IH; auto. eapply section_entered_step; eauto.
Qed.

Lemma extract_total (df : DataFrame) (out : list string) :
  Forall (fun row => forall e, action_of V row <> Fail e) df ->
  exists faq out', extract V df out = Ok (faq, out').
Proof.
  intros Hall.
  destruct (iterrows_total df (initial out)) as [st Hst]; auto.
  - intros cs. discriminate.
  - unfold extract. rewrite Hst. simpl. eauto.
Qed.

End Totality.

Lemma readable_row_cbre (row : Series) (e : exn) :
  readable_row row -> action_of Cbre.dialect row <> Fail e.
Proof.
  intros [Hlen Hnum].
  destruct (row_columns row Hlen) as (c0 & c1 & c2 & rest & ->).
  unfold action_of, classify, getitem. cbn [nth_error bind].
  destruct (header_test Cbre.dialect c2).
  - destruct (notna c1); discriminate.
  - destruct (data_test c0) eqn:Ed; [|discriminate].
    destruct (digit_only_data_test c0 (Hnum c0 eq_refl Ed))
      as (_ & n & -> & _).
    destruct (truthy (text_or_empty c1)); discriminate.
Qed.

Lemma readable_row_excel (row : Series) (e : exn) :
  readable_row row -> text_labelled row ->
  action_of Excel.dialect row <> Fail e.
Proof.
  intros [Hlen Hnum] Hlab.
  destruct (row_columns row Hlen) as (c0 & c1 & c2 & rest & ->).
  unfold action_of, classify, getitem. cbn [nth_error bind].
  destruct (header_test Excel.dialect c2).
  - destruct (Hlab c1 eq_refl) as [-> | [s ->]]; discriminate.
  - destruct (data_test c0) eqn:Ed; [|discriminate].
    destruct (digit_only_data_test c0 (Hnum c0 eq_refl Ed))
      as (_ & n & -> & _).
    destruct (truthy (text_or_empty c1)); discriminate.
Qed.

(** On a grid of readable rows [parse_cbre_faq] returns; so does
    [parse_faq_excel] when the labels are texts. *)
Lemma parse_cbre_faq_returns (df : DataFrame) (out : list string) :
  Forall readable_row df ->
  exists faq out', parse_cbre_faq df out = Ok (faq, out').
Proof.
  intros Hall. apply extract_total.
  apply Forall_forall. intros row Hrow e.
  apply readable_row_cbre. revert row Hrow. now apply Forall_forall.
Qed.

Lemma parse_faq_excel_returns (df : DataFrame) (out : list string) :
  Forall readable_row df -> Forall text_labelled df ->
  exists faq out', parse_faq_excel df out = Ok (faq, out').
Proof.
  intros Hall Hlab. apply extract_total.
  apply Forall_forall. intros row Hrow e.
  apply readable_row_excel.
  - revert row Hrow. now apply Forall_forall.
  - revert row Hrow. now apply Forall_forall.
Qed.

(** ** Exceptions (C7) *)

(** C7 does not hold of the code.  In [parse_faq_excel] a header row whose
    label is a number raises [AttributeError], because [row[1].strip()] is
    called on the cell itself, where [parse_cbre_faq] calls
    [str(row[1]).strip()] and goes on.  In both scripts a row whose column
    0 is "²" passes the data test, because [isdigit()] accepts the
    superscript digits, and then [int()] raises [ValueError]; so does a
    row whose column 0 is the digit 7 after the control character U+001C,
    which [strip()] removes for the test and [int()] does not skip. *)
Theorem C7_extraction_can_raise :
  parse_faq_excel [[NaN; Int 2024; Str "Answer"]] [] = Raise AttributeError /\
  parse_cbre_faq [[NaN; Int 2024; Str "Answer"]] []
    = Ok ([("2024", [])], ["Section: 2024"]) /\
  parse_faq_excel [[Str superscript_two; Str "Squared?"; Str "Yes."]] []
    = Raise ValueError /\
  parse_cbre_faq [[Str superscript_two; Str "Squared?"; Str "Yes."]] []
    = Raise ValueError /\
  parse_faq_excel [[Str separator_7; Str "Seven?"; Str "Yes."]] []
    = Raise ValueError /\
  parse_cbre_faq [[Str separator_7; Str "Seven?"; Str "Yes."]] []
    = Raise ValueError.
Proof.
  repeat split; reflexivity.
Qed.

(** ** JSON round trip *)

Module JsonFacts.
Import PyStr Json.
Local Open Scope string_scope.

Lemma app_assoc_s (a b c : string) : ((a ++ b) ++ c = a ++ (b ++ c))%string.
Proof. induction a; simpl; congruence. Qed.

Lemma length_app_s (a b : string) :
  String.length (a ++ b) = (String.length a + String.length b)%nat.
Proof. induction a; simpl; auto. Qed.

Lemma skip_ws_spaces (n : nat) (x : string) :
  skip_ws (spaces n ++ x) = skip_ws x.
Proof. induction n; simpl; auto. Qed.

Lemma skip_ws_newline_indent (level : nat) (x : string) :
  skip_ws (newline_indent level ++ x) = skip_ws x.
Proof. unfold newline_indent. cbn [append skip_ws]. apply skip_ws_spaces. Qed.

(** *** Numbers *)

Lemma span_digits_uint (d : Decimal.uint) (rest : string) :
  span_digits rest = ("", rest) ->
  span_digits (NilEmpty.string_of_uint d ++ rest)
    = (NilEmpty.string_of_uint d, rest).
Proof.
  intros Hr. induction d; cbn [NilEmpty.string_of_uint append]; auto;
    cbn [span_digits]; rewrite IHd; reflexivity.
Qed.

Lemma delimited_span (rest : string) :
  delimited rest = true -> span_digits rest = ("", rest).
Proof.
  destruct rest as [|c r]; auto. cbn [delimited span_digits].
  intros H. unfold is_digit.
  apply orb_true_iff in H. destruct H as [H | H];
    apply N.eqb_eq in H; rewrite H; reflexivity.
Qed.

Lemma delimited_not_float (rest : string) :
  delimited rest = true -> float_follows rest = false.
Proof.
  destruct rest as [|c r]; auto. cbn [delimited float_follows].
  intros H. apply orb_true_iff in H. destruct H as [H | H];
    apply N.eqb_eq in H; rewrite H; reflexivity.
Qed.

Lemma to_uint_normal (p : positive) :
  Decimal.unorm (Pos.to_uint p) = Pos.to_uint p.
Proof.
  rewrite <- (DecimalPos.Unsigned.to_of (Pos.to_uint p)).
  now rewrite DecimalPos.Unsigned.of_to.
Qed.

Lemma normal_no_leading_zero (d : Decimal.uint) :
  Decimal.unorm d = d -> leading_zero (NilEmpty.string_of_uint d) = false.
Proof.
  intros Hn. destruct d as [|u|u|u|u|u|u|u|u|u|u];
    try reflexivity; try (destruct u; reflexivity).
  destruct u as [|v|v|v|v|v|v|v|v|v|v]; try reflexivity; exfalso;
    rewrite DecimalFacts.unorm_D0 in Hn;
    match type of Hn with
    | Decimal.unorm ?w = _ =>
        assert (Hw : w <> Decimal.Nil) by discriminate;
        pose proof (DecimalFacts.nb_digits_unorm w Hw) as Hle;
        rewrite Hn in Hle; simpl in Hle; lia
    end.
Qed.

Lemma scan_number_uint (d : Decimal.uint) (rest : string) :
  d <> Decimal.Nil -> Decimal.unorm d = d -> delimited rest = true ->
  span_digits (NilZero.string_of_uint d ++ rest)
    = (NilZero.string_of_uint d, rest) /\
  leading_zero (NilZero.string_of_uint d) = false /\
  NilZero.uint_of_string (NilZero.string_of_uint d) = Some d.
Proof.
  intros Hnil Hnorm Hr.
  assert (Hs : NilZero.string_of_uint d = NilEmpty.string_of_uint d)
    by (destruct d; try reflexivity; congruence).
  rewrite Hs. repeat split.
  - apply span_digits_uint. now apply delimited_span.
  - now apply normal_no_leading_zero.
  - rewrite <- Hs. now apply NilZero.usu.
Qed.

Lemma first_digit (d : Decimal.uint) (rest : string) :
  d <> Decimal.Nil ->
  exists c t, (NilZero.string_of_uint d ++ rest)%string = String c t /\
              is_digit c = true.
Proof.
  destruct d; try congruence; intros _;
    cbn [NilZero.string_of_uint NilEmpty.string_of_uint append];
    eexists; eexists; split; reflexivity.
Qed.

Lemma is_digit_not_minus (c : ascii) :
  is_digit c = true -> (code c =? 45)%N = false.
Proof.
  unfold is_digit. intros H. apply andb_true_iff in H. destruct H as [H _].
  apply N.leb_le in H. apply N.eqb_neq. lia.
Qed.

Lemma scan_number_pos (d : Decimal.uint) (rest : string) :
  d <> Decimal.Nil -> Decimal.unorm d = d -> delimited rest = true ->
  scan_number (NilZero.string_of_uint d ++ rest)
    = Some (Num (Z.of_int (Decimal.Pos d)), rest).
Proof.
  intros Hnil Hnorm Hr.
  destruct (scan_number_uint d rest Hnil Hnorm Hr) as (Hspan & Hlz & Hu).
  destruct (first_digit d rest Hnil) as (c & t & Hct & Hc).
  unfold scan_number. rewrite Hct.
  rewrite (is_digit_not_minus c Hc). rewrite <- Hct.
  rewrite Hspan, Hlz, (delimited_not_float rest Hr), Hu. reflexivity.
Qed.

Lemma scan_number_neg (d : Decimal.uint) (rest : string) :
  d <> Decimal.Nil -> Decimal.unorm d = d -> delimited rest = true ->
  scan_number (String "-" (NilZero.string_of_uint d ++ rest))
    = Some (Num (Z.of_int (Decimal.Neg d)), rest).
Proof.
  intros Hnil Hnorm Hr.
  destruct (scan_number_uint d rest Hnil Hnorm Hr) as (Hspan & Hlz & Hu).
  unfold scan_number. change (code "-" =? 45)%N with true. cbv iota.
  rewrite Hspan, Hlz, (delimited_not_float rest Hr), Hu. reflexivity.
Qed.

Lemma scan_number_of_int (z : Z) (rest : string) :
  delimited rest = true ->
  scan_number (NilZero.string_of_int (Z.to_int z) ++ rest)
    = Some (Num z, rest).
Proof.
  intros Hr. rewrite <- (DecimalZ.of_to z) at 2.
  destruct z as [|p|p]; cbn [Z.to_int NilZero.string_of_int append].
  - apply scan_number_pos; auto. discriminate.
  - apply scan_number_pos; auto using DecimalPos.Unsigned.to_uint_nonnil, to_uint_normal.
  - apply scan_number_neg; auto using DecimalPos.Unsigned.to_uint_nonnil, to_uint_normal.
Qed.

(** *** Texts *)

Lemma scanstring_escape (c : ascii) (rest : string) :
  scanstring (escape c ++ rest) = push c (scanstring rest).
Proof.
  destruct c as [[] [] [] [] [] [] [] []]; reflexivity.
Qed.

Lemma scanstring_escape_all (s rest : string) :
  scanstring (escape_all s ++ String (chr 34) rest) = Some (s, rest).
Proof.
  induction s as [|c s IH]; cbn [escape_all].
  - reflexivity.
  - rewrite app_assoc_s, scanstring_escape, IH. reflexivity.
Qed.

Lemma encode_basestring_app (s rest : string) :
  (encode_basestring s ++ rest)%string
  = String (chr 34) (escape_all s ++ String (chr 34) rest).
Proof.
  unfold encode_basestring. cbn [append]. now rewrite app_assoc_s.
Qed.

(** *** Values *)

Lemma skip_ws_token (c : ascii) (s : string) :
  is_ws c = false -> skip_ws (String c s) = String c s.
Proof. intros H. cbn [skip_ws]. now rewrite H. Qed.

Lemma encode_first (lvl : nat) (v : value) (r : string) :
  exists c t, encode lvl v ++ r = String c t /\ is_ws c = false /\
              code c <> 93%N /\
              (forall z, v = Num z -> is_digit c = true \/ code c = 45%N).
Proof.
  destruct v as [|[]|z|s|[|x l]|[|kv d]];
    try (eexists; eexists; split; [reflexivity|split; [reflexivity|]];
         split; [discriminate | intros z' Hz; discriminate]).
  cbn [encode].
  destruct z as [|p|p]; cbn [Z.to_int NilZero.string_of_int append].
  - eexists; eexists; split; [reflexivity|split; [reflexivity|]].
    split; [discriminate | intros _ _; now left].
  - destruct (first_digit (Pos.to_uint p) r (DecimalPos.Unsigned.to_uint_nonnil p))
      as (c & t & Hct & Hc).
    exists c, t. split; auto.
    assert (Hrange : (48 <= code c <= 57)%N).
    { unfold is_digit in Hc. apply andb_true_iff in Hc.
      destruct Hc as [H1 H2]. apply N.leb_le in H1. apply N.leb_le in H2.
      lia. }
    split; [|split; [lia | intros _ _; now left]].
    unfold is_ws. destruct (code c) as [|q]; try lia.
    do 6 (destruct q as [q|q|]; try reflexivity; try lia).
  - eexists; eexists; split; [reflexivity|split; [reflexivity|]].
    split; [discriminate | intros _ _; now right].
Qed.

Lemma skip_ws_encode (lvl : nat) (v : value) (r : string) :
  skip_ws (encode lvl v ++ r) = (encode lvl v ++ r)%string.
Proof.
  destruct (encode_first lvl v r) as (c & t & -> & Hc & _).
  now apply skip_ws_token.
Qed.

Lemma scan_once_number (depth : nat) (c : ascii) (s : string) :
  is_digit c = true \/ code c = 45%N ->
  scan_once (S depth) (String c s) = scan_number (String c s).
Proof.
  intros H. cbn [scan_once].
  destruct c as [[] [] [] [] [] [] [] []]; try reflexivity;
    exfalso; destruct H as [H | H]; discriminate H.
Qed.

Lemma encode_list (lvl : nat) (l : list value) :
  l <> [] ->
  encode lvl (List l)
  = ("[" ++ newline_indent (S lvl)
         ++ join ("," ++ newline_indent (S lvl)) (map (encode (S lvl)) l)
         ++ newline_indent lvl ++ "]")%string.
Proof. destruct l; [congruence | reflexivity]. Qed.

Lemma encode_dict (lvl : nat) (d : dict value) :
  d <> [] ->
  encode lvl (Dict d)
  = ("{" ++ newline_indent (S lvl)
         ++ join ("," ++ newline_indent (S lvl)) (map (item (S lvl)) d)
         ++ newline_indent lvl ++ "}")%string.
Proof. destruct d; [congruence | reflexivity]. Qed.

Lemma join_cons2 (sep x y : string) (l : list string) :
  join sep (x :: y :: l) = (x ++ sep ++ join sep (y :: l))%string.
Proof. reflexivity. Qed.

Section Items.

Variable scan : parser.
Variable lvl : nat.

Lemma array_items_close (n k : nat) (s rest : string) (v : value) :
  scan s = Some (v, newline_indent k ++ "]" ++ rest) ->
  array_items scan (S n) s = Some ([v], rest).
Proof.
  intros H. cbn [array_items]. rewrite H, skip_ws_newline_indent.
  reflexivity.
Qed.

Lemma array_items_comma (n : nat) (s tail : string) (v : value) :
  scan s = Some (v, "," ++ newline_indent lvl ++ tail) ->
  array_items scan (S n) s
  = match array_items scan n (skip_ws tail) with
    | Some (vs, r) => Some (v :: vs, r)
    | None => None
    end.
Proof.
  intros H. cbn [array_items]. rewrite H.
  change (skip_ws ("," ++ newline_indent lvl ++ tail))
    with ("," ++ newline_indent lvl ++ tail).
  change ("," ++ newline_indent lvl ++ tail)
    with (String "," (newline_indent lvl ++ tail)).
  cbv iota. change (code ",") with 44%N. cbv iota.
  now rewrite skip_ws_newline_indent.
Qed.

Lemma join_at_token (l : list value) (r : string) :
  l <> [] ->
  skip_ws (join ("," ++ newline_indent lvl) (map (encode lvl) l) ++ r)
  = join ("," ++ newline_indent lvl) (map (encode lvl) l) ++ r.
Proof.
  destruct l as [|x [|y l]]; [congruence| |]; intros _; cbn [map].
  - cbn [join]. apply skip_ws_encode.
  - rewrite join_cons2, !app_assoc_s. apply skip_ws_encode.
Qed.

Lemma array_items_ok (l : list value) :
  forall (n k : nat) (rest : string),
    l <> [] -> (length l <= n)%nat ->
    (forall x r, In x l -> delimited r = true ->
                 scan (encode lvl x ++ r) = Some (x, r)) ->
    array_items scan n
      (join ("," ++ newline_indent lvl) (map (encode lvl) l)
         ++ newline_indent k ++ "]" ++ rest)
    = Some (l, rest).
Proof.
  induction l as [|x l IH]; intros n k rest Hne Hn Hscan; [congruence|].
  destruct n as [|n]; [simpl in Hn; lia|].
  destruct l as [|y l].
  - cbn [map join]. apply array_items_close with (k := k).
    apply Hscan; [now left | reflexivity].
  - cbn [map]. rewrite join_cons2, !app_assoc_s.
    change (encode lvl y :: map (encode lvl) l)
      with (map (encode lvl) (y :: l)).
    erewrite array_items_comma;
      [|rewrite Hscan; [reflexivity | now left | reflexivity]].
    rewrite join_at_token by discriminate.
    rewrite (IH n k rest); auto.
    + discriminate.
    + simpl in *. lia.
    + intros x' r Hin. apply Hscan. now right.
Qed.

Lemma object_items_step (n : nat) (key : string) (v : value) (tail : string) :
  object_items scan (S n) (item lvl (key, v) ++ tail)
  = match scan (encode lvl v ++ tail) with
    | None => None
    | Some (v', r2) =>
        match skip_ws r2 with
        | String c2 r3 =>
            match code c2 with
            | 125%N => Some ([(key, v')], r3)
            | 44%N =>
                match object_items scan n (skip_ws r3) with
                | Some (kvs, r4) => Some ((key, v') :: kvs, r4)
                | None => None
                end
            | _ => None
            end
        | EmptyString => None
        end
    end.
Proof.
  unfold item. cbn [fst snd].
  rewrite !app_assoc_s, encode_basestring_app.
  cbn [object_items]. change (code (chr 34) =? 34)%N with true. cbv iota.
  rewrite scanstring_escape_all.
  change (skip_ws (": " ++ encode lvl v ++ tail))
    with (String ":" (String " " (encode lvl v ++ tail))).
  cbv iota. change (code ":" =? 58)%N with true. cbv iota.
  change (skip_ws (String " " (encode lvl v ++ tail)))
    with (skip_ws (encode lvl v ++ tail)).
  now rewrite skip_ws_encode.
Qed.

Lemma item_app (kv : string * value) (r : string) :
  item lvl kv ++ r
  = String (chr 34)
      (escape_all (fst kv)
         ++ String (chr 34) (": " ++ encode lvl (snd kv) ++ r)).
Proof.
  unfold item. now rewrite !app_assoc_s, encode_basestring_app.
Qed.

Lemma items_at_token (d : dict value) (r : string) :
  d <> [] ->
  skip_ws (join ("," ++ newline_indent lvl) (map (item lvl) d) ++ r)
  = join ("," ++ newline_indent lvl) (map (item lvl) d) ++ r.
Proof.
  destruct d as [|kv [|kv2 d]]; [congruence| |]; intros _; cbn [map].
  - cbn [join]. rewrite item_app. reflexivity.
  - rewrite join_cons2, !app_assoc_s, item_app. reflexivity.
Qed.

Lemma object_items_ok (d : dict value) :
  forall (n k : nat) (rest : string),
    d <> [] -> (length d <= n)%nat ->
    (forall kv r, In kv d -> delimited r = true ->
                  scan (encode lvl (snd kv) ++ r) = Some (snd kv, r)) ->
    object_items scan n
      (join ("," ++ newline_indent lvl) (map (item lvl) d)
         ++ newline_indent k ++ "}" ++ rest)
    = Some (d, rest).
Proof.
  induction d as [|[key v] d IH]; intros n k rest Hne Hn Hscan; [congruence|].
  destruct n as [|n]; [simpl in Hn; lia|].
  destruct d as [|[key2 v2] d].
  - cbn [map join]. rewrite object_items_step.
    rewrite (Hscan (key, v)) by first [now left | reflexivity].
    rewrite skip_ws_newline_indent. reflexivity.
  - cbn [map]. rewrite join_cons2, !app_assoc_s.
    change (item lvl (key2, v2) :: map (item lvl) d)
      with (map (item lvl) ((key2, v2) :: d)).
    rewrite object_items_step.
    rewrite (Hscan (key, v)) by first [now left | reflexivity].
    change (skip_ws ("," ++ newline_indent lvl
                         ++ join ("," ++ newline_indent lvl)
                              (map (item lvl) ((key2, v2) :: d))
                         ++ newline_indent k ++ "}" ++ rest))
      with (String "," (newline_indent lvl
                         ++ join ("," ++ newline_indent lvl)
                              (map (item lvl) ((key2, v2) :: d))
                         ++ newline_indent k ++ "}" ++ rest)).
    cbv iota. change (code ",") with 44%N. cbv iota.
    rewrite skip_ws_newline_indent, items_at_token by discriminate.
    rewrite (IH n k rest); auto.
    + discriminate.
    + simpl in *. lia.
    + intros kv r Hin. apply Hscan. now right.
Qed.

End Items.

(** [dict(pairs)] of pairs with distinct keys is the list of pairs. *)
Lemma dict_set_absent (d : dict value) (k : string) (v : value) :
  ~ In k (map fst d) -> dict_set d k v = (d ++ [(k, v)])%list.
Proof.
  induction d as [|[k' v'] d IH]; simpl; auto.
  intros Hn. destruct (String.eqb_spec k' k) as [->|Hne].
  - exfalso. apply Hn. now left.
  - rewrite IH; auto.
Qed.

Lemma dict_of_pairs_distinct (d : dict value) :
  NoDup (map fst d) -> dict_of_pairs d = d.
Proof.
  unfold dict_of_pairs.
  assert (H : forall acc,
             NoDup (map fst (acc ++ d)%list) ->
             fold_left (fun d kv => dict_set d (fst kv) (snd kv)) d acc
             = (acc ++ d)%list).
  { induction d as [|[k v] d IH]; intros acc Hnd; cbn [fold_left].
    - now rewrite app_nil_r.
    - rewrite dict_set_absent.
      + rewrite IH; rewrite <- app_assoc; auto.
      + rewrite map_app in Hnd. cbn [map fst] in Hnd.
        apply NoDup_remove_2 in Hnd. intros Hin. apply Hnd.
        apply in_or_app. now left. }
  intros Hnd. now apply (H []).
Qed.

(** *** Nesting depth *)
Lemma height_pos (v : value) : (1 <= height v)%nat.
Proof. destruct v; simpl; lia. Qed.

Lemma height_list (l : list value) (x : value) :
  In x l -> (S (height x) <= height (List l))%nat.
Proof.
  cbn [height]. induction l as [|y l IH]; [intros []|].
  intros [-> | Hin]; cbn [fold_right]; [lia|].
  specialize (IH Hin). lia.
Qed.

Lemma height_dict (d : dict value) (kv : string * value) :
  In kv d -> (S (height (snd kv)) <= height (Dict d))%nat.
Proof.
  cbn [height]. induction d as [|y d IH]; [intros []|].
  intros [-> | Hin]; cbn [fold_right]; [lia|].
  specialize (IH Hin). lia.
Qed.

Lemma distinct_list (l : list value) (x : value) :
  In x l -> distinct_keys (List l) -> distinct_keys x.
Proof.
  cbn [distinct_keys]. induction l as [|y l IH]; [intros []|].
  intros [-> | Hin]; cbn [fold_right]; intros [Hy Hl]; auto.
Qed.

Lemma distinct_dict (d : dict value) (kv : string * value) :
  In kv d -> distinct_keys (Dict d) -> distinct_keys (snd kv).
Proof.
  cbn [distinct_keys]. intros Hin [_ Hd]. revert Hin Hd.
  induction d as [|y d IH]; [intros []|].
  intros [-> | Hin]; cbn [fold_right]; intros [Hy Hl]; auto.
Qed.

Lemma encode_nonempty (lvl : nat) (v : value) :
  (1 <= String.length (encode lvl v))%nat.
Proof.
  destruct (encode_first lvl v "") as (c & t & H & _).
  assert (E : encode lvl v = String c t).
  { rewrite <- H. clear. induction (encode lvl v); simpl; congruence. }
  rewrite E. simpl. lia.
Qed.

Lemma length_join (sep tail : string) (xs : list string) :
  Forall (fun x => (1 <= String.length x)%nat) xs ->
  (length xs <= String.length (join sep xs ++ tail))%nat.
Proof.
  induction 1 as [|x xs Hx Hxs IH]; [simpl; lia|].
  destruct xs as [|y xs].
  - cbn [join length]. rewrite length_app_s. lia.
  - rewrite join_cons2, !app_assoc_s, !length_app_s.
    rewrite length_app_s in IH. cbn [length] in *. lia.
Qed.

Lemma scan_array_items (scan : parser) (s items : string) :
  skip_ws s = items ->
  (exists c t, items = String c t /\ code c <> 93%N) ->
  scan_array scan s
  = match array_items scan (String.length items) items with
    | Some (vs, r) => Some (List vs, r)
    | None => None
    end.
Proof.
  intros Hs (c & t & -> & Hc). unfold scan_array. rewrite Hs.
  apply N.eqb_neq in Hc. now rewrite Hc.
Qed.

Lemma scan_object_items (scan : parser) (s items : string) :
  skip_ws s = items ->
  (exists c t, items = String c t /\ code c <> 125%N) ->
  scan_object scan s
  = match object_items scan (String.length items) items with
    | Some (kvs, r) => Some (Dict (dict_of_pairs kvs), r)
    | None => None
    end.
Proof.
  intros Hs (c & t & -> & Hc). unfold scan_object. rewrite Hs.
  apply N.eqb_neq in Hc. now rewrite Hc.
Qed.

(** Decoding what was encoded gives the value back. *)
Lemma scan_encode (depth : nat) :
  forall (v : value) (lvl : nat) (rest : string),
    (height v <= depth)%nat -> distinct_keys v -> delimited rest = true ->
    scan_once depth (encode lvl v ++ rest) = Some (v, rest).
Proof.
  induction depth as [|depth IH]; intros v lvl rest Hh Hd Hr.
  - pose proof (height_pos v). lia.
  - destruct v as [|[]|z|s|l|d]; try reflexivity.
    + destruct (encode_first lvl (Num z) rest) as (c & t & E & _ & _ & Hc).
      rewrite E, scan_once_number by eauto. rewrite <- E.
      now apply scan_number_of_int.
    + cbn [encode]. rewrite encode_basestring_app.
      cbn [scan_once]. change (code (chr 34)) with 34%N. cbv iota.
      now rewrite scanstring_escape_all.
    + destruct l as [|x l]; [reflexivity|].
      rewrite encode_list by discriminate. rewrite !app_assoc_s.
      change ("[" ++ newline_indent (S lvl)
                  ++ join ("," ++ newline_indent (S lvl))
                       (map (encode (S lvl)) (x :: l))
                  ++ newline_indent lvl ++ "]" ++ rest)
        with (String "[" (newline_indent (S lvl)
                  ++ join ("," ++ newline_indent (S lvl))
                       (map (encode (S lvl)) (x :: l))
                  ++ newline_indent lvl ++ "]" ++ rest)).
      cbn [scan_once]. change (code "[") with 91%N. cbv iota.
      erewrite scan_array_items;
        [|rewrite skip_ws_newline_indent; apply join_at_token; discriminate|].
      * rewrite array_items_ok; auto.
        -- discriminate.
        -- rewrite <- (length_map (encode (S lvl))). apply length_join.
           apply Forall_forall. intros e He. apply in_map_iff in He.
           destruct He as (y & <- & _). apply encode_nonempty.
        -- intros y r Hy Hr'. apply IH; auto.
           ++ pose proof (height_list (x :: l) y Hy). lia.
           ++ eapply distinct_list; eauto.
      * destruct l as [|y l]; cbn [map];
          [cbn [join] | rewrite join_cons2, !app_assoc_s];
          match goal with
          | |- context [encode (S lvl) x ++ ?r] =>
              destruct (encode_first (S lvl) x r) as (c & t & E & _ & Hc & _)
          end; rewrite E; eauto.
    + destruct d as [|kv d]; [reflexivity|].
      rewrite encode_dict by discriminate. rewrite !app_assoc_s.
      change ("{" ++ newline_indent (S lvl)
                  ++ join ("," ++ newline_indent (S lvl))
                       (map (item (S lvl)) (kv :: d))
                  ++ newline_indent lvl ++ "}" ++ rest)
        with (String "{" (newline_indent (S lvl)
                  ++ join ("," ++ newline_indent (S lvl))
                       (map (item (S lvl)) (kv :: d))
                  ++ newline_indent lvl ++ "}" ++ rest)).
      cbn [scan_once]. change (code "{") with 123%N. cbv iota.
      erewrite scan_object_items;
        [|rewrite skip_ws_newline_indent; apply items_at_token; discriminate|].
      * rewrite object_items_ok; auto.
        -- rewrite dict_of_pairs_distinct; auto. apply Hd.
        -- discriminate.
        -- rewrite <- (length_map (item (S lvl))). apply length_join.
           apply Forall_forall. intros e He. apply in_map_iff in He.
           destruct He as (y & <- & _). unfold item.
           rewrite length_app_s. unfold encode_basestring. simpl. lia.
        -- intros y r Hy Hr'. apply IH; auto.
           ++ pose proof (height_dict (kv :: d) y Hy). lia.
           ++ eapply distinct_dict; eauto.
      * destruct d as [|kv2 d]; cbn [map];
          [cbn [join] | rewrite join_cons2, !app_assoc_s];
          rewrite item_app; eexists; eexists; split;
            try reflexivity; discriminate.
Qed.

Lemma height_length (depth : nat) :
  forall (v : value) (lvl : nat),
    (height v <= depth)%nat ->
    (height v <= String.length (encode lvl v))%nat.
Proof.
  induction depth as [|depth IH]; intros v lvl Hh.
  - pose proof (height_pos v). lia.
  - destruct v as [|[]|z|s|l|d]; try apply encode_nonempty.
    + destruct l as [|x l]; [simpl; lia|].
      rewrite encode_list by discriminate.
      cbn [append String.length]. rewrite !length_app_s.
      assert (H : forall l' : list value,
                (forall y, In y l' -> height y <= depth)%nat ->
                (fold_right (fun x m => Nat.max (height x) m) 0 l'
                 <= String.length
                      (join ("," ++ newline_indent (S lvl))
                         (map (encode (S lvl)) l')))%nat).
      { induction l' as [|y l' IHl]; intros Hall; [simpl; lia|].
        cbn [fold_right map].
        assert (Hy : (height y <= String.length (encode (S lvl) y))%nat)
          by (apply IH, Hall; now left).
        assert (Hl : (fold_right (fun x m => Nat.max (height x) m) 0 l'
                      <= String.length
                           (join ("," ++ newline_indent (S lvl))
                              (map (encode (S lvl)) l')))%nat)
          by (apply IHl; intros; apply Hall; now right).
        destruct l' as [|z' l'].
        - cbn [fold_right join map] in *. lia.
        - cbn [map] in *. rewrite join_cons2, !length_app_s. lia. }
      cbn [height].
      specialize (H (x :: l)).
      assert (Hall : (forall y, In y (x :: l) -> height y <= depth)%nat).
      { intros y Hy. pose proof (height_list (x :: l) y Hy). lia. }
      specialize (H Hall).
      change ("," ++ newline_indent (S lvl))
        with (String "," (newline_indent (S lvl))) in H.
      lia.
    + destruct d as [|kv d]; [simpl; lia|].
      rewrite encode_dict by discriminate.
      cbn [append String.length]. rewrite !length_app_s.
      assert (H : forall d' : dict value,
                (forall y, In y d' -> height (snd y) <= depth)%nat ->
                (fold_right (fun kv m => Nat.max (height (snd kv)) m) 0 d'
                 <= String.length
                      (join ("," ++ newline_indent (S lvl))
                         (map (item (S lvl)) d')))%nat).
      { induction d' as [|y d' IHd]; intros Hall; [simpl; lia|].
        cbn [fold_right map].
        assert (Hy : (height (snd y)
                      <= String.length (item (S lvl) y))%nat).
        { unfold item. rewrite !length_app_s.
          assert (height (snd y)
                  <= String.length (encode (S lvl) (snd y)))%nat
            by (apply IH, Hall; now left).
          lia. }
        assert (Hl : (fold_right (fun kv m => Nat.max (height (snd kv)) m)
                        0 d'
                      <= String.length
                           (join ("," ++ newline_indent (S lvl))
                              (map (item (S lvl)) d')))%nat)
          by (apply IHd; intros; apply Hall; now right).
        destruct d' as [|z' d'].
        - cbn [fold_right join map] in *. lia.
        - cbn [map] in *. rewrite join_cons2, !length_app_s. lia. }
      cbn [height].
      specialize (H (kv :: d)).
      assert (Hall : (forall y, In y (kv :: d) -> height (snd y) <= depth)%nat).
      { intros y Hy. pose proof (height_dict (kv :: d) y Hy). lia. }
      specialize (H Hall).
      change ("," ++ newline_indent (S lvl))
        with (String "," (newline_indent (S lvl))) in H.
      lia.
Qed.

Theorem loads_dumps (v : value) :
  distinct_keys v -> loads (dumps v) = Some v.
Proof.
  intros Hd. unfold loads, dumps.
  pose proof (skip_ws_encode 0 v "") as Hs.
  assert (E : forall s : string, s ++ "" = s)
    by (induction s; simpl; congruence).
  rewrite E in Hs. rewrite Hs.
  rewrite <- (E (encode 0 v)) at 2.
  rewrite scan_encode; auto.
  pose proof (height_length (height v) v 0 (le_n _)). lia.
Qed.

End JsonFacts.

(** ** Text file round trip *)

Module TextFileFacts.
Import PyStr TextFile.
Local Open Scope string_scope.

Lemma utf8_round_trip (text : string) :
  utf8_decode (utf8_encode text) = Some text.
Proof.
  induction text as [|c text IH]; [reflexivity|].
  destruct c as [[] [] [] [] [] [] [] []];
    cbn [utf8_encode utf8_decode code N_of_ascii N_of_digits N.ltb
         N.compare Pos.compare Pos.compare_cont N.add N.mul];
    cbn; rewrite IH; reflexivity.
Qed.

Lemma newlines_round_trip (crlf : bool) (text : string) :
  no_cr text = true -> read_newlines (write_newlines crlf text) = text.
Proof.
  unfold no_cr. induction text as [|c text IH]; [reflexivity|].
  cbn [all_chars]. rewrite andb_true_iff, negb_true_iff. intros [Hc Hrest].
  cbn [write_newlines].
  destruct ((code c =? 10)%N && crlf) eqn:E.
  - apply andb_true_iff in E. destruct E as [E _].
    apply N.eqb_eq in E.
    assert (c = LF).
    { unfold code in E. rewrite <- (ascii_N_embedding c), E. reflexivity. }
    subst c. cbn. now rewrite IH.
  - cbn [read_newlines]. rewrite Hc. now rewrite IH.
Qed.

Lemma text_file_round_trip (crlf : bool) (text : string) :
  no_cr text = true -> read_text (write_text crlf text) = Some text.
Proof.
  intros H. unfold read_text, write_text.
  rewrite utf8_round_trip. cbn [option_map].
  now rewrite newlines_round_trip.
Qed.

End TextFileFacts.

(** ** The encoded text holds no carriage return *)

Module SavedFileFacts.
Import PyStr Json TextFile JsonFacts.
Local Open Scope string_scope.

Lemma no_cr_app (a b : string) :
  no_cr (a ++ b) = no_cr a && no_cr b.
Proof.
  unfold no_cr. induction a as [|c a IH]; cbn [append all_chars]; auto.
  now rewrite IH, andb_assoc.
Qed.

Lemma no_cr_escape (c : ascii) : no_cr (escape c) = true.
Proof. destruct c as [[] [] [] [] [] [] [] []]; reflexivity. Qed.

Lemma no_cr_basestring (s : string) : no_cr (encode_basestring s) = true.
Proof.
  unfold encode_basestring.
  change (no_cr (String (chr 34) (escape_all s ++ String (chr 34) "")))
    with (no_cr (escape_all s ++ String (chr 34) "")).
  rewrite no_cr_app. apply andb_true_iff. split; [|reflexivity].
  induction s as [|c s IH]; [reflexivity|].
  cbn [escape_all]. now rewrite no_cr_app, no_cr_escape, IH.
Qed.

Lemma no_cr_uint (d : Decimal.uint) :
  no_cr (NilEmpty.string_of_uint d) = true.
Proof. induction d; cbn [NilEmpty.string_of_uint]; auto. Qed.

Lemma no_cr_of_int (z : Z) : no_cr (of_int z) = true.
Proof.
  unfold of_int.
  assert (H : forall d, no_cr (NilZero.string_of_uint d) = true).
  { intros d. destruct d; try reflexivity;
      unfold NilZero.string_of_uint; apply no_cr_uint. }
  destruct z as [|p|p]; cbn [Z.to_int NilZero.string_of_int]; auto.
  change (no_cr (String "-" (NilZero.string_of_uint (Pos.to_uint p))))
    with (no_cr (NilZero.string_of_uint (Pos.to_uint p))).
  apply H.
Qed.

Lemma no_cr_newline_indent (level : nat) :
  no_cr (newline_indent level) = true.
Proof.
  unfold newline_indent.
  change (no_cr (String (chr 10) (spaces (2 * level))))
    with (no_cr (spaces (2 * level))).
  induction (2 * level)%nat; auto.
Qed.

Lemma no_cr_join (sep : string) (xs : list string) :
  no_cr sep = true -> Forall (fun x => no_cr x = true) xs ->
  no_cr (join sep xs) = true.
Proof.
  intros Hsep. induction 1 as [|x xs Hx Hxs IH]; [reflexivity|].
  destruct xs as [|y xs]; [exact Hx|].
  rewrite join_cons2, !no_cr_app, Hx, Hsep, IH. reflexivity.
Qed.

Lemma no_cr_encode (depth : nat) :
  forall (v : value) (lvl : nat),
    (height v <= depth)%nat -> no_cr (encode lvl v) = true.
Proof.
  induction depth as [|depth IH]; intros v lvl Hh.
  - pose proof (height_pos v). lia.
  - assert (Hsep : no_cr ("," ++ newline_indent (S lvl)) = true)
      by (rewrite no_cr_app, no_cr_newline_indent; reflexivity).
    destruct v as [|[]|z|s|l|d]; try reflexivity.
    + apply no_cr_of_int.
    + apply no_cr_basestring.
    + destruct l as [|x l]; [reflexivity|].
      rewrite encode_list by discriminate.
      rewrite !no_cr_app, !no_cr_newline_indent, no_cr_join; auto.
      apply Forall_forall. intros e He. apply in_map_iff in He.
      destruct He as (y & <- & Hy). apply IH.
      pose proof (height_list (x :: l) y Hy). lia.
    + destruct d as [|kv d]; [reflexivity|].
      rewrite encode_dict by discriminate.
      rewrite !no_cr_app, !no_cr_newline_indent, no_cr_join; auto.
      apply Forall_forall. intros e He. apply in_map_iff in He.
      destruct He as (y & <- & Hy). unfold item.
      rewrite !no_cr_app, no_cr_basestring. apply IH.
      pose proof (height_dict (kv :: d) y Hy). lia.
Qed.

(** Saving a value and loading the file gives the value back. *)
Lemma load_saved (crlf : bool) (v : value) :
  distinct_keys v ->
  match read_text (write_text crlf (dumps v)) with
  | Some text => loads text
  | None => None
  end = Some v.
Proof.
  intros Hd. rewrite TextFileFacts.text_file_round_trip.
  - now apply loads_dumps.
  - apply (no_cr_encode (height v)). lia.
Qed.

End SavedFileFacts.

(** ** The persisted mapping round trip (C8) *)

Section Keys.

Variable V : variant.

(** The keys of the mapping stay distinct: it is a dictionary. *)
Lemma keys_distinct_step (st st' : locals) (row : Series) :
  NoDup (keys (faq_data st)) -> loop_body V st row = Ok st' ->
  NoDup (keys (faq_data st')).
Proof.
  intros Hnd Hstep. apply loop_body_shape in Hstep.
  destruct Hstep as [s Ho -> | r cs l Ho Hr Hc Ht Hg -> | Ho ->]; auto;
    simpl; now apply keys_set_NoDup.
Qed.

Lemma keys_distinct_iterrows (df : DataFrame) :
  forall st st', NoDup (keys (faq_data st)) -> iterrows V df st = Ok st' ->
                 NoDup (keys (faq_data st')).
Proof.
  induction df as [|row df IH]; simpl; intros st st' Hnd H.
  - now injection H as <-.
  - destruct (loop_body V st row) as [st1|] eqn:E; try discriminate.
    simpl in H.
    apply (IH st1 st'); [eapply keys_distinct_step; eauto | exact H].
Qed.

Lemma keys_distinct_extract (df : DataFrame) (out out' : list string)
      (faq : dict (list Record_)) :
  extract V df out = Ok (faq, out') -> NoDup (keys faq).
Proof.
  unfold extract. intros H.
  destruct (iterrows V df (initial out)) as [st|] eqn:E; try discriminate.
  simpl in H. injection H as <- <-.
  apply (keys_distinct_iterrows df (initial out) st); auto. constructor.
Qed.

End Keys.

Lemma py_of_record_distinct (r : Record_) :
  Json.distinct_keys (py_of_record r).
Proof.
  simpl. split; [|tauto].
  repeat constructor; simpl; intuition discriminate.
Qed.

Lemma py_of_faq_distinct (faq : dict (list Record_)) :
  NoDup (keys faq) -> Json.distinct_keys (py_of_faq faq).
Proof.
  intros Hnd. unfold py_of_faq. cbn [Json.distinct_keys]. split.
  - rewrite map_map. cbn [fst]. exact Hnd.
  - clear Hnd. induction faq as [|[k l] faq IH]; cbn [map fold_right]; auto.
    split; auto. cbn [snd Json.distinct_keys].
    induction l as [|r l IHl]; cbn [map fold_right]; auto.
    split; auto. apply py_of_record_distinct.
Qed.

Lemma py_of_record_inj (r1 r2 : Record_) :
  py_of_record r1 = py_of_record r2 -> r1 = r2.
Proof.
  destruct r1, r2. unfold py_of_record. simpl. congruence.
Qed.

Lemma map_injective {A B : Type} (f : A -> B) :
  (forall x y, f x = f y -> x = y) ->
  forall l1 l2, map f l1 = map f l2 -> l1 = l2.
Proof.
  intros Hf. induction l1 as [|x l1 IH]; intros [|y l2] H;
    try discriminate; auto.
  cbn [map] in H. injection H as Hx Hl. f_equal; auto.
Qed.

Lemma py_of_faq_inj (faq1 faq2 : dict (list Record_)) :
  py_of_faq faq1 = py_of_faq faq2 -> faq1 = faq2.
Proof.
  unfold py_of_faq. intros [= H]. revert H. apply map_injective.
  intros [k1 l1] [k2 l2]. cbn [fst snd]. intros [= -> Hl].
  f_equal. revert Hl. apply map_injective, py_of_record_inj.
Qed.

(** C8.  The text that [json.dump] writes for the mapping extracted from a
    grid is read back by [json.load] as the value of that very mapping:
    the same sections in the same order, each with the same records in
    the same order, numbers and texts, empty answers included, as they
    were.  The same holds through the file, written and read as UTF-8
    text with either line separator, and no other mapping has the value
    read back.  This holds for the result of [parse_faq_excel] and for
    that of [parse_cbre_faq]. *)
Theorem C8_json_round_trip
        (df : DataFrame) (out out' : list string)
        (faq : dict (list Record_)) (crlf : bool) :
  parse_faq_excel df out = Ok (faq, out') \/
  parse_cbre_faq df out = Ok (faq, out') ->
  json_load (json_dump faq) = Some (py_of_faq faq) /\
  loaded_file (saved_file crlf faq) = Some (py_of_faq faq) /\
  (forall faq2, loaded_file (saved_file crlf faq) = Some (py_of_faq faq2) ->
                faq2 = faq).
Proof.
  intros Hrun.
  assert (Hnd : NoDup (keys faq)).
  { destruct Hrun as [H | H].
    - apply (keys_distinct_extract Excel.dialect df out out' faq H).
    - apply (keys_distinct_extract Cbre.dialect df out out' faq H). }
  pose proof (py_of_faq_distinct faq Hnd) as Hd.
  assert (Hload : json_load (json_dump faq) = Some (py_of_faq faq))
    by now apply JsonFacts.loads_dumps.
  assert (Hfile : loaded_file (saved_file crlf faq) = Some (py_of_faq faq))
    by now apply SavedFileFacts.load_saved.
  split; [exact Hload|]. split; [exact Hfile|].
  intros faq2 H2. rewrite Hfile in H2.
  assert (E : py_of_faq faq2 = py_of_faq faq) by congruence.
  now apply py_of_faq_inj.
Qed.

Lemma C8_json_round_trip_witness :
  let df := [[NaN; Str "Coverage"; Str "Answer"];
             [Int 1; Str "What is covered?"; Str "Everything listed."];
             [Int 2; Str "And if not?"; NaN];
             [NaN; Str "Other"; Str "Answer"]] in
  let faq := [("Benefit Coverage",
               [{| number := 1; question := "What is covered?";
                   answer := "Everything listed." |};
                {| number := 2; question := "And if not?"; answer := "" |}]);
              ("Other", [])] in
  loaded_file (saved_file true faq) = Some (py_of_faq faq).
Proof.
  intros df faq.
  apply (C8_json_round_trip
           df []
           ["Found section: Benefit Coverage";
            "  Q1: What is covered?...";
            "  Q2: And if not?...";
            "Found section: Other"]
           faq true).
  left. reflexivity.
Defined.

(** ** More facts about the extraction loop *)

Section Faults.

Variable V : variant.

(** The rows at fault are those whose action is to fail. *)
Lemma action_fault (row : Series) (e : exn) :
  action_of V row = Fail e <-> row_fault V row e.
Proof.
  unfold action_of, row_fault, classify.
  destruct row as [|c0 [|c1 [|c2 rest]]]; cbn;
    try (split; [intros H; injection H; auto | intros ->; reflexivity]).
  destruct (header_test V c2) eqn:Hh; cbn.
  - destruct (notna c1) eqn:Hn.
    + destruct (section_label V c1) as [name|e'].
      * split; [discriminate | intros [_ H]; discriminate].
      * split; [intros H; injection H as ->; auto
               | intros [_ H]; injection H as ->; reflexivity].
    + split; [discriminate | intros [H _]; discriminate].
  - destruct (data_test c0) eqn:Hd; cbn.
    + destruct (py_int c0) as [n|e'].
      * destruct (truthy (text_or_empty c1));
          (split; [discriminate | intros [_ H]; discriminate]).
      * split; [intros H; injection H as ->; auto
               | intros [_ H]; injection H as ->; reflexivity].
    + split; [discriminate | intros [H _]; discriminate].
Qed.

Lemma loop_body_sound_row (st : locals) (row : Series) :
  section_entered st ->
  (forall e, action_of V row <> Fail e) ->
  exists st', loop_body V st row = Ok st'.
Proof.
  intros Hst Hrow.
  assert (Hall : Forall (fun r => forall e, action_of V r <> Fail e) [row])
    by (constructor; [exact Hrow | constructor]).
  destruct (iterrows_total V [row] st Hst Hall) as [st' H].
  cbn [iterrows] in H. destruct (loop_body V st row) as [st1|e];
    [eauto | discriminate H].
Qed.

Lemma iterrows_raises (df : DataFrame) (st : locals) (e : exn) :
  section_entered st ->
  iterrows V df st = Raise e ->
  exists pre row post,
    df = pre ++ row :: post /\
    Forall (fun r => forall e', action_of V r <> Fail e') pre /\
    action_of V row = Fail e.
Proof.
  revert st. induction df as [|row df IH]; intros st Hst H; [discriminate|].
  cbn [iterrows] in H.
  destruct (action_of V row) eqn:Ha.
  1-3: destruct (loop_body_sound_row st row Hst) as [st' Hb];
    [rewrite Ha; discriminate|];
    rewrite Hb in H; cbn [bind] in H;
    destruct (IH st' (section_entered_step V st st' row Hst Hb) H)
      as (pre & row' & post & -> & Hpre & Hr);
    exists (row :: pre), row', post; split; [reflexivity|];
    split; [constructor; [rewrite Ha; discriminate | exact Hpre] | exact Hr].
  rewrite loop_body_action, Ha in H. cbn in H. injection H as ->.
  exists [], row, df. split; [reflexivity|]. split; [constructor | exact Ha].
Qed.

Lemma iterrows_fails_at (pre post : DataFrame) (row : Series)
      (st : locals) (e : exn) :
  section_entered st ->
  Forall (fun r => forall e', action_of V r <> Fail e') pre ->
  action_of V row = Fail e ->
  iterrows V (pre ++ row :: post) st = Raise e.
Proof.
  intros Hst Hpre Hrow. rewrite iterrows_app.
  destruct (iterrows_total V pre st Hst Hpre) as [st' ->]. cbn [bind iterrows].
  now rewrite loop_body_action, Hrow.
Qed.

Lemma section_entered_initial (out : list string) :
  section_entered (initial out).
Proof. intros cs H. discriminate H. Qed.

End Faults.

(** ** Exceptions of the extraction *)

(** X1 ([parse_faq_excel] and [parse_cbre_faq], the loop): the
    extraction raises exactly when some row of the grid is at fault, and
    the exception is that of the first such row: [KeyError] for a row of
    fewer than three columns, the exception of the label for a header row,
    [ValueError] for a column 0 that passes the data test and that [int]
    rejects.  Nothing else makes the loop raise. *)
Theorem extraction_raises_iff
        (V : variant) (df : DataFrame) (out : list string) (e : exn) :
  extract V df out = Raise e <->
  exists pre row post,
    df = pre ++ row :: post /\
    Forall (fun r => forall e', ~ row_fault V r e') pre /\
    row_fault V row e.
Proof.
  unfold extract. split.
  - intros H.
    destruct (iterrows V df (initial out)) as [st|e'] eqn:Hrun;
      [discriminate|]. cbn [bind] in H. injection H as ->.
    destruct (iterrows_raises V df (initial out) e
                (section_entered_initial out) Hrun)
      as (pre & row & post & Hdf & Hpre & Hrow).
    exists pre, row, post. split; [exact Hdf|]. split.
    + revert Hpre. apply Forall_impl. intros r Hr e' Hf.
      apply (Hr e'). now apply action_fault.
    + now apply action_fault.
  - intros (pre & row & post & -> & Hpre & Hrow).
    rewrite (iterrows_fails_at V pre post row (initial out) e).
    + reflexivity.
    + apply section_entered_initial.
    + revert Hpre. apply Forall_impl. intros r Hr e' Hf.
      apply (Hr e'). now apply action_fault.
    + now apply action_fault.
Qed.

Lemma extraction_raises_iff_witness :
  extract Cbre.dialect
          [[NaN; Str "Coverage"; Str "Answer"];
           [Str superscript_two; Str "What?"; Str "That."];
           [Int 1]] []
  = Raise ValueError.
Proof.
  apply (extraction_raises_iff Cbre.dialect).
  exists [[NaN; Str "Coverage"; Str "Answer"]],
         [Str superscript_two; Str "What?"; Str "That."], [[Int 1]].
  split; [reflexivity|]. split.
  - constructor; [|constructor]. intros e' [_ H]. discriminate H.
  - split; reflexivity.
Defined.

(** X2 ([parse_cbre_faq] and [parse_faq_excel], the loop): a grid whose
    rows all have three columns at least, and a column 0 that holds a
    number whenever it passes the data test, is extracted by
    [parse_cbre_faq] without an exception; so it is by [parse_faq_excel]
    when moreover every column 1 is absent or a text. *)
Theorem readable_grid_is_extracted (df : DataFrame) (out : list string) :
  Forall readable_row df ->
  (exists faq out', parse_cbre_faq df out = Ok (faq, out')) /\
  (Forall text_labelled df ->
   exists faq out', parse_faq_excel df out = Ok (faq, out')).
Proof.
  intros H. split.
  - now apply parse_cbre_faq_returns.
  - intros Ht. now apply parse_faq_excel_returns.
Qed.

Lemma readable_grid_is_extracted_witness :
  (exists faq out',
     parse_cbre_faq [[NaN; Str "Coverage"; Str "Answer"];
                     [Str " 1 "; Str "What?"; NaN]] [] = Ok (faq, out')) /\
  (exists faq out',
     parse_faq_excel [[NaN; Str "Coverage"; Str "Answer"];
                      [Str " 1 "; Str "What?"; NaN]] [] = Ok (faq, out')).
Proof.
  assert (Hr : Forall readable_row
                 [[NaN; Str "Coverage"; Str "Answer"];
                  [Str " 1 "; Str "What?"; NaN]]).
  { repeat constructor; try (cbn; lia).
    - intros c0 H. injection H as <-. discriminate.
    - intros c0 H _. injection H as <-.
      split; [reflexivity | now apply N.leb_le]. }
  destruct (readable_grid_is_extracted _ [] Hr) as [Hc He].
  split; [exact Hc|]. apply He.
  constructor; [|constructor; [|constructor]];
    intros c1 H; injection H as <-; eauto.
Defined.

(** ** Order of the sections *)

Lemma first_occurrences_in (names : list string) (s : string) :
  In s (first_occurrences names) <-> In s names.
Proof.
  induction names as [|x names IH]; cbn [first_occurrences]; [tauto|].
  cbn [In]. rewrite filter_In, IH.
  destruct (String.eqb x s) eqn:E.
  - apply String.eqb_eq in E. subst. cbn. tauto.
  - cbn. apply String.eqb_neq in E. tauto.
Qed.

Lemma first_occurrences_snoc (names : list string) (s : string) :
  first_occurrences (names ++ [s])
  = if in_dec string_dec s names then first_occurrences names
    else first_occurrences names ++ [s].
Proof.
  induction names as [|x names IH]; cbn [List.app first_occurrences].
  - reflexivity.
  - rewrite IH. destruct (in_dec string_dec s names) as [Hin|Hout].
    + destruct (in_dec string_dec s (x :: names)) as [_|Hn]; [reflexivity|].
      exfalso. apply Hn. now right.
    + rewrite filter_app. cbn [filter].
      destruct (String.eqb x s) eqn:E; cbn [negb].
      * apply String.eqb_eq in E. subst x.
        destruct (in_dec string_dec s (s :: names)) as [_|Hn];
          [now rewrite app_nil_r | exfalso; apply Hn; now left].
      * apply String.eqb_neq in E.
        destruct (in_dec string_dec s (x :: names)) as [[Hx|Hin]|_];
          [congruence | contradiction | reflexivity].
Qed.

Section Order.

Variable V : variant.

Lemma opened_names_snoc (pre : DataFrame) (row : Series) :
  opened_names V (pre ++ [row])
  = opened_names V pre ++ match opens V row with
                          | Some s => [s]
                          | None => []
                          end.
Proof.
  unfold opened_names. rewrite flat_map_app. cbn [flat_map].
  now rewrite app_nil_r.
Qed.

Lemma keys_step (pre : DataFrame) (st st' : locals) (row : Series) :
  keys (faq_data st) = first_occurrences (opened_names V pre) ->
  loop_body V st row = Ok st' ->
  keys (faq_data st') = first_occurrences (opened_names V (pre ++ [row])).
Proof.
  intros Hk Hb. rewrite opened_names_snoc.
  destruct (loop_body_shape V st row st' Hb)
    as [s Ho -> | r cs l Ho _ _ _ Hl -> | Ho ->]; rewrite Ho.
  - rewrite first_occurrences_snoc. cbn [entered faq_data].
    destruct (dict_get (faq_data st) s) as [l|] eqn:Hg.
    + rewrite (keys_set_present _ _ _ _ Hg), Hk.
      destruct (in_dec string_dec s (opened_names V pre)) as [_|Hn];
        [reflexivity|].
      exfalso. apply Hn. apply first_occurrences_in. rewrite <- Hk.
      exact (dict_get_in_keys _ _ _ Hg).
    + rewrite (keys_set_absent _ _ _ Hg), Hk.
      destruct (in_dec string_dec s (opened_names V pre)) as [Hin|_];
        [|reflexivity].
      exfalso. apply (dict_get_not_in_keys _ _ Hg). rewrite Hk.
      now apply first_occurrences_in.
  - rewrite app_nil_r. cbn [appended faq_data].
    now rewrite (keys_set_present _ _ _ _ Hl).
  - now rewrite app_nil_r.
Qed.

Lemma keys_iterrows (df pre : DataFrame) (st st' : locals) :
  keys (faq_data st) = first_occurrences (opened_names V pre) ->
  iterrows V df st = Ok st' ->
  keys (faq_data st') = first_occurrences (opened_names V (pre ++ df)).
Proof.
  revert pre st. induction df as [|row df IH]; intros pre st Hk H.
  - cbn in H. injection H as <-. now rewrite app_nil_r.
  - cbn [iterrows] in H.
    destruct (loop_body V st row) as [st1|e] eqn:Hb; [|discriminate H].
    cbn [bind] in H.
    replace (pre ++ row :: df) with ((pre ++ [row]) ++ df)
      by now rewrite <- app_assoc.
    apply (IH (pre ++ [row]) st1); [|exact H].
    now apply (keys_step pre st).
Qed.

End Order.

(** X3 ([parse_faq_excel] and [parse_cbre_faq], the loop): the sections
    of the mapping are the names that the header rows open, each once, in
    the order in which they are first opened; a header that opens a name
    again does not move it. *)
Theorem sections_in_order_of_first_header
        (V : variant) (df : DataFrame) (out out' : list string)
        (faq : dict (list Record_)) :
  extract V df out = Ok (faq, out') ->
  keys faq = first_occurrences (opened_names V df).
Proof.
  unfold extract. intros H.
  destruct (iterrows V df (initial out)) as [st|e] eqn:Hrun; [|discriminate H].
  cbn [bind] in H. injection H as <- _.
  exact (keys_iterrows V df [] (initial out) st eq_refl Hrun).
Qed.

Lemma sections_in_order_of_first_header_witness :
  keys [("Claims Status", [mkRecord 2 "Again?" ""]);
        ("Benefit Coverage", [])]
  = first_occurrences
      (opened_names Excel.dialect
         [[NaN; Str "Status"; Str "Answer"];
          [Int 1; Str "When?"; Str "Soon."];
          [NaN; Str "Coverage"; Str "Answer"];
          [NaN; Str "claims"; Str "Answer"];
          [Int 2; Str "Again?"; NaN]]).
Proof.
  apply (sections_in_order_of_first_header Excel.dialect _ []
           ["Found section: Claims Status"; "  Q1: When?...";
            "Found section: Benefit Coverage";
            "Found section: Claims Status"; "  Q2: Again?..."]).
  reflexivity.
Defined.

(** ** Records that are kept *)

Section Kept.

Variable V : variant.

Lemma header_restrict (pre ext : DataFrame) (i h : nat) (s : string) :
  (i <= length pre)%nat ->
  most_recent_header V (pre ++ ext) i h s ->
  most_recent_header V pre i h s.
Proof.
  intros Hi (Hh & (row & Hrow & Ho) & Hbetween). split; [exact Hh|]. split.
  - exists row. split; [|exact Ho].
    rewrite nth_error_app1 in Hrow by lia. exact Hrow.
  - intros j row' Hj Hrow'. apply (Hbetween j row' Hj).
    rewrite nth_error_app1 by lia. exact Hrow'.
Qed.

Lemma header_unique (df : DataFrame) (i h h' : nat) (s s' : string) :
  most_recent_header V df i h s -> most_recent_header V df i h' s' ->
  s = s'.
Proof.
  intros (Hh & (row & Hrow & Ho) & Hb) (Hh' & (row' & Hrow' & Ho') & Hb').
  destruct (Nat.lt_trichotomy h h') as [Hlt | [-> | Hgt]].
  - rewrite (Hb h' row') in Ho' by (auto; lia). discriminate.
  - congruence.
  - rewrite (Hb' h row) in Ho by (auto; lia). discriminate.
Qed.

Lemma nth_error_last (pre : DataFrame) (row : Series) :
  nth_error (pre ++ [row]) (length pre) = Some row.
Proof. rewrite nth_error_app2 by lia. now rewrite Nat.sub_diag. Qed.

Lemma kept_initial (out : list string) : kept V [] (initial out).
Proof.
  split; [intros cs H; discriminate H|]. split.
  - intros h s (Hh & _). cbn in Hh. lia.
  - intros i row r h s H. destruct i; discriminate H.
Qed.

(** The current section after one more row. *)
Lemma kept_current (pre : DataFrame) (st st' : locals) (row : Series) :
  kept V pre st -> loop_body V st row = Ok st' ->
  forall h s, most_recent_header V (pre ++ [row]) (length (pre ++ [row])) h s ->
              current_section st' = Some s.
Proof.
  intros (Hent & Hcur & _) Hb h s Hm.
  rewrite length_app in Hm. cbn [length] in Hm.
  replace (length pre + 1)%nat with (S (length pre)) in Hm by lia.
  destruct (loop_body_shape V st row st' Hb)
    as [t Ho -> | r cs l Ho _ Hc _ _ -> | Ho ->].
  - cbn [entered current_section]. f_equal.
    apply (header_unique (pre ++ [row]) (S (length pre)) (length pre) h t s);
      [now apply header_here | exact Hm].
  - cbn [appended current_section]. rewrite <- Hc.
    apply (Hcur h s). apply (header_restrict pre [row]); [lia|].
    destruct Hm as (Hh & (rowh & Hrowh & Hoh) & Hbetween).
    assert (Hne : h <> length pre).
    { intros ->. rewrite nth_error_last in Hrowh. congruence. }
    split; [lia|]. split; [eauto|].
    intros j row' Hj. apply Hbetween. lia.
  - apply (Hcur h s). apply (header_restrict pre [row]); [lia|].
    destruct Hm as (Hh & (rowh & Hrowh & Hoh) & Hbetween).
    assert (Hne : h <> length pre).
    { intros ->. rewrite nth_error_last in Hrowh. congruence. }
    split; [lia|]. split; [eauto|].
    intros j row' Hj. apply Hbetween. lia.
Qed.

Lemma kept_step (pre : DataFrame) (st st' : locals) (row : Series) :
  kept V pre st -> loop_body V st row = Ok st' ->
  kept V (pre ++ [row]) st'.
Proof.
  intros Hk Hb. pose proof Hk as (Hent & Hcur & Hrec).
  split; [exact (section_entered_step V st st' row Hent Hb)|].
  split; [exact (kept_current pre st st' row Hk Hb)|].
  intros i rowi r h s Hi Hr Hm Hs Hlater.
  assert (Hlen : (i < length (pre ++ [row]))%nat)
    by (apply nth_error_Some; congruence).
  rewrite length_app in Hlen. cbn [length] in Hlen.
  destruct (Nat.eq_dec i (length pre)) as [-> | Hne].
  - (* the record of the new row *)
    rewrite nth_error_last in Hi. injection Hi as <-.
    assert (Hc : current_section st = Some s).
    { apply (Hcur h s). apply (header_restrict pre [row]); [lia | exact Hm]. }
    destruct (Hent s Hc) as [l Hl].
    assert (Ht : truthy s = true).
    { unfold truthy. apply negb_true_iff, String.eqb_neq. exact Hs. }
    rewrite (loop_body_record V st row r s l Hr Hc Ht Hl) in Hb.
    injection Hb as <-. cbn [appended faq_data].
    exists (l ++ [r]). split; [apply dict_get_set_same|].
    apply in_or_app. right. now left.
  - (* a record of an earlier row *)
    assert (Hi' : nth_error pre i = Some rowi)
      by (rewrite nth_error_app1 in Hi by lia; exact Hi).
    destruct (Hrec i rowi r h s Hi' Hr) as (l & Hl & Hin); auto.
    + apply (header_restrict pre [row]); [lia | exact Hm].
    + intros j row' Hj Hrow'. apply (Hlater j row' Hj).
      rewrite nth_error_app1; [exact Hrow'|].
      apply nth_error_Some. congruence.
    + destruct (loop_body_shape V st row st' Hb)
        as [t Ho -> | r0 cs l0 Ho _ Hc _ Hl0 -> | Ho ->].
      * cbn [entered faq_data]. exists l. split; [|exact Hin].
        rewrite dict_get_set_other; [exact Hl|].
        intros ->. apply (Hlater (length pre) row); [lia | | exact Ho].
        apply nth_error_last.
      * cbn [appended faq_data]. destruct (string_dec cs s) as [-> | Hcs].
        -- exists (l0 ++ [r0]). split; [apply dict_get_set_same|].
           apply in_or_app. left. congruence.
        -- exists l. split; [|exact Hin].
           now rewrite dict_get_set_other.
      * eauto.
Qed.

Lemma kept_iterrows (df pre : DataFrame) (st st' : locals) :
  kept V pre st -> iterrows V df st = Ok st' -> kept V (pre ++ df) st'.
Proof.
  revert pre st. induction df as [|row df IH]; intros pre st Hk H.
  - cbn in H. injection H as <-. now rewrite app_nil_r.
  - cbn [iterrows] in H.
    destruct (loop_body V st row) as [st1|e] eqn:Hb; [|discriminate H].
    cbn [bind] in H.
    replace (pre ++ row :: df) with ((pre ++ [row]) ++ df)
      by now rewrite <- app_assoc.
    apply (IH (pre ++ [row]) st1); [|exact H].
    now apply (kept_step pre st).
Qed.

End Kept.

(** X4 ([parse_faq_excel] and [parse_cbre_faq], the loop): no record is
    lost but by a later header.  The record of a question row that stands
    under a header with a name other than the empty text is in the list of
    that name in the mapping returned, unless a later row opens the same
    name again. *)
Theorem record_is_kept
        (V : variant) (df : DataFrame) (out out' : list string)
        (faq : dict (list Record_))
        (i h : nat) (row : Series) (r : Record_) (s : string) :
  extract V df out = Ok (faq, out') ->
  nth_error df i = Some row -> record_of V row = Some r ->
  most_recent_header V df i h s -> s <> ""%string ->
  (forall j row', (i < j)%nat -> nth_error df j = Some row' ->
                  opens V row' <> Some s) ->
  exists l, dict_get faq s = Some l /\ In r l.
Proof.
  unfold extract. intros H Hi Hr Hm Hs Hlater.
  destruct (iterrows V df (initial out)) as [st|e] eqn:Hrun; [|discriminate H].
  cbn [bind] in H. injection H as <- _.
  destruct (kept_iterrows V df [] (initial out) st (kept_initial V out) Hrun)
    as (_ & _ & Hrec).
  exact (Hrec i row r h s Hi Hr Hm Hs Hlater).
Qed.

Lemma record_is_kept_witness :
  exists l,
    dict_get [("Benefit Coverage", [mkRecord 1 "What?" "All."]);
              ("Portal Matters", [])] "Benefit Coverage" = Some l /\
    In (mkRecord 1 "What?" "All.") l.
Proof.
  apply (record_is_kept Cbre.dialect
           [[NaN; Str "Coverage"; Str "Answer"];
            [Int 1; Str "What?"; Str "All."];
            [NaN; Str "System"; Str "Answer"]] []
           ["Section: Benefit Coverage"; "  Q1: What?";
            "Section: Portal Matters"]
           _ 1%nat 0%nat [Int 1; Str "What?"; Str "All."]).
  - reflexivity.
  - reflexivity.
  - reflexivity.
  - split; [lia|]. split.
    + exists [NaN; Str "Coverage"; Str "Answer"]. split; reflexivity.
    + intros j row' Hj. lia.
  - discriminate.
  - intros [|[|[|j]]] row' Hj Hrow'; try lia.
    + injection Hrow' as <-. discriminate.
    + destruct j; discriminate Hrow'.
Defined.

(** ** What the records hold *)

Module CleanFacts.
Import PyStr PyStrFacts.
Local Open Scope string_scope.

Section Idempotence.

Variable p : ascii -> bool.

Lemma rstrip_head (c : ascii) (t : string) :
  p c = false -> rstrip_of p (String c t) = String c (rstrip_of p t).
Proof.
  intros Hc. cbn [rstrip_of]. destruct (rstrip_of p t); [now rewrite Hc | auto].
Qed.

Lemma lstrip_head (s : string) (c : ascii) (t : string) :
  lstrip_of p s = String c t -> p c = false.
Proof.
  induction s as [|a s IH]; cbn [lstrip_of]; [discriminate|].
  destruct (p a) eqn:Ha; [exact IH|]. intros H. injection H as <- _. exact Ha.
Qed.

Lemma rstrip_idem (s : string) :
  rstrip_of p (rstrip_of p s) = rstrip_of p s.
Proof.
  induction s as [|c s IH]; [reflexivity|]. cbn [rstrip_of].
  destruct (rstrip_of p s) as [|c' r] eqn:Hr.
  - destruct (p c) eqn:Hc; [reflexivity|]. cbn. now rewrite Hc.
  - cbn [rstrip_of]. cbn [rstrip_of] in IH.
    destruct (rstrip_of p r) as [|c'' r'] eqn:Hr'.
    + destruct (p c'); [discriminate IH | now rewrite IH].
    + now rewrite IH.
Qed.

(** The head of a stripped text is no blank. *)
Lemma strip_of_head (s : string) (c : ascii) (t : string) :
  strip_of p s = String c t -> p c = false.
Proof.
  unfold strip_of. destruct (lstrip_of p s) as [|a u] eqn:Hl; [discriminate|].
  pose proof (lstrip_head s a u Hl) as Ha.
  rewrite (rstrip_head a u Ha). intros H. injection H as <- _. exact Ha.
Qed.

(** Stripping twice is stripping once. *)
Lemma strip_of_idem (s : string) :
  strip_of p (strip_of p s) = strip_of p s.
Proof.
  destruct (strip_of p s) as [|c t] eqn:Hs; [reflexivity|].
  pose proof (strip_of_head s c t Hs) as Hc.
  unfold strip_of at 1. cbn [lstrip_of]. rewrite Hc.
  rewrite <- Hs. unfold strip_of. apply rstrip_idem.
Qed.

End Idempotence.

Lemma text_or_empty_stripped (c : cell) :
  strip (text_or_empty c) = text_or_empty c.
Proof.
  unfold text_or_empty. destruct (notna c); [apply strip_of_idem | reflexivity].
Qed.

Lemma int_body_nonneg (s : string) (acc : Z) (b : bool) (n : Z) :
  0 <= acc -> int_body acc b s = Some n -> 0 <= n.
Proof.
  revert acc b. induction s as [|c s IH]; intros acc b Hacc; cbn [int_body].
  - destruct b; [intros H; injection H as <-; exact Hacc | discriminate].
  - destruct (decimal_value c) as [d|] eqn:Hd.
    + pose proof (decimal_value_range c d Hd). apply IH. lia.
    + destruct (Ascii.eqb c "_" && b); [now apply IH | discriminate].
Qed.

(** The text that [strip] leaves starts as the text that [int] reads,
    when that text does not start with a blank. *)
Lemma strip_head_int (s : string) (c : ascii) (t : string) :
  strip_of int_space s = String c t -> isspace c = false ->
  exists t', strip s = String c t'.
Proof.
  intros Hs Hcs.
  destruct (strip_of_decompose int_space s) as (w1 & w2 & Hdec & H1 & H2).
  rewrite Hs in Hdec.
  assert (Hsp : all_chars isspace w1 = true).
  { revert H1. apply all_chars_impl. exact int_space_isspace. }
  unfold strip, strip_of. rewrite Hdec.
  rewrite (lstrip_app_blank isspace w1 _ Hsp).
  cbn [append lstrip_of]. rewrite Hcs.
  rewrite (rstrip_head isspace c _ Hcs). eauto.
Qed.

(** A text that passes the digit test and that [int] reads is read as a
    natural number. *)
Lemma isdigit_to_int_nonneg (s : string) (n : Z) :
  isdigit (strip s) = true -> to_int s = Some n -> 0 <= n.
Proof.
  intros Hd. unfold to_int.
  destruct (strip_of int_space s) as [|c t] eqn:Hs; [discriminate|].
  destruct (Ascii.eqb c "+") eqn:Hplus.
  - apply Ascii.eqb_eq in Hplus. subst c.
    destruct (strip_head_int s "+" t Hs eq_refl) as [t' Ht'].
    rewrite Ht' in Hd. discriminate Hd.
  - destruct (Ascii.eqb c "-") eqn:Hminus.
    + apply Ascii.eqb_eq in Hminus. subst c.
      destruct (strip_head_int s "-" t Hs eq_refl) as [t' Ht'].
      rewrite Ht' in Hd. discriminate Hd.
    + unfold int_digits.
      destruct (int_max_str_digits <? count_digits (String c t))%N;
        [discriminate|].
      apply int_body_nonneg. lia.
Qed.

Lemma isdigit_of_int_nonneg (z : Z) :
  isdigit (strip (of_int z)) = true -> 0 <= z.
Proof.
  destruct z as [|q|q]; try lia. intros H. exfalso.
  unfold of_int in H. cbn [Z.to_int DecimalString.NilZero.string_of_int] in H.
  unfold strip, strip_of in H. cbn [lstrip_of] in H.
  change (isspace "-") with false in H. cbv iota in H.
  rewrite (rstrip_head isspace "-" _ eq_refl) in H. discriminate H.
Qed.

Lemma data_int_nonneg (c0 : cell) (n : Z) :
  data_test c0 = true -> py_int c0 = Ok n -> 0 <= n.
Proof.
  unfold data_test. destruct c0 as [|s|z]; cbn [notna py_str py_int andb].
  - discriminate.
  - intros Hd. destruct (to_int s) as [m|] eqn:Hm; [|discriminate].
    intros H. injection H as <-. now apply (isdigit_to_int_nonneg s).
  - intros Hd H. injection H as <-. now apply isdigit_of_int_nonneg.
Qed.

End CleanFacts.

Section RecordFields.

Variable V : variant.

(** The fields of a record: a natural number, a question that is not
    empty, and two texts that are stripped. *)
Lemma record_of_fields (row : Series) (r : Record_) :
  record_of V row = Some r ->
  0 <= number r /\
  question r <> ""%string /\
  PyStr.strip (question r) = question r /\
  PyStr.strip (answer r) = answer r.
Proof.
  unfold record_of.
  destruct (classify V row) as [[| |]|e] eqn:Hk; try discriminate.
  destruct (getitem row 0) as [c0|] eqn:H0; try discriminate.
  destruct (getitem row 1) as [c1|] eqn:H1; try discriminate.
  destruct (getitem row 2) as [c2|] eqn:H2; try discriminate.
  destruct (py_int c0) as [n|] eqn:Hn; try discriminate.
  destruct (truthy (text_or_empty c1)) eqn:Ht; try discriminate.
  intros H. injection H as <-. cbn [number question answer].
  assert (Hd : data_test c0 = true).
  { unfold classify in Hk. rewrite H2, H0 in Hk. cbn [bind] in Hk.
    destruct (header_test V c2); [discriminate|].
    destruct (data_test c0); [reflexivity | discriminate]. }
  split; [exact (CleanFacts.data_int_nonneg c0 n Hd Hn)|].
  split.
  - unfold truthy in Ht. apply negb_true_iff, String.eqb_neq in Ht. exact Ht.
  - split; apply CleanFacts.text_or_empty_stripped.
Qed.

End RecordFields.

Lemma Forall2_in_right {A B : Type} (R : A -> B -> Prop)
      (xs : list A) (ys : list B) (y : B) :
  Forall2 R xs ys -> In y ys -> exists x, R x y.
Proof.
  induction 1 as [|x y' xs ys Hxy _ IH]; intros Hin; [destruct Hin|].
  destruct Hin as [<- | Hin]; eauto.
Qed.

(** X5 ([parse_faq_excel] and [parse_cbre_faq], lines 37-46): every
    record of the mapping returned has a number that is not negative, a
    question that is not empty, and a question and an answer that
    [strip] leaves as they are: they start and end with no blank. *)
Theorem stored_records_are_clean
        (V : variant) (df : DataFrame) (out out' : list string)
        (faq : dict (list Record_)) (s : string) (l : list Record_)
        (r : Record_) :
  extract V df out = Ok (faq, out') ->
  dict_get faq s = Some l -> In r l ->
  0 <= number r /\
  question r <> ""%string /\
  PyStr.strip (question r) = question r /\
  PyStr.strip (answer r) = answer r.
Proof.
  intros H Hl Hin.
  destruct (attributed_extract V df out out' faq H s l Hl) as (idxs & _ & Hf).
  destruct (Forall2_in_right _ idxs l r Hf Hin) as (i & (row & _ & Hr) & _).
  exact (record_of_fields V row r Hr).
Qed.

Lemma stored_records_are_clean_witness :
  0 <= number (mkRecord 7 "What is covered?" "All of it.") /\
  question (mkRecord 7 "What is covered?" "All of it.") <> ""%string /\
  PyStr.strip (question (mkRecord 7 "What is covered?" "All of it."))
  = question (mkRecord 7 "What is covered?" "All of it.") /\
  PyStr.strip (answer (mkRecord 7 "What is covered?" "All of it."))
  = answer (mkRecord 7 "What is covered?" "All of it.").
Proof.
  apply (stored_records_are_clean Excel.dialect
           [[NaN; Str "Coverage"; Str "Answer"];
            [Str " 7"; Str "  What is covered? "; Str "All of it.  "]] []
           ["Found section: Benefit Coverage"; "  Q7: What is covered?..."]
           [("Benefit Coverage", [mkRecord 7 "What is covered?" "All of it."])]
           "Benefit Coverage"
           [mkRecord 7 "What is covered?" "All of it."]).
  - reflexivity.
  - reflexivity.
  - left. reflexivity.
Defined.

(** ** Facts about the generator scripts *)

Module PyStrOpsFacts.
Import PyStr PyStrOps PyStrFacts.
Local Open Scope string_scope.

Lemma append_nil_r (s : string) : s ++ "" = s.
Proof. induction s; simpl; congruence. Qed.

(** Replacing a character goes through a concatenation. *)
Lemma replace_char_app (old : ascii) (new a b : string) :
  replace_char old new (a ++ b)
  = replace_char old new a ++ replace_char old new b.
Proof.
  induction a as [|c a IH]; simpl; auto.
  destruct (Ascii.eqb c old); rewrite IH; simpl; auto.
  now rewrite JsonFacts.app_assoc_s.
Qed.

Lemma replace_char_absent (old : ascii) (new s : string) :
  all_chars (fun c => negb (Ascii.eqb c old)) s = true ->
  replace_char old new s = s.
Proof.
  induction s as [|c s IH]; simpl; auto.
  rewrite andb_true_iff, negb_true_iff. intros [-> Hs]. now rewrite IH.
Qed.

Lemma all_chars_app (p : ascii -> bool) (a b : string) :
  all_chars p (a ++ b) = all_chars p a && all_chars p b.
Proof.
  induction a as [|c a IH]; simpl; auto. now rewrite IH, andb_assoc.
Qed.

(** Each replaced character adds the length of [new] less one. *)
Lemma replace_char_length (old : ascii) (new s : string) :
  (String.length (replace_char old new s) + count_char old s
   = String.length s + count_char old s * String.length new)%nat.
Proof.
  induction s as [|c s IH]; simpl; auto.
  destruct (Ascii.eqb c old); simpl.
  - rewrite JsonFacts.length_app_s. lia.
  - lia.
Qed.

(** A replacement that keeps blanks apart from the other characters
    keeps the texts of blanks as they are. *)
Lemma replace_char_blank (old : ascii) (new s : string) :
  isspace old = false -> all_chars isspace new = false ->
  all_chars isspace (replace_char old new s) = all_chars isspace s.
Proof.
  intros Hold Hnew. induction s as [|c s IH]; simpl; auto.
  destruct (Ascii.eqb c old) eqn:Hc.
  - apply Ascii.eqb_eq in Hc. subst c.
    now rewrite all_chars_app, Hnew, Hold.
  - simpl. now rewrite IH.
Qed.

Lemma occurs_in_app (kw a s b : string) :
  occurs_in kw s -> occurs_in kw (a ++ s ++ b).
Proof.
  intros (x & y & ->). exists (a ++ x), (y ++ b).
  now rewrite !JsonFacts.app_assoc_s.
Qed.

Lemma occurs_in_replace (old : ascii) (new kw s : string) :
  all_chars (fun c => negb (Ascii.eqb c old)) kw = true ->
  occurs_in kw s -> occurs_in kw (replace_char old new s).
Proof.
  intros Hkw (x & y & ->).
  exists (replace_char old new x), (replace_char old new y).
  now rewrite !replace_char_app, (replace_char_absent old new kw Hkw).
Qed.

End PyStrOpsFacts.

Module JsonDefaultFacts.
Import PyStr Json JsonFacts JsonDefault.
Local Open Scope string_scope.

Lemma scanstring_escape_ascii (c : ascii) (rest : string) :
  scanstring (escape_ascii c ++ rest) = push c (scanstring rest).
Proof.
  destruct c as [[] [] [] [] [] [] [] []]; reflexivity.
Qed.

Lemma scanstring_escape_ascii_all (s rest : string) :
  scanstring (escape_ascii_all s ++ String (chr 34) rest) = Some (s, rest).
Proof.
  induction s as [|c s IH]; cbn [escape_ascii_all].
  - reflexivity.
  - rewrite app_assoc_s, scanstring_escape_ascii, IH. reflexivity.
Qed.

Lemma escape_ascii_all_app (a b : string) :
  escape_ascii_all (a ++ b) = escape_ascii_all a ++ escape_ascii_all b.
Proof.
  induction a as [|c a IH]; cbn [escape_ascii_all append]; auto.
  now rewrite IH, app_assoc_s.
Qed.

(** A text is read back from its encoding. *)
Lemma scan_once_text (depth : nat) (s tail : string) :
  scan_once (S depth) (encode_basestring_ascii s ++ tail) = Some (Text s, tail).
Proof.
  unfold encode_basestring_ascii. cbn [append scan_once].
  change (code (chr 34)) with 34%N. cbv iota.
  rewrite app_assoc_s.
  change (String (chr 34) "" ++ tail) with (String (chr 34) tail).
  now rewrite scanstring_escape_ascii_all.
Qed.

(** So is an integer, before a comma. *)
Lemma scan_once_int (depth : nat) (z : Z) (tail : string) :
  delimited tail = true ->
  scan_once (S depth) (of_int z ++ tail) = Some (Num z, tail).
Proof.
  intros Htail.
  destruct (encode_first 0 (Num z) tail) as (c & t & Hct & _ & _ & Hc).
  cbn [Json.encode] in Hct. rewrite Hct.
  rewrite scan_once_number by (apply (Hc z); reflexivity).
  rewrite <- Hct. now apply scan_number_of_int.
Qed.

(** One entry of a dictionary written on one line. *)
Lemma object_items_entry (scan : parser) (n : nat) (key vtext tail : string) :
  skip_ws (vtext ++ tail) = vtext ++ tail ->
  object_items scan (S n) (encode_basestring key ++ ": " ++ vtext ++ tail)
  = match scan (vtext ++ tail) with
    | None => None
    | Some (v', r2) =>
        match skip_ws r2 with
        | String c2 r3 =>
            match code c2 with
            | 125%N => Some ([(key, v')], r3)
            | 44%N =>
                match object_items scan n (skip_ws r3) with
                | Some (kvs, r4) => Some ((key, v') :: kvs, r4)
                | None => None
                end
            | _ => None
            end
        | EmptyString => None
        end
    end.
Proof.
  intros Hws. rewrite encode_basestring_app.
  cbn [object_items]. change (code (chr 34) =? 34)%N with true. cbv iota.
  rewrite scanstring_escape_all.
  change (skip_ws (": " ++ vtext ++ tail))
    with (String ":" (String " " (vtext ++ tail))).
  change (code ":" =? 58)%N with true. cbv iota.
  change (skip_ws (String " " (vtext ++ tail))) with (skip_ws (vtext ++ tail)).
  rewrite Hws. reflexivity.
Qed.

End JsonDefaultFacts.

Module SqlFacts.
Import PyStr PyStrOps PyStrFacts PyStrOpsFacts SqlInserts.
Local Open Scope string_scope.

Lemma escape_sql_string_replace (text : string) :
  escape_sql_string text = replace_char "'" "''" text.
Proof. destruct text; reflexivity. Qed.

Lemma startswith_quote (c : ascii) (s : string) :
  startswith "'" (String c s) = false -> Ascii.eqb c "'" = false.
Proof.
  unfold startswith. simpl. destruct (ascii_dec "'" c) as [<-|Hne].
  - destruct s; discriminate.
  - intros _. apply Ascii.eqb_neq. congruence.
Qed.

(** Inside a constant, the escaped text reads back as the text. *)
Lemma constants_inside (t acc rest : string) :
  startswith "'" rest = false ->
  string_constants (Some acc) (replace_char "'" "''" t ++ String "'" rest)
  = option_map (cons (acc ++ t)) (string_constants None rest).
Proof.
  intros Hrest. revert acc. induction t as [|c t IH]; intros acc.
  - rewrite append_nil_r. cbn. destruct rest as [|c2 r2]; [reflexivity|].
    now rewrite (startswith_quote c2 r2 Hrest).
  - cbn [replace_char]. destruct (Ascii.eqb c "'") eqn:Hc.
    + apply Ascii.eqb_eq in Hc. subst c. cbn. rewrite IH.
      now rewrite JsonFacts.app_assoc_s.
    + cbn. rewrite Hc, IH. now rewrite JsonFacts.app_assoc_s.
Qed.

Lemma constants_outside (pre s : string) :
  all_chars (fun c => negb (Ascii.eqb c "'")) pre = true ->
  string_constants None (pre ++ s) = string_constants None s.
Proof.
  induction pre as [|c pre IH]; simpl; auto.
  rewrite andb_true_iff, negb_true_iff. intros [-> Hpre]. auto.
Qed.

(** A constant between two texts: what comes before holds no quote, what
    comes after does not start with one. *)
Lemma constants_quoted (pre t post : string) :
  all_chars (fun c => negb (Ascii.eqb c "'")) pre = true ->
  startswith "'" post = false ->
  string_constants None
    (pre ++ String "'" (replace_char "'" "''" t ++ String "'" post))
  = option_map (cons t) (string_constants None post).
Proof.
  intros Hpre Hpost. rewrite (constants_outside pre _ Hpre).
  cbn [string_constants]. cbn [Ascii.eqb Bool.eqb].
  now rewrite (constants_inside t "" post Hpost).
Qed.

Lemma get_mapping_plain (section_name : string) :
  all_chars (fun c => negb (Ascii.eqb c "'")) (fst (get_mapping section_name))
  = true /\
  all_chars (fun c => negb (Ascii.eqb c "'")) (snd (get_mapping section_name))
  = true.
Proof.
  unfold get_mapping, category_mapping. cbn [dict_get].
  repeat match goal with
         | |- context [String.eqb ?a ?b] => destruct (String.eqb a b)
         end; split; reflexivity.
Qed.

(** The constants of a statement are its five fields and the source. *)
Lemma insert_statement_constants
      (question answer category subcategory metadata_json : string) :
  all_chars (fun c => negb (Ascii.eqb c "'")) category = true ->
  all_chars (fun c => negb (Ascii.eqb c "'")) subcategory = true ->
  string_constants None
    (insert_statement (replace_char "'" "''" question)
                      (replace_char "'" "''" answer)
                      category subcategory
                      (replace_char "'" "''" metadata_json))
  = Some [question; answer; category; subcategory; metadata_json;
          "Helpdesk FAQ Excel"].
Proof.
  intros Hc Hs.
  rewrite <- (replace_char_absent "'" "''" category Hc) at 1.
  rewrite <- (replace_char_absent "'" "''" subcategory Hs) at 1.
  set (Q := replace_char "'" "''" question).
  set (A := replace_char "'" "''" answer).
  set (C := replace_char "'" "''" category).
  set (S := replace_char "'" "''" subcategory).
  set (M := replace_char "'" "''" metadata_json).
  change (insert_statement Q A C S M) with
    (("INSERT INTO knowledge_base (title, content, category, subcategory, metadata, source, confidence_score, is_active)"
      ++ LF ++ "VALUES (" ++ LF ++ "  ")
     ++ String "'" (Q ++ String "'"
       (("," ++ LF ++ "  ")
     ++ String "'" (A ++ String "'"
       (("," ++ LF ++ "  ")
     ++ String "'" (C ++ String "'"
       (("," ++ LF ++ "  ")
     ++ String "'" (S ++ String "'"
       (("," ++ LF ++ "  ")
     ++ String "'" (M ++ String "'"
       ("::jsonb," ++ LF ++ "  'Helpdesk FAQ Excel'," ++ LF ++ "  1.0,"
        ++ LF ++ "  true" ++ LF ++ ");"))))))))))).
  subst Q A C S M.
  repeat (rewrite constants_quoted by reflexivity).
  reflexivity.
Qed.

End SqlFacts.

Module MetadataFacts.
Import PyStr PyStrOps Json JsonFacts JsonDefaultFacts SqlInserts.
Local Open Scope string_scope.

(** The text of the metadata, piece by piece. *)
Lemma dumps_metadata (section_name : string) (q_number : Z) (answer : string) :
  JsonDefault.dumps (metadata section_name q_number answer)
  = "{" ++ encode_basestring "section" ++ ": "
        ++ JsonDefault.encode_basestring_ascii section_name ++ ", "
        ++ encode_basestring "question_number" ++ ": "
        ++ of_int q_number ++ ", "
        ++ encode_basestring "has_detailed_answer" ++ ": "
        ++ (if (100 <? String.length answer)%nat then "true" else "false")
        ++ "}".
Proof.
  unfold JsonDefault.dumps, metadata.
  cbn [JsonDefault.encode map join fst snd].
  change (JsonDefault.encode_basestring_ascii "section")
    with (encode_basestring "section").
  change (JsonDefault.encode_basestring_ascii "question_number")
    with (encode_basestring "question_number").
  change (JsonDefault.encode_basestring_ascii "has_detailed_answer")
    with (encode_basestring "has_detailed_answer").
  rewrite !app_assoc_s.
  destruct (100 <? String.length answer)%nat; reflexivity.
Qed.

Lemma fuel_three (a b : string) :
  (3 <= String.length a)%nat ->
  exists n, String.length (a ++ b) = S (S (S n)).
Proof.
  intros H. rewrite length_app_s.
  exists (String.length a + String.length b - 3)%nat. lia.
Qed.

Lemma scan_object_start (scan : parser) (t : string) :
  scan_object scan (String (chr 34) t)
  = match object_items scan (S (String.length t)) (String (chr 34) t) with
    | Some (kvs, r') => Some (Dict (dict_of_pairs kvs), r')
    | None => None
    end.
Proof. reflexivity. Qed.

Lemma scan_once_object (depth : nat) (s : string) :
  scan_once (S depth) (String "{" s) = scan_object (scan_once depth) s.
Proof. reflexivity. Qed.

Lemma skip_ws_basestring (key tail : string) :
  skip_ws (" " ++ encode_basestring key ++ tail) = encode_basestring key ++ tail.
Proof. reflexivity. Qed.

Lemma skip_ws_of_int (z : Z) (tail : string) :
  skip_ws (of_int z ++ tail) = of_int z ++ tail.
Proof.
  destruct (encode_first 0 (Num z) tail) as (c & t & Hct & Hc & _).
  cbn [Json.encode] in Hct. rewrite Hct. now apply skip_ws_token.
Qed.

(** [json.loads] reads the metadata back from its text. *)
Lemma loads_metadata (section_name : string) (q_number : Z) (answer : string) :
  loads (JsonDefault.dumps (metadata section_name q_number answer))
  = Some (metadata section_name q_number answer).
Proof.
  rewrite dumps_metadata. unfold loads, metadata.
  set (flag := (100 <? String.length answer)%nat).
  remember (encode_basestring "section" ++ ": "
        ++ JsonDefault.encode_basestring_ascii section_name ++ ", "
        ++ encode_basestring "question_number" ++ ": "
        ++ of_int q_number ++ ", "
        ++ encode_basestring "has_detailed_answer" ++ ": "
        ++ (if flag then "true" else "false") ++ "}") as body eqn:Hbody.
  change ("{" ++ body) with (String "{" body).
  rewrite skip_ws_token by reflexivity.
  assert (Hlen : (4 <= String.length body)%nat).
  { rewrite Hbody, length_app_s. cbn. lia. }
  assert (Hshape : exists t, body = String (chr 34) t).
  { rewrite Hbody. eexists. reflexivity. }
  destruct Hshape as (t & Ht).
  assert (Hn : exists n, String.length t = S (S (S n))).
  { rewrite Ht in Hlen. cbn [String.length] in Hlen.
    exists (String.length t - 3)%nat. lia. }
  destruct Hn as (n & Hn).
  rewrite Ht. cbn [String.length]. rewrite Hn.
  rewrite scan_once_object, scan_object_start, Hn, <- Ht. subst body.
  set (scan := scan_once (S (S (S (S (S n)))))).
  (* the section *)
  rewrite object_items_entry
    by (unfold JsonDefault.encode_basestring_ascii;
        now apply skip_ws_token).
  unfold scan at 1. rewrite scan_once_text.
  change (skip_ws (", " ++ ?x)) with (String "," (String " " x)).
  cbv beta iota. change (code ",") with 44%N. cbv iota.
  change (String " " ?x) with (" " ++ x). rewrite skip_ws_basestring.
  (* the number *)
  rewrite object_items_entry by apply skip_ws_of_int.
  unfold scan at 1. rewrite scan_once_int by reflexivity.
  change (skip_ws (", " ++ ?x)) with (String "," (String " " x)).
  cbv beta iota. change (code ",") with 44%N. cbv iota.
  change (String " " ?x) with (" " ++ x). rewrite skip_ws_basestring.
  (* the flag *)
  rewrite object_items_entry by (destruct flag; reflexivity).
  unfold scan at 1.
  destruct flag; reflexivity.
Qed.

End MetadataFacts.

Module SqlStatementsFacts.
Import PyStr PyStrOps PyStrFacts PyStrOpsFacts SqlInserts SqlFacts.
Local Open Scope string_scope.

Lemma strip_eqb (x : string) :
  String.eqb (strip x) "" = all_chars isspace x.
Proof.
  destruct (all_chars isspace x) eqn:H.
  - apply String.eqb_eq, strip_empty_iff, H.
  - apply String.eqb_neq. intros E. apply strip_empty_iff in E. congruence.
Qed.

Lemma truthy_escape (a : string) :
  truthy (escape_sql_string a) = truthy a.
Proof.
  destruct a as [|c a]; [reflexivity|].
  unfold escape_sql_string. cbn. destruct (Ascii.eqb c "'"); reflexivity.
Qed.

(** The loop skips a question exactly when the summary does not count
    it: escaping does not change whether the answer is blank. *)
Lemma skip_test (a : string) :
  negb (truthy (escape_sql_string a))
  || String.eqb (strip (escape_sql_string a)) ""
  = negb (truthy a && truthy (strip a)).
Proof.
  rewrite truthy_escape, strip_eqb, escape_sql_string_replace.
  rewrite replace_char_blank by reflexivity.
  unfold truthy at 3. rewrite strip_eqb.
  destruct (truthy a), (all_chars isspace a); reflexivity.
Qed.

Lemma for_question_app (s : string) (m : string * string)
      (acc : list string) (q : Record_) :
  for_question s m acc q = (acc ++ for_question s m [] q)%list.
Proof.
  unfold for_question.
  destruct (negb (truthy (escape_sql_string (answer q)))
            || String.eqb (strip (escape_sql_string (answer q))) "");
    cbn [List.app]; auto. now rewrite <- List.app_assoc.
Qed.

Lemma for_question_answered (s : string) (q : Record_) :
  truthy (answer q) && truthy (strip (answer q)) = true ->
  for_question s (get_mapping s) [] q = [statement_of s q; ""].
Proof.
  intros H. unfold for_question. rewrite skip_test, H. reflexivity.
Qed.

Lemma for_question_skipped (s : string) (q : Record_) :
  truthy (answer q) && truthy (strip (answer q)) = false ->
  for_question s (get_mapping s) [] q = [skip_comment (number q)].
Proof.
  intros H. unfold for_question. rewrite skip_test, H. reflexivity.
Qed.

Lemma fold_for_question (s : string) (m : string * string)
      (qs : list Record_) (acc : list string) :
  fold_left (for_question s m) qs acc
  = (acc ++ flat_map (for_question s m []) qs)%list.
Proof.
  revert acc. induction qs as [|q qs IH]; intros acc; cbn [fold_left flat_map].
  - now rewrite List.app_nil_r.
  - rewrite IH, (for_question_app s m acc q). now rewrite <- List.app_assoc.
Qed.

Lemma for_section_lines (acc : list string) (s : string) (qs : list Record_) :
  for_section acc (s, qs)
  = (acc ++ section_comment s qs :: ""
         :: flat_map (for_question s (get_mapping s) []) qs)%list.
Proof.
  unfold for_section. rewrite fold_for_question.
  now rewrite <- !List.app_assoc.
Qed.

Lemma fold_for_section (faq : dict (list Record_)) (acc : list string) :
  fold_left for_section faq acc
  = (acc ++ flat_map (for_section []) faq)%list.
Proof.
  revert acc. induction faq as [|[s qs] faq IH]; intros acc;
    cbn [fold_left flat_map].
  - now rewrite List.app_nil_r.
  - rewrite IH, (for_section_lines acc), (for_section_lines []).
    cbn [List.app]. now rewrite <- List.app_assoc.
Qed.

(** The list of statements: the header, then section by section a
    comment, an empty line and the lines of the questions. *)
Lemma sql_statements_flat (faq : dict (list Record_)) :
  sql_statements faq = (header faq ++ flat_map (for_section []) faq)%list.
Proof. apply fold_for_section. Qed.

(** *** Counting the statements *)

Lemma count_question (s : string) (q : Record_) :
  length (filter (startswith "INSERT") (for_question s (get_mapping s) [] q))
  = if truthy (answer q) && truthy (strip (answer q)) then 1%nat else 0%nat.
Proof.
  destruct (truthy (answer q) && truthy (strip (answer q))) eqn:H.
  - now rewrite for_question_answered.
  - now rewrite for_question_skipped.
Qed.

Lemma count_questions (s : string) (qs : list Record_) :
  length (filter (startswith "INSERT")
                 (flat_map (for_question s (get_mapping s) []) qs))
  = valid_count qs.
Proof.
  unfold valid_count. induction qs as [|q qs IH]; cbn [flat_map filter].
  - reflexivity.
  - rewrite List.filter_app, List.length_app, IH, count_question.
    destruct (truthy (answer q) && truthy (strip (answer q))); reflexivity.
Qed.

Lemma count_section (item : string * list Record_) :
  length (filter (startswith "INSERT") (for_section [] item))
  = valid_count (snd item).
Proof.
  destruct item as [s qs]. rewrite for_section_lines.
  cbn [List.app snd].
  change (filter (startswith "INSERT")
            (section_comment s qs :: ""
               :: flat_map (for_question s (get_mapping s) []) qs))
    with (filter (startswith "INSERT")
            (flat_map (for_question s (get_mapping s) []) qs)).
  apply count_questions.
Qed.

Lemma total_statements_sum (faq : dict (list Record_)) :
  total_statements faq
  = list_sum (map (fun item => valid_count (snd item)) faq).
Proof.
  unfold total_statements. rewrite sql_statements_flat, List.filter_app.
  rewrite List.length_app.
  change (length (filter (startswith "INSERT") (header faq))) with 0%nat.
  cbn [Nat.add].
  induction faq as [|item faq IH]; cbn [flat_map map]; auto.
  rewrite List.filter_app, List.length_app, IH, count_section.
  reflexivity.
Qed.

Lemma total_questions_sum (faq : dict (list Record_)) :
  total_questions faq
  = list_sum (map (fun item => length (snd item)) faq).
Proof.
  unfold total_questions.
  assert (H : forall t, fold_left
                (fun total item => (total + length (snd item))%nat) faq t
              = (t + list_sum
                       (map (fun item : string * list Record_ =>
                               length (snd item)) faq))%nat).
  { induction faq as [|item faq IH]; intros t; cbn [fold_left map];
      rewrite ?IH; unfold list_sum; cbn [fold_right]; lia. }
  apply H.
Qed.

Lemma valid_count_le (qs : list Record_) :
  (valid_count qs <= length qs)%nat.
Proof. apply List.filter_length_le. Qed.

(** *** Membership *)

Lemma statement_in (faq : dict (list Record_)) (s : string)
      (qs : list Record_) (q : Record_) :
  In (s, qs) faq -> In q qs ->
  truthy (answer q) && truthy (strip (answer q)) = true ->
  In (statement_of s q) (sql_statements faq).
Proof.
  intros Hs Hq Ha. rewrite sql_statements_flat. apply in_or_app. right.
  apply in_flat_map. exists (s, qs). split; [exact Hs|].
  rewrite for_section_lines. cbn [List.app]. right. right.
  apply in_flat_map. exists q. split; [exact Hq|].
  rewrite for_question_answered by exact Ha. now left.
Qed.

(** Every element that starts with the word INSERT is the statement of
    a question that has an answer. *)
Lemma insert_origin (faq : dict (list Record_)) (stmt : string) :
  In stmt (sql_statements faq) -> startswith "INSERT" stmt = true ->
  exists s qs q,
    In (s, qs) faq /\ In q qs /\
    truthy (answer q) && truthy (strip (answer q)) = true /\
    stmt = statement_of s q.
Proof.
  rewrite sql_statements_flat. intros Hin Hst.
  apply in_app_or in Hin. destruct Hin as [Hin | Hin].
  - exfalso. cbn in Hin.
    repeat (destruct Hin as [<- | Hin]; [discriminate Hst|]). exact Hin.
  - apply in_flat_map in Hin. destruct Hin as ([s qs] & Hs & Hin).
    rewrite for_section_lines in Hin. cbn [List.app] in Hin.
    destruct Hin as [<- | [<- | Hin]]; try discriminate Hst.
    apply in_flat_map in Hin. destruct Hin as (q & Hq & Hin).
    exists s, qs, q.
    destruct (truthy (answer q) && truthy (strip (answer q))) eqn:Ha.
    + rewrite for_question_answered in Hin by exact Ha.
      destruct Hin as [<- | [<- | []]]; [auto | discriminate Hst].
    + rewrite for_question_skipped in Hin by exact Ha.
      destruct Hin as [<- | []]. discriminate Hst.
Qed.

End SqlStatementsFacts.

Module SqlSafetyFacts.
Import PyStr PyStrOps PyStrFacts PyStrOpsFacts JsonDefaultFacts MetadataFacts.
Import SqlInserts SqlFacts SqlStatementsFacts.
Local Open Scope string_scope.

Lemma occurs_right (kw a s : string) :
  occurs_in kw s -> occurs_in kw (a ++ s).
Proof.
  intros H. apply (occurs_in_app kw a s "") in H.
  now rewrite !append_nil_r in H.
Qed.

Lemma occurs_left (kw s b : string) :
  occurs_in kw s -> occurs_in kw (s ++ b).
Proof. intros H. exact (occurs_in_app kw "" s b H). Qed.

(** A keyword of plain characters that occurs in a text occurs in its
    JSON encoding. *)
Lemma occurs_in_basestring (kw s : string) :
  JsonDefault.escape_ascii_all kw = kw ->
  occurs_in kw s -> occurs_in kw (JsonDefault.encode_basestring_ascii s).
Proof.
  intros Hkw (x & y & ->). unfold JsonDefault.encode_basestring_ascii.
  apply (occurs_right kw (String (Json.chr 34) "")). apply occurs_left.
  rewrite !escape_ascii_all_app, Hkw.
  now exists (JsonDefault.escape_ascii_all x), (JsonDefault.escape_ascii_all y).
Qed.

Lemma occurs_in_metadata (kw s : string) (n : Z) (a : string) :
  JsonDefault.escape_ascii_all kw = kw ->
  occurs_in kw s -> occurs_in kw (JsonDefault.dumps (metadata s n a)).
Proof.
  intros Hkw H. rewrite dumps_metadata.
  do 3 apply occurs_right. apply occurs_left.
  now apply occurs_in_basestring.
Qed.

(** A keyword without quote that occurs in the question, in the answer or
    in the section name occurs in the statement. *)
Lemma occurs_in_statement (kw s : string) (q : Record_) :
  all_chars (fun c => negb (Ascii.eqb c "'")) kw = true ->
  JsonDefault.escape_ascii_all kw = kw ->
  occurs_in kw (question q) \/ occurs_in kw (answer q) \/ occurs_in kw s ->
  occurs_in kw (statement_of s q).
Proof.
  intros Hq Hkw H. unfold statement_of, insert_statement.
  rewrite !escape_sql_string_replace.
  destruct H as [H | [H | H]].
  - do 5 apply occurs_right. apply occurs_left.
    now apply occurs_in_replace.
  - do 9 apply occurs_right. apply occurs_left.
    now apply occurs_in_replace.
  - do 21 apply occurs_right. apply occurs_left.
    apply occurs_in_replace; [exact Hq|].
    now apply occurs_in_metadata.
Qed.

Lemma has_answer_strip (a : string) :
  strip a <> "" -> truthy a && truthy (strip a) = true.
Proof.
  intros H. apply andb_true_iff. split; unfold truthy; apply negb_true_iff;
    apply String.eqb_neq; [|exact H].
  intros ->. now apply H.
Qed.

Lemma escape_sql_string_length (a : string) :
  String.length (escape_sql_string a)
  = (String.length a + count_char "'" a)%nat.
Proof.
  rewrite escape_sql_string_replace.
  pose proof (replace_char_length "'" "''" a) as H. cbn in H. lia.
Qed.

End SqlSafetyFacts.

(** ** The mapping read back by the generator scripts *)

Lemma record_view_py (r : Record_) : record_view (py_of_record r) = Some r.
Proof. destruct r. reflexivity. Qed.

Lemma records_view_py (l : list Record_) :
  all_some (map record_view (map py_of_record l)) = Some l.
Proof.
  induction l as [|r l IH]; cbn [map all_some]; auto.
  now rewrite record_view_py, IH.
Qed.

Lemma faq_view_py (faq : dict (list Record_)) :
  faq_view (py_of_faq faq) = Some faq.
Proof.
  unfold py_of_faq, faq_view.
  induction faq as [|[s l] faq IH]; cbn [map all_some fst snd]; auto.
  rewrite records_view_py. cbn [option_map]. now rewrite IH.
Qed.

Lemma loaded_saved (w : bool) (faq : dict (list Record_)) :
  NoDup (keys faq) ->
  loaded_file (saved_file w faq) = Some (py_of_faq faq).
Proof.
  intros Hk. unfold loaded_file, saved_file, json_load, json_dump.
  apply (SavedFileFacts.load_saved w (py_of_faq faq)).
  now apply py_of_faq_distinct.
Qed.

Lemma generate_on_saved (g w : bool) (faq : dict (list Record_)) :
  NoDup (keys faq) ->
  SqlInserts.generate_sql_inserts g (saved_file w faq)
  = Some (SqlInserts.output_of g faq).
Proof.
  intros Hk. unfold SqlInserts.generate_sql_inserts.
  rewrite (loaded_saved w faq Hk). now rewrite faq_view_py.
Qed.

(** ** Facts about [generate_quick_questions.py] *)

Module QuickQuestionsFacts.
Import PyStr PyStrOps PyStrFacts PyStrOpsFacts QuickQuestions.
Local Open Scope string_scope.

Lemma escape_js_string_replace (text : string) :
  escape_js_string text
  = replace_char (ascii_of_N 10) "\n"
      (replace_char "'" "\'" (replace_char "\" "\\" text)).
Proof. destruct text; reflexivity. Qed.

Lemma escape_js_string_app (a b : string) :
  escape_js_string (a ++ b) = escape_js_string a ++ escape_js_string b.
Proof.
  now rewrite !escape_js_string_replace, !replace_char_app.
Qed.

Lemma escape_js_string_cons (c : ascii) (t : string) :
  escape_js_string (String c t)
  = escape_js_string (String c "") ++ escape_js_string t.
Proof. exact (escape_js_string_app (String c "") t). Qed.

(** Inside a literal, the escape of a character reads back as the
    character, unless it is a carriage return. *)
Lemma read_escaped_char (c : ascii) (acc x : string) :
  (code c =? 13)%N = false ->
  single_quoted (Some acc) (escape_js_string (String c "") ++ x)
  = single_quoted (Some (acc ++ String c "")) x.
Proof.
  destruct c as [[] [] [] [] [] [] [] []]; intros H;
    try reflexivity; discriminate H.
Qed.

Lemma read_escaped (t acc rest : string) :
  TextFile.no_cr t = true ->
  single_quoted (Some acc) (escape_js_string t ++ String "'" rest)
  = option_map (cons (acc ++ t)) (single_quoted None rest).
Proof.
  revert acc. induction t as [|c t IH]; intros acc Ht.
  - now rewrite append_nil_r.
  - unfold TextFile.no_cr in Ht. cbn [all_chars] in Ht.
    apply andb_true_iff in Ht. destruct Ht as [Hc Ht].
    apply negb_true_iff in Hc.
    rewrite escape_js_string_cons, JsonFacts.app_assoc_s.
    rewrite read_escaped_char by exact Hc.
    rewrite IH by exact Ht. now rewrite JsonFacts.app_assoc_s.
Qed.

(** A carriage return is written as it is, and ends the reading. *)
Lemma read_carriage_return (t acc x : string) :
  TextFile.no_cr t = false ->
  single_quoted (Some acc) (escape_js_string t ++ x) = None.
Proof.
  revert acc. induction t as [|c t IH]; intros acc Ht; [discriminate|].
  unfold TextFile.no_cr in Ht. cbn [all_chars] in Ht.
  rewrite escape_js_string_cons, JsonFacts.app_assoc_s.
  destruct (code c =? 13)%N eqn:Hc.
  - apply N.eqb_eq in Hc.
    assert (Hcr : c = ascii_of_N 13).
    { unfold code in Hc. rewrite <- Hc. now rewrite ascii_N_embedding. }
    subst c. reflexivity.
  - rewrite read_escaped_char by exact Hc. apply IH.
    cbn [negb andb] in Ht. exact Ht.
Qed.

Lemma outside_plain (pre s : string) :
  all_chars (fun c => negb (Ascii.eqb c "'")) pre = true ->
  single_quoted None (pre ++ s) = single_quoted None s.
Proof.
  induction pre as [|c pre IH]; simpl; auto.
  rewrite andb_true_iff, negb_true_iff. intros [-> Hpre]. auto.
Qed.

(** The entry of a question holds two literals, the question and the
    answer. *)
Lemma read_entry (q : Record_) (tail : string) :
  TextFile.no_cr (question q) = true -> TextFile.no_cr (answer q) = true ->
  single_quoted None (question_entry q ++ tail)
  = option_map (fun l => question q :: answer q :: l)
               (single_quoted None (" }" ++ tail)).
Proof.
  intros Hq Ha. unfold question_entry. rewrite !JsonFacts.app_assoc_s.
  change ("      { q: '" ++ escape_js_string (question q) ++ "', a: '"
            ++ escape_js_string (answer q) ++ "' }" ++ tail)
    with ("      { q: "
            ++ String "'" (escape_js_string (question q)
            ++ String "'" (", a: "
            ++ String "'" (escape_js_string (answer q)
            ++ String "'" (" }" ++ tail))))).
  rewrite outside_plain by reflexivity.
  change (single_quoted None (String "'" ?x)) with (single_quoted (Some "") x).
  rewrite read_escaped by exact Hq.
  rewrite outside_plain by reflexivity.
  change (single_quoted None (String "'" ?x)) with (single_quoted (Some "") x).
  rewrite read_escaped by exact Ha. cbn [append].
  destruct (single_quoted None (String " " (String "}" tail))); reflexivity.
Qed.

End QuickQuestionsFacts.

Module QuickQuestionsArrayFacts.
Import PyStr PyStrOps PyStrFacts PyStrOpsFacts QuickQuestions QuickQuestionsFacts.
Local Open Scope string_scope.

Lemma plain_text_escape (t : string) :
  plain_text t = true -> escape_js_string t = t.
Proof.
  intros H. rewrite escape_js_string_replace.
  rewrite (replace_char_absent "\" "\\" t), (replace_char_absent "'" "\'" t),
          (replace_char_absent (ascii_of_N 10) "\n" t); auto;
    revert H; apply all_chars_impl;
    intros [[] [] [] [] [] [] [] []]; intros H; try reflexivity;
    discriminate H.
Qed.

Lemma plain_text_no_cr (t : string) :
  plain_text t = true -> TextFile.no_cr t = true.
Proof.
  apply all_chars_impl.
  intros [[] [] [] [] [] [] [] []]; intros H; try reflexivity; discriminate H.
Qed.

(** Inside a literal, a plain text reads back as itself. *)
Lemma read_plain (t acc rest : string) :
  plain_text t = true ->
  single_quoted (Some acc) (t ++ String "'" rest)
  = option_map (cons (acc ++ t)) (single_quoted None rest).
Proof.
  intros H. rewrite <- (plain_text_escape t H) at 1.
  apply read_escaped. now apply plain_text_no_cr.
Qed.

Lemma plain_text_lower (s : string) :
  plain_text s = true -> plain_text (lower s) = true.
Proof.
  unfold plain_text. induction s as [|c s IH]; cbn [lower all_chars]; auto.
  rewrite !andb_true_iff. intros [Hc Hs]. split; [|auto].
  revert Hc. clear. destruct c as [[] [] [] [] [] [] [] []]; intros H;
    try reflexivity; discriminate H.
Qed.

Lemma plain_text_hyphen (s : string) :
  plain_text s = true -> plain_text (replace_char " " "-" s) = true.
Proof.
  unfold plain_text. induction s as [|c s IH]; cbn [replace_char all_chars]; auto.
  rewrite andb_true_iff. intros [Hc Hs].
  destruct (Ascii.eqb c " "); cbn [append all_chars]; rewrite IH by exact Hs.
  - reflexivity.
  - now rewrite Hc.
Qed.

Lemma plain_text_category_id (s : string) :
  plain_text s = true -> plain_text (category_id s) = true.
Proof.
  intros H. unfold category_id, category_ids. cbn [dict_get].
  repeat match goal with
         | |- context [String.eqb ?a ?b] => destruct (String.eqb a b)
         end; try reflexivity.
  now apply plain_text_hyphen, plain_text_lower.
Qed.

Lemma icon_svg_no_quote (s : string) :
  all_chars (fun c => negb (Ascii.eqb c "'")) (icon_svg s) = true.
Proof.
  unfold icon_svg, icons. cbn [dict_get].
  repeat match goal with
         | |- context [String.eqb ?a ?b] => destruct (String.eqb a b)
         end; reflexivity.
Qed.

(** *** The loops flattened *)

Lemma for_questions_app (qs : list Record_) (k : nat) (acc : string) :
  for_questions k qs acc = acc ++ for_questions k qs "".
Proof.
  revert k acc. induction qs as [|q qs IH]; intros k acc; cbn [for_questions].
  - now rewrite append_nil_r.
  - rewrite (IH (S k) ((if (0 <? k)%nat then acc ++ "," ++ LF else acc)
                         ++ question_entry q)).
    rewrite (IH (S k) ((if (0 <? k)%nat then "" ++ "," ++ LF else "")
                         ++ question_entry q)).
    destruct (0 <? k)%nat; now rewrite !JsonFacts.app_assoc_s.
Qed.

Lemma option_map_app_nil (x : option (list string)) :
  option_map (List.app []) x = x.
Proof. destruct x; reflexivity. Qed.

Lemma read_questions (qs : list Record_) (k : nat) (tail : string) :
  Forall no_cr_texts qs ->
  single_quoted None (for_questions k qs "" ++ tail)
  = option_map (List.app (flat_map (fun q => [question q; answer q]) qs))
               (single_quoted None tail).
Proof.
  revert k. induction qs as [|q qs IH]; intros k Hqs;
    cbn [for_questions flat_map].
  - cbn [append]. now rewrite option_map_app_nil.
  - inversion Hqs as [|q' qs' [Hq Ha] Hrest]; subst.
    rewrite for_questions_app, !JsonFacts.app_assoc_s.
    assert (Hsep : single_quoted None
                     ((if (0 <? k)%nat then "" ++ "," ++ LF else "")
                        ++ question_entry q ++ for_questions (S k) qs "" ++ tail)
                   = single_quoted None
                       (question_entry q ++ for_questions (S k) qs "" ++ tail)).
    { destruct (0 <? k)%nat; reflexivity. }
    rewrite Hsep, read_entry by assumption.
    rewrite outside_plain by reflexivity.
    rewrite IH by exact Hrest.
    destruct (single_quoted None tail); reflexivity.
Qed.

Lemma for_sections_app (items : dict (list Record_)) (idx : nat)
      (acc : string) :
  for_sections idx items acc = acc ++ for_sections idx items "".
Proof.
  revert idx acc. induction items as [|[s qs] items IH]; intros idx acc;
    cbn [for_sections].
  - now rewrite append_nil_r.
  - rewrite (IH (S idx)
               (for_questions 0 qs
                  ((if (0 <? idx)%nat then acc ++ "," ++ LF else acc)
                     ++ category_opening s)
                  ++ LF ++ "    ]" ++ LF ++ "  }")).
    rewrite (IH (S idx)
               (for_questions 0 qs
                  ((if (0 <? idx)%nat then "" ++ "," ++ LF else "")
                     ++ category_opening s)
                  ++ LF ++ "    ]" ++ LF ++ "  }")).
    rewrite (for_questions_app qs 0
               ((if (0 <? idx)%nat then acc ++ "," ++ LF else acc)
                  ++ category_opening s)).
    rewrite (for_questions_app qs 0
               ((if (0 <? idx)%nat then "" ++ "," ++ LF else "")
                  ++ category_opening s)).
    destruct (0 <? idx)%nat; now rewrite !JsonFacts.app_assoc_s.
Qed.

(** The opening of a category holds two literals, the identifier and
    the title. *)
Lemma read_opening (s tail : string) :
  plain_text s = true ->
  single_quoted None (category_opening s ++ tail)
  = option_map (fun l => category_id s :: s :: l) (single_quoted None tail).
Proof.
  intros Hs. unfold category_opening. rewrite !JsonFacts.app_assoc_s.
  change ("  {" ++ LF ++ "    id: '" ++ category_id s ++ "'," ++ LF
            ++ "    title: '" ++ s ++ "'," ++ LF ++ "    icon: (" ++ LF
            ++ "      " ++ icon_svg s ++ LF ++ "    )," ++ LF
            ++ "    questions: [" ++ LF ++ tail)
    with (("  {" ++ LF ++ "    id: ")
            ++ String "'" (category_id s
            ++ String "'" (("," ++ LF ++ "    title: ")
            ++ String "'" (s
            ++ String "'" (("," ++ LF ++ "    icon: (" ++ LF ++ "      ")
            ++ icon_svg s
            ++ (LF ++ "    )," ++ LF ++ "    questions: [" ++ LF)
            ++ tail))))).
  rewrite outside_plain by reflexivity.
  change (single_quoted None (String "'" ?x)) with (single_quoted (Some "") x).
  rewrite read_plain by now apply plain_text_category_id.
  rewrite outside_plain by reflexivity.
  change (single_quoted None (String "'" ?x)) with (single_quoted (Some "") x).
  rewrite read_plain by exact Hs.
  rewrite outside_plain by reflexivity.
  rewrite outside_plain by apply icon_svg_no_quote.
  rewrite outside_plain by reflexivity.
  cbn [append]. destruct (single_quoted None tail); reflexivity.
Qed.

Lemma read_sections (items : dict (list Record_)) (idx : nat) :
  Forall (fun item => plain_text (fst item) = true /\
                      Forall no_cr_texts (snd item)) items ->
  single_quoted None (for_sections idx items "")
  = Some (flat_map category_literals items).
Proof.
  revert idx. induction items as [|[s qs] items IH]; intros idx Hall;
    cbn [for_sections flat_map].
  - reflexivity.
  - inversion Hall as [|item items' [Hs Hqs] Hrest]; subst.
    cbn [fst snd] in Hs, Hqs.
    rewrite for_sections_app, for_questions_app, !JsonFacts.app_assoc_s.
    assert (Hsep : single_quoted None
                     ((if (0 <? idx)%nat then "" ++ "," ++ LF else "")
                        ++ category_opening s ++ for_questions 0 qs ""
                        ++ LF ++ "    ]" ++ LF ++ "  }"
                        ++ for_sections (S idx) items "")
                   = single_quoted None
                       (category_opening s ++ for_questions 0 qs ""
                        ++ LF ++ "    ]" ++ LF ++ "  }"
                        ++ for_sections (S idx) items "")).
    { destruct (0 <? idx)%nat; reflexivity. }
    rewrite Hsep, read_opening by exact Hs.
    rewrite read_questions by exact Hqs.
    change (LF ++ "    ]" ++ LF ++ "  }" ++ for_sections (S idx) items "")
      with ((LF ++ "    ]" ++ LF ++ "  }") ++ for_sections (S idx) items "").
    rewrite outside_plain by reflexivity.
    rewrite IH by exact Hrest. reflexivity.
Qed.

End QuickQuestionsArrayFacts.

(** ** Properties of [generate_sql_inserts.py] *)

(** X6 ([escape_sql_string]): a text escaped and put between single
    quotes is read back as one string constant, the text itself, whatever
    quotes it holds; reading goes on right after the closing quote.  What
    follows the closing quote must not start with a quote. *)
Theorem escape_sql_string_reads_back (text rest : string) :
  PyStrOps.startswith "'" rest = false ->
  SqlInserts.string_constants None
    ("'" ++ SqlInserts.escape_sql_string text ++ "'" ++ rest)%string
  = option_map (cons text) (SqlInserts.string_constants None rest).
Proof.
  intros H. rewrite SqlFacts.escape_sql_string_replace.
  exact (SqlFacts.constants_quoted "" text rest eq_refl H).
Qed.

Lemma escape_sql_string_reads_back_witness :
  PyStrOps.startswith "'" ", 'x')" = false /\
  SqlInserts.string_constants None
    ("'" ++ SqlInserts.escape_sql_string "it's 5 o'clock" ++ "'" ++ ", 'x')")%string
  = Some ["it's 5 o'clock"; "x"].
Proof.
  split; [reflexivity|].
  exact (escape_sql_string_reads_back "it's 5 o'clock" ", 'x')" eq_refl).
Defined.

(** X7 ([generate_sql_inserts], lines 44-51, 84 and 96-98): the number
    printed as Total statements is the sum of the numbers that the summary
    prints for the sections, the questions whose answer is not blank; it
    is at most the number of the header comment Total Questions. *)
Theorem total_statements_is_summary (faq_data : dict (list Record_)) :
  SqlInserts.total_statements faq_data
  = list_sum (map (fun item => SqlInserts.valid_count (snd item)) faq_data)
  /\ (SqlInserts.total_statements faq_data
      <= SqlInserts.total_questions faq_data)%nat.
Proof.
  split; [apply SqlStatementsFacts.total_statements_sum|].
  rewrite SqlStatementsFacts.total_statements_sum,
          SqlStatementsFacts.total_questions_sum.
  induction faq_data as [|item faq IH]; cbn [map]; unfold list_sum in *;
    cbn [fold_right]; [lia|].
  pose proof (SqlStatementsFacts.valid_count_le (snd item)). lia.
Qed.

(** X8 ([generate_sql_inserts], lines 44-73): every element of
    [sql_statements] that starts with the word INSERT is the statement of
    one question of the mapping, and its string constants are, in order,
    the question and the answer as they were before escaping, the category
    and the subcategory of the section, the JSON text of the metadata, and
    the source. *)
Theorem insert_statement_fields
        (faq_data : dict (list Record_)) (stmt : string) :
  In stmt (SqlInserts.sql_statements faq_data) ->
  PyStrOps.startswith "INSERT" stmt = true ->
  exists section_name questions q,
    In (section_name, questions) faq_data /\ In q questions /\
    SqlInserts.string_constants None stmt
    = Some [question q; answer q;
            fst (SqlInserts.get_mapping section_name);
            snd (SqlInserts.get_mapping section_name);
            JsonDefault.dumps
              (SqlInserts.metadata section_name (number q)
                 (SqlInserts.escape_sql_string (answer q)));
            "Helpdesk FAQ Excel"].
Proof.
  intros Hin Hst.
  destruct (SqlStatementsFacts.insert_origin faq_data stmt Hin Hst)
    as (s & qs & q & Hs & Hq & _ & ->).
  exists s, qs, q. split; [exact Hs|]. split; [exact Hq|].
  unfold SqlInserts.statement_of.
  rewrite !SqlFacts.escape_sql_string_replace.
  destruct (SqlFacts.get_mapping_plain s) as [Hc Hsub].
  now apply SqlFacts.insert_statement_constants.
Qed.

Lemma insert_statement_fields_witness :
  exists section_name questions q,
    In (section_name, questions)
       [("Claims Status", [mkRecord 4 "Where's my claim?" "It's paid."])] /\
    In q questions /\
    SqlInserts.string_constants None
      (SqlInserts.statement_of "Claims Status"
         (mkRecord 4 "Where's my claim?" "It's paid."))
    = Some [question q; answer q;
            fst (SqlInserts.get_mapping section_name);
            snd (SqlInserts.get_mapping section_name);
            JsonDefault.dumps
              (SqlInserts.metadata section_name (number q)
                 (SqlInserts.escape_sql_string (answer q)));
            "Helpdesk FAQ Excel"].
Proof.
  apply (insert_statement_fields
           [("Claims Status", [mkRecord 4 "Where's my claim?" "It's paid."])]).
  - vm_compute. do 9 right. left. reflexivity.
  - reflexivity.
Defined.

(** X9 ([generate_sql_inserts], lines 54-59): [json.loads] reads the
    metadata of a question back from its text, and the flag
    [has_detailed_answer] is taken on the escaped answer: it holds when
    the length of the answer plus the number of its single quotes exceeds
    100. *)
Theorem metadata_reads_back (section_name : string) (q : Record_) :
  Json.loads
    (JsonDefault.dumps
       (SqlInserts.metadata section_name (number q)
          (SqlInserts.escape_sql_string (answer q))))
  = Some (Json.Dict
            [("section", Json.Text section_name);
             ("question_number", Json.Num (number q));
             ("has_detailed_answer",
              Json.Boolean
                (100 <? String.length (answer q)
                        + PyStrOps.count_char "'" (answer q))%nat)]).
Proof.
  rewrite MetadataFacts.loads_metadata. unfold SqlInserts.metadata.
  now rewrite SqlSafetyFacts.escape_sql_string_length.
Qed.

(** X10 ([generate_sql_inserts], line 87): the filter of the safe script
    drops whole elements of [sql_statements].  The statement of a question
    with an answer is written to the full script, and it is left out of
    the safe script when the words DELETE FROM occur in its question, in
    its answer or in the name of its section. *)
Theorem safe_script_drops_statement
        (faq_data : dict (list Record_)) (section_name : string)
        (questions : list Record_) (q : Record_) :
  In (section_name, questions) faq_data -> In q questions ->
  PyStr.strip (answer q) <> ""%string ->
  occurs_in "DELETE FROM" (question q) \/
  occurs_in "DELETE FROM" (answer q) \/
  occurs_in "DELETE FROM" section_name ->
  In (SqlInserts.statement_of section_name q)
     (SqlInserts.sql_statements faq_data) /\
  ~ In (SqlInserts.statement_of section_name q)
       (SqlInserts.safe_statements faq_data).
Proof.
  intros Hs Hq Ha Hkw. split.
  - apply (SqlStatementsFacts.statement_in faq_data section_name questions);
      auto using SqlSafetyFacts.has_answer_strip.
  - unfold SqlInserts.safe_statements. rewrite filter_In. intros [_ Hf].
    apply negb_true_iff in Hf.
    assert (Hc : PyStr.contains "DELETE FROM"
                   (SqlInserts.statement_of section_name q) = true).
    { apply contains_occurs.
      apply SqlSafetyFacts.occurs_in_statement; auto. }
    congruence.
Qed.

Lemma safe_script_drops_statement_witness :
  In (SqlInserts.statement_of "Portal Matters"
        (mkRecord 2 "What does DELETE FROM mean?" "Nothing here."))
     (SqlInserts.sql_statements
        [("Portal Matters",
          [mkRecord 2 "What does DELETE FROM mean?" "Nothing here."])]) /\
  ~ In (SqlInserts.statement_of "Portal Matters"
          (mkRecord 2 "What does DELETE FROM mean?" "Nothing here."))
       (SqlInserts.safe_statements
          [("Portal Matters",
            [mkRecord 2 "What does DELETE FROM mean?" "Nothing here."])]).
Proof.
  apply (safe_script_drops_statement
           [("Portal Matters",
             [mkRecord 2 "What does DELETE FROM mean?" "Nothing here."])]
           "Portal Matters"
           [mkRecord 2 "What does DELETE FROM mean?" "Nothing here."]).
  - left. reflexivity.
  - left. reflexivity.
  - discriminate.
  - left. exists "What does ", " mean?". reflexivity.
Defined.

(** X11 ([generate_sql_inserts], lines 15-16, and
    [generate_quick_questions_jsx], lines 19-20, with [main] of
    [parse_excel_faq.py], lines 72-73, and [parse_cbre_faq], lines 51-52):
    run on the file that an extraction script saved, each generator reads
    the extracted mapping back as it was, so that what it writes is what
    it computes from that mapping; the line separators of the two
    platforms play no part. *)
Theorem generators_read_saved_mapping
        (V : variant) (df : DataFrame) (out out' : list string)
        (faq : dict (list Record_)) (saved_crlf crlf : bool) :
  extract V df out = Ok (faq, out') ->
  SqlInserts.generate_sql_inserts crlf (saved_file saved_crlf faq)
  = Some (SqlInserts.output_of crlf faq) /\
  QuickQuestions.quick_questions_of_file (saved_file saved_crlf faq)
  = Some (QuickQuestions.quick_questions faq).
Proof.
  intros H.
  pose proof (keys_distinct_extract V df out out' faq H) as Hk.
  split; [now apply generate_on_saved|].
  unfold QuickQuestions.quick_questions_of_file.
  rewrite (loaded_saved saved_crlf faq Hk). now rewrite faq_view_py.
Qed.

Lemma generators_read_saved_mapping_witness :
  SqlInserts.generate_sql_inserts false
    (saved_file true
       [("Benefit Coverage", [mkRecord 1 "What's covered?" "All."])])
  = Some (SqlInserts.output_of false
            [("Benefit Coverage", [mkRecord 1 "What's covered?" "All."])]) /\
  QuickQuestions.quick_questions_of_file
    (saved_file true
       [("Benefit Coverage", [mkRecord 1 "What's covered?" "All."])])
  = Some (QuickQuestions.quick_questions
            [("Benefit Coverage", [mkRecord 1 "What's covered?" "All."])]).
Proof.
  apply (generators_read_saved_mapping Excel.dialect
           [[NaN; Str "Coverage"; Str "Answer"];
            [Int 1; Str "What's covered?"; Str "All."]] []
           ["Found section: Benefit Coverage"; "  Q1: What's covered?..."]).
  reflexivity.
Defined.

(** ** Properties of [generate_quick_questions.py] *)

(** X12 ([escape_js_string] and line 79): the entry written for a
    question holds two single-quoted literals, which read back as the
    question and the answer with their quotes, backslashes and line feeds,
    provided that neither text holds a carriage return. *)
Theorem question_entry_reads_back (q : Record_) :
  QuickQuestions.no_cr_texts q ->
  QuickQuestions.single_quoted None (QuickQuestions.question_entry q)
  = Some [question q; answer q].
Proof.
  intros [Hq Ha].
  rewrite <- (PyStrOpsFacts.append_nil_r (QuickQuestions.question_entry q)).
  now rewrite QuickQuestionsFacts.read_entry.
Qed.

Lemma question_entry_reads_back_witness :
  QuickQuestions.single_quoted None
    (QuickQuestions.question_entry
       (mkRecord 1 "What's a path like C:\temp?"
                 ("Line one" ++ PyStrOps.LF ++ "line 'two'")%string))
  = Some ["What's a path like C:\temp?";
          ("Line one" ++ PyStrOps.LF ++ "line 'two'")%string].
Proof.
  apply (question_entry_reads_back
           (mkRecord 1 "What's a path like C:\temp?"
                     ("Line one" ++ PyStrOps.LF ++ "line 'two'")%string)).
  split; reflexivity.
Defined.

(** X13 ([escape_js_string], lines 8-12): a carriage return is not
    escaped.  When the question or the answer holds one, the entry has a
    line break inside a literal, and no text that starts with the entry
    can be read. *)
Theorem carriage_return_breaks_entry (q : Record_) (tail : string) :
  TextFile.no_cr (question q) && TextFile.no_cr (answer q) = false ->
  QuickQuestions.single_quoted None
    (QuickQuestions.question_entry q ++ tail)%string = None.
Proof.
  intros H. unfold QuickQuestions.question_entry.
  rewrite !JsonFacts.app_assoc_s.
  change ("      { q: '" ++ QuickQuestions.escape_js_string (question q)
            ++ "', a: '" ++ QuickQuestions.escape_js_string (answer q)
            ++ "' }" ++ tail)%string
    with ("      { q: "
            ++ String "'" (QuickQuestions.escape_js_string (question q)
            ++ String "'" (", a: "
            ++ String "'" (QuickQuestions.escape_js_string (answer q)
            ++ String "'" (" }" ++ tail)))))%string.
  rewrite QuickQuestionsFacts.outside_plain by reflexivity.
  change (QuickQuestions.single_quoted None (String "'" ?x))
    with (QuickQuestions.single_quoted (Some ""%string) x).
  destruct (TextFile.no_cr (question q)) eqn:Hq.
  - rewrite QuickQuestionsFacts.read_escaped by exact Hq.
    rewrite QuickQuestionsFacts.outside_plain by reflexivity.
    change (QuickQuestions.single_quoted None (String "'" ?x))
      with (QuickQuestions.single_quoted (Some ""%string) x).
    now rewrite QuickQuestionsFacts.read_carriage_return.
  - now apply QuickQuestionsFacts.read_carriage_return.
Qed.

Lemma carriage_return_breaks_entry_witness :
  QuickQuestions.single_quoted None
    (QuickQuestions.question_entry
       (mkRecord 1 "Why?" (String (ascii_of_N 13) "Because."))
       ++ "]")%string = None.
Proof.
  apply (carriage_return_breaks_entry
           (mkRecord 1 "Why?" (String (ascii_of_N 13) "Because.")) "]").
  reflexivity.
Defined.

(** X14 ([generate_quick_questions_jsx], lines 47-81): when the section
    names hold no single quote, backslash, line feed or carriage return
    (they are written without escaping) and the questions and answers hold
    no carriage return, the single-quoted literals of the text built by the
    loop are the module name of the import line and then, category after
    category in the order of the mapping, the identifier, the title, and
    the question and the answer of each question. *)
Theorem quick_questions_literals (faq_data : dict (list Record_)) :
  Forall (fun item =>
            QuickQuestions.plain_text (fst item) = true /\
            Forall QuickQuestions.no_cr_texts (snd item)) faq_data ->
  QuickQuestions.single_quoted None (QuickQuestions.quick_questions faq_data)
  = Some ("react"%string
            :: flat_map QuickQuestions.category_literals faq_data).
Proof.
  intros H. unfold QuickQuestions.quick_questions.
  rewrite QuickQuestionsArrayFacts.for_sections_app.
  change (("import { useState } from 'react';" ++ PyStrOps.LF ++ PyStrOps.LF
             ++ "const QUICK_QUESTIONS = [" ++ PyStrOps.LF)
            ++ QuickQuestions.for_sections 0 faq_data "")%string
    with ("import { useState } from "
            ++ String "'" ("react"
            ++ String "'" ((";" ++ PyStrOps.LF ++ PyStrOps.LF
                              ++ "const QUICK_QUESTIONS = [" ++ PyStrOps.LF)
            ++ QuickQuestions.for_sections 0 faq_data "")))%string.
  rewrite QuickQuestionsFacts.outside_plain by reflexivity.
  change (QuickQuestions.single_quoted None (String "'" ?x))
    with (QuickQuestions.single_quoted (Some ""%string) x).
  rewrite QuickQuestionsArrayFacts.read_plain by reflexivity.
  rewrite QuickQuestionsFacts.outside_plain by reflexivity.
  now rewrite QuickQuestionsArrayFacts.read_sections.
Qed.

Lemma quick_questions_literals_witness :
  QuickQuestions.single_quoted None
    (QuickQuestions.quick_questions
       [("Claims Status", [mkRecord 1 "Where's it?" "Paid."]);
        ("Travel Desk", [])])
  = Some ["react"; "claims-status"; "Claims Status"; "Where's it?"; "Paid.";
          "travel-desk"; "Travel Desk"]%string.
Proof.
  apply (quick_questions_literals
           [("Claims Status", [mkRecord 1 "Where's it?" "Paid."]);
            ("Travel Desk", [])]).
  repeat constructor.
Defined.
